(** * Task management API: auto-completion worker, record store, listing

    A shallow embedding of the Go packages [models], [repository],
    [service] (task service and background worker) and [handler], and the
    properties of the specification that they decide.

    Conventions of the embedding.
    - Go's [int] and [int64] are 64-bit two's-complement integers, written
      as [Z] with the wrap-around spelled out ([wrap64]); [/] and [%] are
      Go's truncated division ([Z.quot], [Z.rem]) and panic on a zero
      divisor.
    - [time.Time] is a count of nanoseconds, [time.Duration] an [int64] of
      nanoseconds.
    - [primitive.ObjectID] is the number its twelve bytes denote.
    - A Go [error] built by [fmt.Errorf] is its message.
    - The MongoDB collection is the list of its documents in natural order;
      every driver call may fail for reasons outside the program (network,
      deadline), which the environment decides through a script of faults.
    - Each [log.Printf] call site is one constructor of [LogLine]. *)

From Stdlib Require Import ZArith NArith Ascii String List Bool Lia Sorted
  Permutation.
Import ListNotations.
Local Open Scope string_scope.
Local Open Scope list_scope.
Local Open Scope Z_scope.

(** ** Machine integers *)

Definition int64_min : Z := - 2 ^ 63.
Definition int64_max : Z := 2 ^ 63 - 1.

(** Reduction of a mathematical integer to the [int64] it is stored as. *)
Definition wrap64 (z : Z) : Z := (z + 2 ^ 63) mod 2 ^ 64 - 2 ^ 63.

Definition in_int64 (z : Z) : Prop := int64_min <= z <= int64_max.

Definition add64 (a b : Z) : Z := wrap64 (a + b).
Definition mul64 (a b : Z) : Z := wrap64 (a * b).
Definition neg64 (a : Z) : Z := wrap64 (- a).

(** ** Results of Go calls *)

(** [(T, error)] as returned by the repository and service methods. *)
Inductive go_result (A : Type) : Type :=
| Ok (a : A)
| Err (msg : string).
Arguments Ok {A} a.
Arguments Err {A} msg.

(** A call either returns or panics at run time. *)
Inductive run (A : Type) : Type :=
| Returns (a : A)
| Panics (msg : string).
Arguments Returns {A} a.
Arguments Panics {A} msg.

Definition ObjectID : Type := N.
Definition Time : Type := Z.
Definition Duration : Type := Z.

(** [time.Minute], in nanoseconds. *)
Definition Minute : Duration := 60000000000.

(** [t.Add(d)] *)
Definition Time_Add (t : Time) (d : Duration) : Time := t + d.

(** [t.Before(u)] *)
Definition Time_Before (t u : Time) : bool := t <? u.

(** ** package models *)

Module models.

Definition TaskStatus : Type := string.
Definition TaskStatusPending : TaskStatus := "pending".
Definition TaskStatusInProgress : TaskStatus := "in_progress".
Definition TaskStatusCompleted : TaskStatus := "completed".

Definition UserRole : Type := string.
Definition UserRoleAdmin : UserRole := "admin".

Record Task : Type := mkTask {
  ID : ObjectID;
  UserID : ObjectID;
  Title : string;
  Description : string;
  Status : TaskStatus;
  CreatedAt : Time;
  UpdatedAt : Time
}.

(** The fields of [User] carry the struct's name: [ID] and [CreatedAt]
    are taken by [Task]. *)
Record User : Type := mkUser {
  User_ID : ObjectID;
  User_Email : string;
  User_Username : string;
  User_Password : string;
  User_Role : UserRole;
  User_CreatedAt : Time
}.

Record TaskListResponse : Type := mkTaskListResponse {
  Tasks : list Task;
  Page : Z;
  Limit : Z;
  TotalCount : Z;
  TotalPages : Z
}.

End models.

(** ** Log output

    One constructor per [log.Printf] call of the worker. *)
Inductive LogLine : Type :=
| LogErrorFindingPending (err : string)      (* "Error finding pending tasks: %v" *)
| LogQueued (id : ObjectID)                  (* "Queued task %s for auto-completion" *)
| LogChannelFull (id : ObjectID)             (* "Task channel full, skipping task %s" *)
| LogNotFoundSkipping (id : ObjectID)        (* "Task %s not found or already deleted, skipping auto-completion" *)
| LogFailedAutoComplete (id : ObjectID) (err : string) (* "Failed to auto-complete task %s: %v" *)
| LogAutoCompleted (id : ObjectID)           (* "Auto-completed task %s" *)
| LogWorkerStarting (minutes : Z)            (* "Starting background worker - ..." *)
| LogWorkerStopped.                          (* "Background worker stopped" *)

(** ** The world the program runs in, and the MongoDB driver *)

Module mongo.

(** The [tasks] collection, the wall clock, the faults the environment
    will inject into the coming driver calls, and the log written so
    far.  [clock n] is what the [n]-th call of [time.Now()] returns. *)
Record World : Type := mkWorld {
  docs : list models.Task;
  clock : nat -> Time;
  reads : nat;
  faults : list (option string);
  log : list LogLine
}.

Definition set_docs (d : list models.Task) (w : World) : World :=
  mkWorld d (clock w) (reads w) (faults w) (log w).
Definition set_reads (n : nat) (w : World) : World :=
  mkWorld (docs w) (clock w) n (faults w) (log w).
Definition set_faults (f : list (option string)) (w : World) : World :=
  mkWorld (docs w) (clock w) (reads w) f (log w).
Definition set_log (l : list LogLine) (w : World) : World :=
  mkWorld (docs w) (clock w) (reads w) (faults w) l.

(** Computations that read and change the world. *)
Definition M (A : Type) : Type := World -> A * World.

Definition ret {A} (a : A) : M A := fun w => (a, w).
Definition bind {A B} (m : M A) (k : A -> M B) : M B :=
  fun w => let (a, w') := m w in k a w'.

(** [time.Now()] *)
Definition Now : M Time :=
  fun w => (clock w (reads w), set_reads (S (reads w)) w).

(** [log.Printf] *)
Definition Printf (l : LogLine) : M unit :=
  fun w => (tt, set_log (log w ++ [l]) w).

(** Errors of the driver: the sentinel [mongo.ErrNoDocuments], or any
    other failure with its message. *)
Inductive error : Type :=
| ErrNoDocuments
| ErrDriver (msg : string).

(** [err.Error()] *)
Definition Error (e : error) : string :=
  match e with
  | ErrNoDocuments => "mongo: no documents in result"
  | ErrDriver msg => msg
  end.

Definition result (A : Type) : Type := (A + error)%type.

(** Every driver call first learns whether the environment fails it. *)
Definition injected : M (option string) :=
  fun w => match faults w with
           | [] => (None, w)
           | f :: fs => (f, set_faults fs w)
           end.

(** A [bson.M] query is the predicate it denotes on documents. *)
Definition Query : Type := models.Task -> bool.

(** [collection.FindOne(ctx, q).Decode(&task)] *)
Definition FindOne (q : Query) : M (result models.Task) :=
  bind injected (fun f w =>
    match f with
    | Some msg => (inr (ErrDriver msg), w)
    | None => match find q (docs w) with
              | Some t => (inl t, w)
              | None => (inr ErrNoDocuments, w)
              end
    end).

(** The first document matching [q] is replaced by its update. *)
Fixpoint update_first (q : Query) (upd : models.Task -> models.Task)
         (l : list models.Task) : list models.Task :=
  match l with
  | [] => []
  | t :: l' => if q t then upd t :: l' else t :: update_first q upd l'
  end.

(** [collection.UpdateOne(ctx, q, update)], returning [MatchedCount]. *)
Definition UpdateOne (q : Query) (upd : models.Task -> models.Task)
  : M (result Z) :=
  bind injected (fun f w =>
    match f with
    | Some msg => (inr (ErrDriver msg), w)
    | None => if existsb q (docs w)
              then (inl 1, set_docs (update_first q upd (docs w)) w)
              else (inl 0, w)
    end).

(** The first document matching [q] is dropped. *)
Fixpoint delete_first (q : Query) (l : list models.Task) : list models.Task :=
  match l with
  | [] => []
  | t :: l' => if q t then l' else t :: delete_first q l'
  end.

(** [collection.DeleteOne(ctx, q)], returning [DeletedCount]. *)
Definition DeleteOne (q : Query) : M (result Z) :=
  bind injected (fun f w =>
    match f with
    | Some msg => (inr (ErrDriver msg), w)
    | None => if existsb q (docs w)
              then (inl 1, set_docs (delete_first q (docs w)) w)
              else (inl 0, w)
    end).

(** [collection.CountDocuments(ctx, q)] *)
Definition CountDocuments (q : Query) : M (result Z) :=
  bind injected (fun f w =>
    match f with
    | Some msg => (inr (ErrDriver msg), w)
    | None => (inl (Z.of_nat (length (filter q (docs w)))), w)
    end).

(** Sort direction of [bson.D{{Key: "created_at", Value: v}}]:
    [1] ascending, [-1] descending. *)
Inductive SortSpec : Type :=
| ByCreatedAt (direction : Z).

Definition sort_leb (s : SortSpec) (a b : models.Task) : bool :=
  match s with
  | ByCreatedAt d =>
      if 0 <=? d then models.CreatedAt a <=? models.CreatedAt b
      else models.CreatedAt b <=? models.CreatedAt a
  end.

Fixpoint insert_sorted (leb : models.Task -> models.Task -> bool)
         (t : models.Task) (l : list models.Task) : list models.Task :=
  match l with
  | [] => [t]
  | u :: l' => if leb t u then t :: l else u :: insert_sorted leb t l'
  end.

(** The server's sort, taken to keep documents with equal keys in
    natural order. *)
Fixpoint sort_docs (leb : models.Task -> models.Task -> bool)
         (l : list models.Task) : list models.Task :=
  match l with
  | [] => []
  | t :: l' => insert_sorted leb t (sort_docs leb l')
  end.

(** [options.Find()] with its setters. *)
Record FindOptions : Type := mkFindOptions {
  Skip : option Z;
  Limit : option Z;
  Sort : option SortSpec
}.

Definition Find_ : FindOptions := mkFindOptions None None None.
Definition SetSkip (n : Z) (o : FindOptions) : FindOptions :=
  mkFindOptions (Some n) (Limit o) (Sort o).
Definition SetLimit (n : Z) (o : FindOptions) : FindOptions :=
  mkFindOptions (Skip o) (Some n) (Sort o).
Definition SetSort (s : SortSpec) (o : FindOptions) : FindOptions :=
  mkFindOptions (Skip o) (Limit o) (Some s).

(** What the server does with the matching documents: sort, skip,
    limit.  A limit of [0] means no limit and a negative limit counts by
    its absolute value. *)
Definition window (o : FindOptions) (l : list models.Task)
  : list models.Task :=
  let sorted := match Sort o with
                | Some s => sort_docs (sort_leb s) l
                | None => l
                end in
  let skipped := match Skip o with
                 | Some n => skipn (Z.to_nat n) sorted
                 | None => sorted
                 end in
  match Limit o with
  | Some n => if n =? 0 then skipped else firstn (Z.abs_nat n) skipped
  | None => skipped
  end.

(** [collection.Find(ctx, q, opts)]: the cursor over the result.  The
    server rejects a negative skip. *)
Definition Find (q : Query) (o : FindOptions)
  : M (result (list models.Task)) :=
  bind injected (fun f w =>
    match f with
    | Some msg => (inr (ErrDriver msg), w)
    | None =>
        match Skip o with
        | Some n =>
            if n <? 0
            then (inr (ErrDriver "skip value must be non-negative"), w)
            else (inl (window o (filter q (docs w))), w)
        | None => (inl (window o (filter q (docs w))), w)
        end
    end).

(** [cursor.All(ctx, &tasks)] *)
Definition All (cursor : list models.Task) : M (result (list models.Task)) :=
  bind injected (fun f w =>
    match f with
    | Some msg => (inr (ErrDriver msg), w)
    | None => (inl cursor, w)
    end).

End mongo.

Notation "x <- m ;; k" := (mongo.bind m (fun x => k))
  (at level 61, m at next level, right associativity).

(** Go's [a / b] and [a % b] on [int]: truncated towards zero, a run-time
    panic when the divisor is zero. *)
Definition go_div (a b : Z) : run Z :=
  if b =? 0 then Panics "runtime error: integer divide by zero"
  else Returns (wrap64 (Z.quot a b)).

Definition go_rem (a b : Z) : run Z :=
  if b =? 0 then Panics "runtime error: integer divide by zero"
  else Returns (Z.rem a b).

Definition run_bind {A B} (r : run A) (k : A -> run B) : run B :=
  match r with
  | Returns a => k a
  | Panics msg => Panics msg
  end.

(** ** package repository

    Every method holds the repository's lock from entry to return, so a
    method is one indivisible transformation of the world.  Its deadline
    ([context.WithTimeout]) is one of the reasons a driver call can fail. *)

Module repository.

Import mongo.

Record TaskFilter : Type := mkTaskFilter {
  Status : option models.TaskStatus;
  Page : Z;
  Limit : Z
}.

Definition set_Status (s : option models.TaskStatus) (f : TaskFilter)
  : TaskFilter := mkTaskFilter s (Page f) (Limit f).
Definition set_Page (p : Z) (f : TaskFilter) : TaskFilter :=
  mkTaskFilter (Status f) p (Limit f).
Definition set_Limit (l : Z) (f : TaskFilter) : TaskFilter :=
  mkTaskFilter (Status f) (Page f) l.

(** [bson.M{"_id": id}] *)
Definition by_id (id : ObjectID) : Query :=
  fun t => (models.ID t =? id)%N.

Definition FindByID (id : ObjectID) : M (go_result models.Task) :=
  r <- FindOne (by_id id) ;;
  match r with
  | inr ErrNoDocuments => ret (Err "task not found")
  | inr err => ret (Err ("failed to find task: " ++ Error err)%string)
  | inl task => ret (Ok task)
  end.

(** [query["status"] = *filter.Status] when the filter has a status. *)
Definition with_status (filter : TaskFilter) (q : Query) : Query :=
  match Status filter with
  | Some s => fun t => q t && String.eqb (models.Status t) s
  | None => q
  end.

(** "Set pagination defaults": on the method's own copy of the filter. *)
Definition defaults (filter : TaskFilter) : TaskFilter :=
  let filter := if Page filter <? 1 then set_Page 1 filter else filter in
  if Limit filter <? 1 then set_Limit 10 filter else filter.

(** "Calculate skip" *)
Definition skip_of (filter : TaskFilter) : Z :=
  mul64 (wrap64 (Page filter - 1)) (Limit filter).

(** The part shared by [FindByUserID] and [FindAll], which differ in the
    query only. *)
Definition find_page (query : Query) (filter : TaskFilter)
  : M (go_result (list models.Task * Z)) :=
  c <- CountDocuments query ;;
  match c with
  | inr err => ret (Err ("failed to count tasks: " ++ Error err)%string)
  | inl totalCount =>
      let filter := defaults filter in
      let skip := skip_of filter in
      let findOptions :=
        SetSort (ByCreatedAt (-1))
          (SetLimit (Limit filter) (SetSkip skip Find_)) in
      cur <- Find query findOptions ;;
      match cur with
      | inr err => ret (Err ("failed to find tasks: " ++ Error err)%string)
      | inl cursor =>
          a <- All cursor ;;
          match a with
          | inr err => ret (Err ("failed to decode tasks: " ++ Error err)%string)
          | inl tasks => ret (Ok (tasks, totalCount))
          end
      end
  end.

Definition FindByUserID (userID : ObjectID) (filter : TaskFilter)
  : M (go_result (list models.Task * Z)) :=
  find_page
    (with_status filter (fun t => (models.UserID t =? userID)%N)) filter.

Definition FindAll (filter : TaskFilter)
  : M (go_result (list models.Task * Z)) :=
  find_page (with_status filter (fun _ => true)) filter.

Definition Delete (id : ObjectID) : M (go_result unit) :=
  r <- DeleteOne (by_id id) ;;
  match r with
  | inr err => ret (Err ("failed to delete task: " ++ Error err)%string)
  | inl DeletedCount =>
      if DeletedCount =? 0 then ret (Err "task not found") else ret (Ok tt)
  end.

(** The [$set] document of [UpdateStatus]. *)
Definition set_status (status : models.TaskStatus) (now : Time)
           (t : models.Task) : models.Task :=
  models.mkTask (models.ID t) (models.UserID t) (models.Title t)
    (models.Description t) status (models.CreatedAt t) now.

Definition UpdateStatus (id : ObjectID) (status : models.TaskStatus)
  : M (go_result unit) :=
  now <- Now ;;
  let update := set_status status now in
  r <- UpdateOne (by_id id) update ;;
  match r with
  | inr err => ret (Err ("failed to update task status: " ++ Error err)%string)
  | inl MatchedCount =>
      if MatchedCount =? 0 then ret (Err "task not found") else ret (Ok tt)
  end.

(** The query of [FindPendingTasks]: status in [pending, in_progress]
    and [created_at < olderThan]. *)
Definition pending_before (olderThan : Time) : Query :=
  fun t =>
    existsb (String.eqb (models.Status t))
      [models.TaskStatusPending; models.TaskStatusInProgress]
    && (models.CreatedAt t <? olderThan).

Definition FindPendingTasks (olderThan : Time)
  : M (go_result (list models.Task)) :=
  let query := pending_before olderThan in
  cur <- Find query (SetSort (ByCreatedAt 1) Find_) ;;
  match cur with
  | inr err => ret (Err ("failed to find pending tasks: " ++ Error err)%string)
  | inl cursor =>
      a <- All cursor ;;
      match a with
      | inr err => ret (Err ("failed to decode tasks: " ++ Error err)%string)
      | inl tasks => ret (Ok tasks)
      end
  end.

End repository.

(** ** Buffered channels of identifiers *)

Module channel.

(** A [chan primitive.ObjectID]: the buffered values, oldest first, the
    capacity given to [make], and whether [close] was called. *)
Record chan : Type := mkChan {
  buf : list ObjectID;
  cap : nat;
  closed : bool
}.

(** [make(chan primitive.ObjectID, n)] *)
Definition make (n : nat) : chan := mkChan [] n false.

(** [close(c)] *)
Definition close (c : chan) : run chan :=
  if closed c then Panics "close of closed channel"
  else Returns (mkChan (buf c) (cap c) true).

(** The outcome of [select { case c <- v: ...; default: ... }]. *)
Inductive offer : Type :=
| Sent (c' : chan)
| Default
| SendOnClosed.

Definition try_send (c : chan) (v : ObjectID) : offer :=
  if closed c then SendOnClosed
  else if (length (buf c) <? cap c)%nat
       then Sent (mkChan (buf c ++ [v]) (cap c) (closed c))
       else Default.

(** What a receive [v, ok := <-c] finds: a buffered value, a closed and
    drained channel, or nothing yet (the receive is not ready). *)
Inductive receipt : Type :=
| Received (v : ObjectID) (c' : chan)
| Closed
| NotReady.

Definition recv (c : chan) : receipt :=
  match buf c with
  | v :: rest => Received v (mkChan rest (cap c) (closed c))
  | [] => if closed c then Closed else NotReady
  end.

End channel.

(** ** package service *)

Module service.

Import mongo.

Definition IsValidStatus (status : models.TaskStatus) : bool :=
  String.eqb status models.TaskStatusPending
  || String.eqb status models.TaskStatusInProgress
  || String.eqb status models.TaskStatusCompleted.

(** The authorization check of [GetTask] and [DeleteTask]:
    [user.Role != models.UserRoleAdmin && task.UserID != user.ID]. *)
Definition denied (user : models.User) (task : models.Task) : bool :=
  negb (String.eqb (models.User_Role user) models.UserRoleAdmin)
  && negb (models.UserID task =? models.User_ID user)%N.

Definition GetTask (taskID : ObjectID) (user : models.User)
  : M (go_result models.Task) :=
  r <- repository.FindByID taskID ;;
  match r with
  | Err err => ret (Err err)
  | Ok task =>
      if denied user task then ret (Err "unauthorized access to task")
      else ret (Ok task)
  end.

(** "Calculate total pages" *)
Definition totalPages (totalCount : Z) (limit : Z) : run Z :=
  run_bind (go_div totalCount limit) (fun totalPages =>
  run_bind (go_rem totalCount limit) (fun r =>
  Returns (if r >? 0 then add64 totalPages 1 else totalPages))).

Definition ListTasks (user : models.User) (filter : repository.TaskFilter)
  : M (run (go_result models.TaskListResponse)) :=
  r <- (if String.eqb (models.User_Role user) models.UserRoleAdmin
        then repository.FindAll filter
        else repository.FindByUserID (models.User_ID user) filter) ;;
  match r with
  | Err err => ret (Returns (Err err))
  | Ok (tasks, totalCount) =>
      ret (run_bind (totalPages totalCount (repository.Limit filter))
             (fun totalPages =>
                Returns (Ok (models.mkTaskListResponse
                               tasks
                               (repository.Page filter)
                               (repository.Limit filter)
                               totalCount
                               totalPages))))
  end.

Definition DeleteTask (taskID : ObjectID) (user : models.User)
  : M (go_result unit) :=
  r <- repository.FindByID taskID ;;
  match r with
  | Err err => ret (Err err)
  | Ok task =>
      if denied user task then ret (Err "unauthorized to delete this task")
      else repository.Delete taskID
  end.

End service.

(** ** package service, file worker.go: the background worker *)

Module worker.

Import mongo.

(** [TaskWorker]: the repository is the world; the channel is held by
    value, every goroutine working on this one record. *)
Record TaskWorker : Type := mkTaskWorker {
  autoCompleteMinutes : Z;
  taskChannel : channel.chan
}.

Definition set_taskChannel (c : channel.chan) (w : TaskWorker) : TaskWorker :=
  mkTaskWorker (autoCompleteMinutes w) c.

Definition NewTaskWorker (autoCompleteMinutes : Z) : TaskWorker :=
  mkTaskWorker autoCompleteMinutes (channel.make 100).

(** [-time.Duration(w.autoCompleteMinutes) * time.Minute] *)
Definition autoCompleteWindow (w : TaskWorker) : Duration :=
  mul64 (neg64 (autoCompleteMinutes w)) Minute.

(** [time.Now().Add(-time.Duration(w.autoCompleteMinutes) * time.Minute)] *)
Definition threshold (w : TaskWorker) : M Time :=
  now <- Now ;;
  ret (Time_Add now (autoCompleteWindow w)).

(** The loop "Queue tasks for auto-completion" of [checkAndQueueTasks]. *)
Fixpoint queueTasks (tasks : list models.Task) (c : channel.chan)
  : M (run channel.chan) :=
  match tasks with
  | [] => ret (Returns c)
  | task :: rest =>
      match channel.try_send c (models.ID task) with
      | channel.Sent c' =>
          _ <- Printf (LogQueued (models.ID task)) ;;
          queueTasks rest c'
      | channel.Default =>
          _ <- Printf (LogChannelFull (models.ID task)) ;;
          queueTasks rest c
      | channel.SendOnClosed => ret (Panics "send on closed channel")
      end
  end.

Definition checkAndQueueTasks (w : TaskWorker) : M (run TaskWorker) :=
  threshold <- threshold w ;;
  r <- repository.FindPendingTasks threshold ;;
  match r with
  | Err err =>
      _ <- Printf (LogErrorFindingPending err) ;;
      ret (Returns w)
  | Ok tasks =>
      c <- queueTasks tasks (taskChannel w) ;;
      match c with
      | Returns c' => ret (Returns (set_taskChannel c' w))
      | Panics msg => ret (Panics msg)
      end
  end.

(** "Only auto-complete if still in pending or in_progress status" *)
Definition still_open (task : models.Task) : bool :=
  String.eqb (models.Status task) models.TaskStatusPending
  || String.eqb (models.Status task) models.TaskStatusInProgress.

Definition autoCompleteTask (w : TaskWorker) (taskID : ObjectID) : M unit :=
  r <- repository.FindByID taskID ;;
  match r with
  | Err _ => Printf (LogNotFoundSkipping taskID)
  | Ok task =>
      if still_open task then
        threshold <- threshold w ;;
        if Time_Before (models.CreatedAt task) threshold then
          e <- repository.UpdateStatus taskID models.TaskStatusCompleted ;;
          match e with
          | Err err => Printf (LogFailedAutoComplete taskID err)
          | Ok _ => Printf (LogAutoCompleted taskID)
          end
        else ret tt
      else ret tt
  end.

(** *** The goroutines of [Start]

    [Start] launches three [processTasksFromChannel] goroutines and then
    runs the scanner loop.  A [select] takes any one of its ready cases,
    so the goroutines are a transition system: each transition is one
    pass through one goroutine's [select], the call it leads to
    ([checkAndQueueTasks], [autoCompleteTask]) run to its return. *)

Inductive goroutine : Type :=
| Running
| Returned.

Record System : Type := mkSystem {
  tw : TaskWorker;
  world : World;
  done : bool;                (* [ctx.Done()] is closed *)
  tick : bool;                (* [ticker.C] holds a tick *)
  scanner : goroutine;        (* the [for] loop of [Start] *)
  workers : list goroutine;   (* the [processTasksFromChannel] goroutines *)
  handled : list ObjectID;    (* identifiers given to [autoCompleteTask], oldest first *)
  panicked : bool             (* a goroutine panicked: the process is dead *)
}.

Definition queue (s : System) : list ObjectID :=
  channel.buf (taskChannel (tw s)).

(** The state [Start] reaches before its loop: the start-up line logged,
    three workers launched, the ticker created. *)
Definition Start (w : TaskWorker) (wd : World) : System :=
  mkSystem w
    (snd (Printf (LogWorkerStarting (autoCompleteMinutes w)) wd))
    false false Running [Running; Running; Running] [] false.

Fixpoint set_nth (i : nat) (g : goroutine) (l : list goroutine)
  : list goroutine :=
  match l, i with
  | [], _ => []
  | _ :: l', O => g :: l'
  | x :: l', S i' => x :: set_nth i' g l'
  end.

Inductive step : System -> System -> Prop :=
(* the environment *)
| env_cancel s :
    panicked s = false ->
    step s (mkSystem (tw s) (world s) true (tick s) (scanner s)
              (workers s) (handled s) false)
| env_tick s :
    panicked s = false ->
    step s (mkSystem (tw s) (world s) (done s) true (scanner s)
              (workers s) (handled s) false)
| env_world s wd :
    (* the request handlers act on the store, time passes *)
    panicked s = false ->
    step s (mkSystem (tw s) wd (done s) (tick s) (scanner s)
              (workers s) (handled s) false)
(* [Start]: case <-ctx.Done() *)
| Start_ctx_Done s c wd :
    panicked s = false ->
    scanner s = Running ->
    done s = true ->
    Printf LogWorkerStopped (world s) = (tt, wd) ->
    channel.close (taskChannel (tw s)) = Returns c ->
    step s (mkSystem (set_taskChannel c (tw s)) wd (done s) (tick s)
              Returned (workers s) (handled s) false)
| Start_ctx_Done_panics s msg wd :
    panicked s = false ->
    scanner s = Running ->
    done s = true ->
    Printf LogWorkerStopped (world s) = (tt, wd) ->
    channel.close (taskChannel (tw s)) = Panics msg ->
    step s (mkSystem (tw s) wd (done s) (tick s) (scanner s)
              (workers s) (handled s) true)
(* [Start]: case <-ticker.C *)
| Start_ticker s w' wd :
    panicked s = false ->
    scanner s = Running ->
    tick s = true ->
    checkAndQueueTasks (tw s) (world s) = (Returns w', wd) ->
    step s (mkSystem w' wd (done s) false (scanner s)
              (workers s) (handled s) false)
| Start_ticker_panics s msg wd :
    panicked s = false ->
    scanner s = Running ->
    tick s = true ->
    checkAndQueueTasks (tw s) (world s) = (Panics msg, wd) ->
    step s (mkSystem (tw s) wd (done s) false (scanner s)
              (workers s) (handled s) true)
(* [processTasksFromChannel]: case <-ctx.Done() *)
| processTasksFromChannel_ctx_Done s i :
    panicked s = false ->
    nth_error (workers s) i = Some Running ->
    done s = true ->
    step s (mkSystem (tw s) (world s) (done s) (tick s) (scanner s)
              (set_nth i Returned (workers s)) (handled s) false)
(* [processTasksFromChannel]: case taskID, ok := <-w.taskChannel, ok *)
| processTasksFromChannel_received s i taskID c :
    panicked s = false ->
    nth_error (workers s) i = Some Running ->
    channel.recv (taskChannel (tw s)) = channel.Received taskID c ->
    step s (mkSystem (set_taskChannel c (tw s))
              (snd (autoCompleteTask (tw s) taskID (world s)))
              (done s) (tick s) (scanner s) (workers s)
              (handled s ++ [taskID]) false)
(* [processTasksFromChannel]: case taskID, ok := <-w.taskChannel, !ok *)
| processTasksFromChannel_closed s i :
    panicked s = false ->
    nth_error (workers s) i = Some Running ->
    channel.recv (taskChannel (tw s)) = channel.Closed ->
    step s (mkSystem (tw s) (world s) (done s) (tick s) (scanner s)
              (set_nth i Returned (workers s)) (handled s) false).

(** Executions: any number of transitions. *)
Inductive steps : System -> System -> Prop :=
| steps_refl s : steps s s
| steps_step s1 s2 s3 : step s1 s2 -> steps s2 s3 -> steps s1 s3.

End worker.

(** ** package handler *)

Module handler.

Import mongo.

(** What the handler reads of an [*http.Request]: the user the
    authentication middleware left in the context, and the query
    parameters in the order of the URL. *)
Record Request : Type := mkRequest {
  ctxUser : option models.User;
  URLQuery : list (string * string)
}.

(** [r.URL.Query().Get(key)]: the first value of [key], or [""]. *)
Fixpoint Get (q : list (string * string)) (key : string) : string :=
  match q with
  | [] => EmptyString
  | (k, v) :: q' => if String.eqb k key then v else Get q' key
  end.

(** [service.GetUserFromContext] *)
Definition GetUserFromContext (r : Request) : go_result models.User :=
  match ctxUser r with
  | Some user => Ok user
  | None => Err "user not found in context"
  end.

(** [strconv.Atoi] on a 64-bit platform: an optional sign, then one or
    more decimal digits, the value within [int]. *)
Fixpoint digits (s : string) (acc : Z) : option Z :=
  match s with
  | EmptyString => Some acc
  | String c s' =>
      let n := Z.of_nat (Ascii.nat_of_ascii c) in
      if (48 <=? n) && (n <=? 57) then digits s' (10 * acc + (n - 48))
      else None
  end.

Definition Atoi (s : string) : go_result Z :=
  let (neg, body) :=
    match s with
    | String "-"%char s' => (true, s')
    | String "+"%char s' => (false, s')
    | _ => (false, s)
    end in
  match body with
  | EmptyString => Err "invalid syntax"
  | _ =>
      match digits body 0 with
      | None => Err "invalid syntax"
      | Some n =>
          let v := if neg then - n else n in
          if (int64_min <=? v) && (v <=? int64_max) then Ok v
          else Err "value out of range"
      end
  end.

(** The body of a response: [models.ErrorResponse] with its message, or
    the listing. *)
Inductive Body : Type :=
| ErrorResponse (message : string)
| TaskList (response : models.TaskListResponse).

Record Response : Type := mkResponse {
  code : Z;
  body : Body
}.

(** [utils.RespondError] *)
Definition RespondError (status : Z) (message : string) : Response :=
  mkResponse status (ErrorResponse message).

Definition StatusOK : Z := 200.
Definition StatusBadRequest : Z := 400.
Definition StatusUnauthorized : Z := 401.
Definition StatusInternalServerError : Z := 500.

(** "Parse query parameters for pagination and filtering": the filter
    [ListTasks] hands to the service, or the message of its 400. *)
Definition listFilter (r : Request) : go_result repository.TaskFilter :=
  let filter := repository.mkTaskFilter None 1 10 in
  let pageStr := Get (URLQuery r) "page" in
  let filter :=
    if negb (String.eqb pageStr "") then
      match Atoi pageStr with
      | Ok page =>
          if page >? 0 then repository.set_Page page filter else filter
      | Err _ => filter
      end
    else filter in
  let limitStr := Get (URLQuery r) "limit" in
  let filter :=
    if negb (String.eqb limitStr "") then
      match Atoi limitStr with
      | Ok limit =>
          if (limit >? 0) && (limit <=? 100)
          then repository.set_Limit limit filter else filter
      | Err _ => filter
      end
    else filter in
  let statusStr := Get (URLQuery r) "status" in
  if negb (String.eqb statusStr "") then
    let status : models.TaskStatus := statusStr in
    if service.IsValidStatus status
    then Ok (repository.set_Status (Some status) filter)
    else Err "invalid status filter, must be one of: pending, in_progress, completed"
  else Ok filter.

Definition ListTasks (r : Request) : M (run Response) :=
  match GetUserFromContext r with
  | Err _ => ret (Returns (RespondError StatusUnauthorized "unauthorized"))
  | Ok user =>
      match listFilter r with
      | Err message => ret (Returns (RespondError StatusBadRequest message))
      | Ok filter =>
          res <- service.ListTasks user filter ;;
          match res with
          | Panics msg => ret (Panics msg)
          | Returns (Err _) =>
              ret (Returns (RespondError StatusInternalServerError
                              "failed to list tasks"))
          | Returns (Ok response) =>
              ret (Returns (mkResponse StatusOK (TaskList response)))
          end
      end
  end.

End handler.

(** ** The write path: [models.NewTask], [TaskRepository.Create],
    [TaskService.CreateTask] *)

Module tasks.

Import mongo.

(** [models.CreateTaskRequest] *)
Record CreateTaskRequest : Type := mkCreateTaskRequest {
  Title : string;
  Description : string;
  Status : models.TaskStatus
}.

(** [models.NewTask]: the identifier is left as the zero value. *)
Definition NewTask (userID : ObjectID) (title description : string)
           (status : models.TaskStatus) : M models.Task :=
  now <- Now ;;
  ret (models.mkTask 0%N userID title description status now now).

Definition set_ID (id : ObjectID) (t : models.Task) : models.Task :=
  models.mkTask id (models.UserID t) (models.Title t) (models.Description t)
    (models.Status t) (models.CreatedAt t) (models.UpdatedAt t).

(** [collection.InsertOne(ctx, task)], returning [InsertedID].  The field
    [_id] is tagged [omitempty]: a task with the zero identifier is stored
    under the identifier the driver generates for it, [generated]; the
    server refuses an identifier the collection already holds. *)
Definition InsertOne (generated : ObjectID) (task : models.Task)
  : M (result ObjectID) :=
  bind injected (fun f w =>
    match f with
    | Some msg => (inr (ErrDriver msg), w)
    | None =>
        let id := if (models.ID task =? 0)%N then generated
                  else models.ID task in
        if existsb (repository.by_id id) (docs w)
        then (inr (ErrDriver "E11000 duplicate key error"), w)
        else (inl id, set_docs (docs w ++ [set_ID id task]) w)
    end).

(** [TaskRepository.Create]: on success the task the caller holds has
    received the inserted identifier, and is what [Ok] carries. *)
Definition Create (generated : ObjectID) (task : models.Task)
  : M (go_result models.Task) :=
  r <- InsertOne generated task ;;
  match r with
  | inr err => ret (Err ("failed to create task: " ++ Error err)%string)
  | inl InsertedID => ret (Ok (set_ID InsertedID task))
  end.

(** [TaskService.CreateTask] *)
Definition CreateTask (generated : ObjectID) (userID : ObjectID)
           (req : CreateTaskRequest) : M (go_result models.Task) :=
  if String.eqb (Title req) "" then ret (Err "title is required")
  else
    let status := Status req in
    let status :=
      if String.eqb status "" then models.TaskStatusPending else status in
    if negb (service.IsValidStatus status)
    then ret (Err "invalid status, must be one of: pending, in_progress, completed")
    else
      task <- NewTask userID (Title req) (Description req) status ;;
      r <- Create generated task ;;
      match r with
      | Err err => ret (Err ("failed to create task: " ++ err)%string)
      | Ok task => ret (Ok task)
      end.

End tasks.

(** ** [primitive.ObjectID] in hexadecimal *)

Module primitive.

(** The value of a hexadecimal digit, as [encoding/hex] reads it: both
    cases of the letters. *)
Definition fromHexChar (c : ascii) : option N :=
  let n := N_of_ascii c in
  if ((48 <=? n) && (n <=? 57))%N then Some (n - 48)%N
  else if ((97 <=? n) && (n <=? 102))%N then Some (n - 87)%N
  else if ((65 <=? n) && (n <=? 70))%N then Some (n - 55)%N
  else None.

(** [hex.Decode]: the bytes, most significant first, as one number. *)
Fixpoint Decode (s : string) (acc : N) : option N :=
  match s with
  | EmptyString => Some acc
  | String c s' =>
      match fromHexChar c with
      | Some d => Decode s' (16 * acc + d)%N
      | None => None
      end
  end.

(** [primitive.ObjectIDFromHex]: twenty-four hexadecimal digits.  (The
    message of a digit that is none is shortened.) *)
Definition ObjectIDFromHex (s : string) : go_result ObjectID :=
  if negb (String.length s =? 24)%nat
  then Err "the provided hex string is not a valid ObjectID"
  else match Decode s 0%N with
       | Some id => Ok id
       | None => Err "encoding/hex: invalid byte"
       end.

(** The digit [hex.EncodeToString] writes for a value below sixteen. *)
Definition hexChar (d : N) : ascii :=
  if (d <? 10)%N then ascii_of_N (48 + d) else ascii_of_N (87 + d).

(** The [k] last hexadecimal digits of [n], in front of [acc]. *)
Fixpoint Encode (k : nat) (n : N) (acc : string) : string :=
  match k with
  | O => acc
  | S k' => Encode k' (n / 16)%N (String (hexChar (n mod 16)%N) acc)
  end.

(** [id.Hex()] *)
Definition Hex (id : ObjectID) : string := Encode 24 id EmptyString.

End primitive.

(** ** package handler: [CreateTask], [GetTask], [DeleteTask] *)

Module task_handler.

Import mongo.

(** What these handlers read of a request: the part [handler.Request]
    holds, the route variables of [mux.Vars], and the body as
    [json.Decode] reads it into a [CreateTaskRequest] ([None] when the
    decoding fails). *)
Record Request : Type := mkRequest {
  base : handler.Request;
  Vars : list (string * string);
  Body : option tasks.CreateTaskRequest
}.

(** What [utils.RespondJSON] is given. *)
Inductive Data : Type :=
| ErrorResponse (message : string)
| Task (task : models.Task)
| Message (message : string).    (* [map[string]string{"message": ...}] *)

Record Response : Type := mkResponse {
  code : Z;
  data : Data
}.

(** [utils.RespondError] *)
Definition RespondError (status : Z) (message : string) : Response :=
  mkResponse status (ErrorResponse message).

Definition StatusOK : Z := 200.
Definition StatusCreated : Z := 201.
Definition StatusBadRequest : Z := 400.
Definition StatusUnauthorized : Z := 401.
Definition StatusForbidden : Z := 403.
Definition StatusNotFound : Z := 404.
Definition StatusInternalServerError : Z := 500.

(** [generated] is the identifier the driver would give a new document. *)
Definition CreateTask (generated : ObjectID) (r : Request) : M Response :=
  match handler.GetUserFromContext (base r) with
  | Err _ => ret (RespondError StatusUnauthorized "unauthorized")
  | Ok user =>
      match Body r with
      | None => ret (RespondError StatusBadRequest "invalid request body")
      | Some req =>
          res <- tasks.CreateTask generated (models.User_ID user) req ;;
          match res with
          | Err err => ret (RespondError StatusBadRequest err)
          | Ok task => ret (mkResponse StatusCreated (Task task))
          end
      end
  end.

Definition GetTask (r : Request) : M Response :=
  match handler.GetUserFromContext (base r) with
  | Err _ => ret (RespondError StatusUnauthorized "unauthorized")
  | Ok user =>
      match primitive.ObjectIDFromHex (handler.Get (Vars r) "id") with
      | Err _ => ret (RespondError StatusBadRequest "invalid task ID")
      | Ok taskID =>
          res <- service.GetTask taskID user ;;
          match res with
          | Err err =>
              if String.eqb err "task not found"
              then ret (RespondError StatusNotFound "task not found")
              else if String.eqb err "unauthorized access to task"
              then ret (RespondError StatusForbidden
                          "you don't have permission to access this task")
              else ret (RespondError StatusInternalServerError
                          "failed to get task")
          | Ok task => ret (mkResponse StatusOK (Task task))
          end
      end
  end.

Definition DeleteTask (r : Request) : M Response :=
  match handler.GetUserFromContext (base r) with
  | Err _ => ret (RespondError StatusUnauthorized "unauthorized")
  | Ok user =>
      match primitive.ObjectIDFromHex (handler.Get (Vars r) "id") with
      | Err _ => ret (RespondError StatusBadRequest "invalid task ID")
      | Ok taskID =>
          res <- service.DeleteTask taskID user ;;
          match res with
          | Err err =>
              if String.eqb err "task not found"
              then ret (RespondError StatusNotFound "task not found")
              else if String.eqb err "unauthorized to delete this task"
              then ret (RespondError StatusForbidden
                          "you don't have permission to delete this task")
              else ret (RespondError StatusInternalServerError
                          "failed to delete task")
          | Ok _ => ret (mkResponse StatusOK
                           (Message "task deleted successfully"))
          end
      end
  end.

End task_handler.

(** ** Users: [models.NewUser], [UserRepository], [AuthService]

    The [users] collection is the list of its documents, passed to each
    method and, by [Create], returned; [createIndexes] gives it a unique
    index on [email].  The faults and the clock are those of the world. *)

Module users.

Import mongo.


(** [models.LoginRequest]; its fields carry the struct's name, [Email]
    and [Password] being taken. *)
Record LoginRequest : Type := mkLoginRequest {
  Login_Email : string;
  Login_Password : string
}.

(** [models.LoginResponse] *)
Record LoginResponse : Type := mkLoginResponse {
  Token : string;
  User : models.User
}.


Definition set_ID (id : ObjectID) (u : models.User) : models.User :=
  models.mkUser id (models.User_Email u) (models.User_Username u)
    (models.User_Password u) (models.User_Role u) (models.User_CreatedAt u).

(** [bson.M{"email": email}] and [bson.M{"_id": id}] *)
Definition by_email (email : string) (u : models.User) : bool :=
  String.eqb (models.User_Email u) email.
Definition by_id (id : ObjectID) (u : models.User) : bool :=
  (models.User_ID u =? id)%N.

(** [collection.FindOne(ctx, q).Decode(&user)] *)
Definition FindOne (q : models.User -> bool) (users : list models.User)
  : M (result models.User) :=
  bind injected (fun f w =>
    match f with
    | Some msg => (inr (ErrDriver msg), w)
    | None => match find q users with
              | Some u => (inl u, w)
              | None => (inr ErrNoDocuments, w)
              end
    end).

(** Errors of an insertion: a duplicate key ([mongo.IsDuplicateKeyError]
    holds of it), or another failure. *)
Inductive write_error : Type :=
| DuplicateKey
| WriteFailed (msg : string).

(** [collection.InsertOne(ctx, user)]: as for tasks; the server also
    refuses an email the collection already holds. *)
Definition InsertOne (generated : ObjectID) (user : models.User)
           (users : list models.User)
  : M ((ObjectID + write_error) * list models.User) :=
  bind injected (fun f w =>
    match f with
    | Some msg => ((inr (WriteFailed msg), users), w)
    | None =>
        let id := if (models.User_ID user =? 0)%N then generated
                  else models.User_ID user in
        if existsb (by_id id) users
           || existsb (by_email (models.User_Email user)) users
        then ((inr DuplicateKey, users), w)
        else ((inl id, users ++ [set_ID id user]), w)
    end).

(** [UserRepository.Create] *)
Definition Create (generated : ObjectID) (users : list models.User)
           (user : models.User)
  : M (go_result models.User * list models.User) :=
  r <- InsertOne generated user users ;;
  match r with
  | (inr DuplicateKey, users') =>
      ret (Err "user with this email already exists", users')
  | (inr (WriteFailed msg), users') =>
      ret (Err ("failed to create user: " ++ msg)%string, users')
  | (inl InsertedID, users') => ret (Ok (set_ID InsertedID user), users')
  end.

(** [UserRepository.FindByEmail] *)
Definition FindByEmail (users : list models.User) (email : string)
  : M (go_result models.User) :=
  r <- FindOne (by_email email) users ;;
  match r with
  | inr ErrNoDocuments => ret (Err "user not found")
  | inr err => ret (Err ("failed to find user: " ++ Error err)%string)
  | inl user => ret (Ok user)
  end.

(** [UserRepository.FindByID] *)
Definition FindByID (users : list models.User) (id : ObjectID)
  : M (go_result models.User) :=
  r <- FindOne (by_id id) users ;;
  match r with
  | inr ErrNoDocuments => ret (Err "user not found")
  | inr err => ret (Err ("failed to find user: " ++ Error err)%string)
  | inl user => ret (Ok user)
  end.

(** [jwt.MapClaims] as [generateToken] fills them. *)
Record Claims : Type := mkClaims {
  claim_user_id : string;
  claim_email : string;
  claim_role : models.UserRole;
  claim_exp : Z
}.

(** What [ValidateToken] reads of a parsed [*jwt.Token]: [token.Valid],
    whether its claims are [jwt.MapClaims], and [claims["user_id"]] when
    it is a string. *)
Record ParsedToken : Type := mkParsedToken {
  Valid : bool;
  isMapClaims : bool;
  user_id : option string
}.

(** [time.Hour], in nanoseconds, and [t.Unix()]. *)
Definition Hour : Duration := 3600000000000.
Definition Unix (t : Time) : Z := t / 1000000000.

(** [strings.Split(s, sep)] for a separator of one character. *)
Fixpoint Split (s : string) (sep : ascii) : list string :=
  match s with
  | EmptyString => [EmptyString]
  | String c s' =>
      if Ascii.eqb c sep then EmptyString :: Split s' sep
      else match Split s' sep with
           | p :: ps => String c p :: ps
           | [] => [String c EmptyString]
           end
  end.

Section AuthService.

(** The libraries [AuthService] calls.  [bcrypt.GenerateFromPassword];
    [bcrypt.CompareHashAndPassword hashed password], [true] when it returns
    no error; [token.SignedString(s.jwtSecret)] on the claims; and
    [jwt.Parse] on a token string and a key function, which it gives
    whether the method of the token is an HMAC one and the [alg] of its
    header. *)
Variable GenerateFromPassword : string -> go_result string.
Variable CompareHashAndPassword : string -> string -> bool.
Variable SignedString : Claims -> go_result string.
Variable Parse :
  string -> (bool -> string -> go_result unit) -> go_result ParsedToken.


Definition generateToken (user : models.User) : M (go_result string) :=
  now <- Now ;;
  let claims :=
    mkClaims (primitive.Hex (models.User_ID user)) (models.User_Email user)
      (models.User_Role user) (Unix (Time_Add now (24 * Hour))) in
  ret (SignedString claims).

Definition Login (users : list models.User) (req : LoginRequest)
  : M (go_result LoginResponse) :=
  if String.eqb (Login_Email req) "" || String.eqb (Login_Password req) ""
  then ret (Err "email and password are required")
  else
    found <- FindByEmail users (Login_Email req) ;;
    match found with
    | Err _ => ret (Err "invalid credentials")
    | Ok user =>
        if negb (CompareHashAndPassword (models.User_Password user)
                   (Login_Password req))
        then ret (Err "invalid credentials")
        else
          t <- generateToken user ;;
          match t with
          | Err err =>
              ret (Err ("failed to generate token: " ++ err)%string)
          | Ok token => ret (Ok (mkLoginResponse token user))
          end
    end.

(** The key function [ValidateToken] gives [jwt.Parse]. *)
Definition keyFunc (isHMAC : bool) (alg : string) : go_result unit :=
  if negb isHMAC then Err ("unexpected signing method: " ++ alg)%string
  else Ok tt.

Definition ValidateToken (users : list models.User) (tokenString : string)
  : M (go_result models.User) :=
  match Parse tokenString keyFunc with
  | Err err => ret (Err ("invalid token: " ++ err)%string)
  | Ok token =>
      if negb (Valid token) then ret (Err "token is not valid")
      else if negb (isMapClaims token) then ret (Err "invalid token claims")
      else
        match user_id token with
        | None => ret (Err "invalid user_id in token")
        | Some userIDStr =>
            match primitive.ObjectIDFromHex userIDStr with
            | Err err =>
                ret (Err ("invalid user_id format: " ++ err)%string)
            | Ok userID =>
                found <- FindByID users userID ;;
                match found with
                | Err err => ret (Err ("user not found: " ++ err)%string)
                | Ok user => ret (Ok user)
                end
            end
        end
  end.

(** [AuthMiddleware(next)] on a request whose [Authorization] header is
    [authHeader] ([""] when there is none): it answers the request itself,
    or hands it to [next] with the user in its context. *)
Definition AuthMiddleware (users : list models.User)
           (next : task_handler.Request -> M task_handler.Response)
           (authHeader : string) (r : task_handler.Request)
  : M task_handler.Response :=
  if String.eqb authHeader ""
  then ret (task_handler.RespondError task_handler.StatusUnauthorized
              "missing authorization header")
  else
    let parts := Split authHeader " "%char in
    if negb (length parts =? 2)%nat
       || negb (String.eqb (nth 0 parts EmptyString) "Bearer")
    then ret (task_handler.RespondError task_handler.StatusUnauthorized
                "invalid authorization header format")
    else
      v <- ValidateToken users (nth 1 parts EmptyString) ;;
      match v with
      | Err _ =>
          ret (task_handler.RespondError task_handler.StatusUnauthorized
                 "invalid or expired token")
      | Ok user =>
          next (task_handler.mkRequest
                  (handler.mkRequest (Some user)
                     (handler.URLQuery (task_handler.base r)))
                  (task_handler.Vars r) (task_handler.Body r))
      end.

End AuthService.

End users.

(** ** package config *)

Module config.





End config.

(** ** Vocabulary of the statements *)

(** The query [ListTasks] has the repository run for a caller. *)
Definition scope (user : models.User) (filter : repository.TaskFilter)
  : mongo.Query :=
  if String.eqb (models.User_Role user) models.UserRoleAdmin
  then repository.with_status filter (fun _ => true)
  else repository.with_status filter
         (fun t => (models.UserID t =? models.User_ID user)%N).



(** A collection as the server keeps it and the service fills it:
    identifiers are unique and every status is one of the three. *)
Definition well_formed (docs : list models.Task) : Prop :=
  NoDup (map models.ID docs) /\
  Forall (fun t => service.IsValidStatus (models.Status t) = true) docs.

(** What one run of the worker, reading the time [now] for the update,
    may have made of a stored record: nothing, or, of a record that was
    [pending] or [in_progress], a [completed] one updated at [now]; the
    other fields are kept in both cases. *)
Definition kept_or_completed (now : Time) (a b : models.Task) : Prop :=
  models.ID b = models.ID a /\
  models.UserID b = models.UserID a /\
  models.Title b = models.Title a /\
  models.Description b = models.Description a /\
  models.CreatedAt b = models.CreatedAt a /\
  (b = a \/
   (worker.still_open a = true /\
    models.Status b = models.TaskStatusCompleted /\
    models.UpdatedAt b = now)).

(** The records of the listing [ListTasks] answers with, none when it
    answers with an error. *)
Definition listed (user : models.User) (filter : repository.TaskFilter)
           (w : mongo.World) : list models.Task :=
  match fst (service.ListTasks user filter w) with
  | Returns (Ok response) => models.Tasks response
  | _ => []
  end.

(** ** Sample data *)

Module sample.

Definition write_spec : models.Task :=
  models.mkTask 1%N 10%N "Write spec" "" "pending" 100 100.
Definition review : models.Task :=
  models.mkTask 2%N 10%N "Review" "" "completed" 50 60.
Definition deploy : models.Task :=
  models.mkTask 3%N 11%N "Deploy" "" "in_progress" 70 70.

Definition alice : models.User :=
  models.mkUser 10%N "alice@example.org" "alice" "" "user" 0.
Definition bob : models.User :=
  models.mkUser 11%N "bob@example.org" "bob" "" "user" 0.
Definition root : models.User :=
  models.mkUser 12%N "root@example.org" "root" "" "admin" 0.

(** A clock that starts long after the sample tasks were created and
    advances by one nanosecond per reading. *)
Definition late (n : nat) : Time := 1000000000000 + Z.of_nat n.

Definition store : mongo.World :=
  mongo.mkWorld [write_spec; review; deploy] late 0 [] [].

Definition tenMinutes : worker.TaskWorker := worker.NewTaskWorker 10.

(** A worker whose channel is saturated. *)
Definition saturated : worker.TaskWorker :=
  worker.mkTaskWorker 10 (channel.mkChan (repeat 7%N 100) 100 false).


End sample.

(** ** More sample data *)

Module requests.

(** [GET] or [DELETE /tasks/000000000000000000000003], by a user. *)
Definition deploy_by (user : models.User) : task_handler.Request :=
  task_handler.mkRequest (handler.mkRequest (Some user) [])
    [("id", "000000000000000000000003")] None.


(** A store whose next driver call fails. *)
Definition failing : mongo.World :=
  mongo.mkWorld [sample.write_spec; sample.review; sample.deploy]
    sample.late 0 [Some "connection reset"] [].

Definition compare (hashed password : string) : bool :=
  String.eqb hashed ("$2a$" ++ password)%string.
Definition sign (claims : users.Claims) : go_result string :=
  Ok (users.claim_user_id claims).
Definition parse (tokenString : string)
           (keyFunc : bool -> string -> go_result unit)
  : go_result users.ParsedToken :=
  match keyFunc true "HS256" with
  | Ok _ => Ok (users.mkParsedToken true true (Some tokenString))
  | Err err => Err err
  end.

Definition carol : models.User :=
  models.mkUser 20%N "carol@example.org" "carol" "$2a$secret1" "user" 5.


End requests.

(** * Properties *)

(** ** Machine integers *)

Lemma wrap64_in_range (z : Z) : in_int64 z -> wrap64 z = z.
Proof.
  unfold in_int64, int64_min, int64_max, wrap64. intros H.
  rewrite Z.mod_small; lia.
Qed.

Lemma wrap64_range (z : Z) : in_int64 (wrap64 z).
Proof.
  unfold in_int64, int64_min, int64_max, wrap64.
  pose proof (Z.mod_pos_bound (z + 2 ^ 63) (2 ^ 64) ltac:(lia)). lia.
Qed.

(** ** Documents of a collection *)

Section Documents.

Variable q : mongo.Query.

Lemma find_first (l1 l2 : list models.Task) (t : models.Task) :
  q t = true -> (forall u, In u l1 -> q u = false) ->
  find q (l1 ++ t :: l2) = Some t.
Proof.
  intros Ht. induction l1 as [|a l1 IH]; simpl; intros H.
  - now rewrite Ht.
  - rewrite (H a) by now left. apply IH. intros u Hu. apply H. now right.
Qed.

Lemma find_absent (l : list models.Task) :
  (forall u, In u l -> q u = false) -> find q l = None.
Proof.
  induction l as [|a l IH]; simpl; intros H; [reflexivity|].
  rewrite (H a) by now left. apply IH. intros u Hu. apply H. now right.
Qed.

Lemma existsb_find (l : list models.Task) :
  existsb q l = match find q l with Some _ => true | None => false end.
Proof.
  induction l as [|a l IH]; simpl; [reflexivity|].
  destruct (q a); simpl; auto.
Qed.

Lemma update_first_split upd (l1 l2 : list models.Task) (t : models.Task) :
  q t = true -> (forall u, In u l1 -> q u = false) ->
  mongo.update_first q upd (l1 ++ t :: l2) = l1 ++ upd t :: l2.
Proof.
  intros Ht. induction l1 as [|a l1 IH]; simpl; intros H.
  - now rewrite Ht.
  - rewrite (H a) by now left. f_equal. apply IH.
    intros u Hu. apply H. now right.
Qed.

Lemma delete_first_split (l1 l2 : list models.Task) (t : models.Task) :
  q t = true -> (forall u, In u l1 -> q u = false) ->
  mongo.delete_first q (l1 ++ t :: l2) = l1 ++ l2.
Proof.
  intros Ht. induction l1 as [|a l1 IH]; simpl; intros H.
  - now rewrite Ht.
  - rewrite (H a) by now left. f_equal. apply IH.
    intros u Hu. apply H. now right.
Qed.

End Documents.

Lemma by_id_true (id : ObjectID) (t : models.Task) :
  repository.by_id id t = true <-> models.ID t = id.
Proof. unfold repository.by_id. apply N.eqb_eq. Qed.

Lemma by_id_false (id : ObjectID) (t : models.Task) :
  repository.by_id id t = false <-> models.ID t <> id.
Proof. unfold repository.by_id. apply N.eqb_neq. Qed.

(** ** Driver calls the environment does not fail *)

(** Runs the plumbing of the world monad, leaving the program's own
    functions folded. *)
Ltac world :=
  repeat (progress
    (unfold mongo.bind, mongo.ret, mongo.Now, mongo.Printf, mongo.injected;
     cbn [mongo.docs mongo.clock mongo.reads mongo.faults mongo.log
          mongo.set_docs mongo.set_reads mongo.set_faults mongo.set_log
          fst snd])).

Section Quiet.

Variable w : mongo.World.
Hypothesis quiet : mongo.faults w = [].

Lemma FindOne_quiet q :
  mongo.FindOne q w =
  (match find q (mongo.docs w) with
   | Some t => inl t
   | None => inr mongo.ErrNoDocuments
   end, w).
Proof.
  unfold mongo.FindOne. world. rewrite quiet.
  now destruct (find q (mongo.docs w)).
Qed.

Lemma FindByID_quiet id :
  repository.FindByID id w =
  (match find (repository.by_id id) (mongo.docs w) with
   | Some t => Ok t
   | None => Err "task not found"
   end, w).
Proof.
  unfold repository.FindByID. world. rewrite FindOne_quiet.
  now destruct (find _ (mongo.docs w)).
Qed.

Lemma UpdateStatus_quiet id status :
  repository.UpdateStatus id status w =
  (if existsb (repository.by_id id) (mongo.docs w)
   then Ok tt else Err "task not found",
   if existsb (repository.by_id id) (mongo.docs w)
   then mongo.set_docs
          (mongo.update_first (repository.by_id id)
             (repository.set_status status (mongo.clock w (mongo.reads w)))
             (mongo.docs w))
          (mongo.set_reads (S (mongo.reads w)) w)
   else mongo.set_reads (S (mongo.reads w)) w).
Proof.
  unfold repository.UpdateStatus, mongo.UpdateOne. world. rewrite quiet.
  change (mongo.docs (mongo.set_reads (S (mongo.reads w)) w))
    with (mongo.docs w).
  destruct (existsb _ (mongo.docs w)); reflexivity.
Qed.

Lemma Delete_quiet id :
  repository.Delete id w =
  (if existsb (repository.by_id id) (mongo.docs w)
   then Ok tt else Err "task not found",
   if existsb (repository.by_id id) (mongo.docs w)
   then mongo.set_docs
          (mongo.delete_first (repository.by_id id) (mongo.docs w)) w
   else w).
Proof.
  unfold repository.Delete, mongo.DeleteOne. world.
  rewrite quiet. destruct (existsb _ (mongo.docs w)); reflexivity.
Qed.

End Quiet.

(** ** The record store *)

(** C8. [UpdateStatus id status], when the driver call is not failed by
    the environment: if a record with identifier [id] exists, the call
    returns no error and the store differs from the one before in that
    record only, whose status is [status] and whose [updated_at] is the
    time read by the call, the other fields being kept; if no record has
    this identifier, the call returns the error "task not found" and the
    store is unchanged. *)
Theorem UpdateStatus_sets_status_or_not_found
  (id : ObjectID) (status : models.TaskStatus) (w : mongo.World) :
  mongo.faults w = [] ->
  (forall l1 t l2,
      mongo.docs w = l1 ++ t :: l2 ->
      models.ID t = id ->
      (forall u, In u l1 -> models.ID u <> id) ->
      fst (repository.UpdateStatus id status w) = Ok tt /\
      mongo.docs (snd (repository.UpdateStatus id status w)) =
        l1 ++ models.mkTask (models.ID t) (models.UserID t) (models.Title t)
                (models.Description t) status (models.CreatedAt t)
                (mongo.clock w (mongo.reads w)) :: l2)
  /\
  ((forall u, In u (mongo.docs w) -> models.ID u <> id) ->
      fst (repository.UpdateStatus id status w) = Err "task not found" /\
      mongo.docs (snd (repository.UpdateStatus id status w)) = mongo.docs w).
Proof.
  intros quiet. rewrite (UpdateStatus_quiet w quiet). split.
  - intros l1 t l2 Hdocs Hid Hl1.
    assert (Hq : repository.by_id id t = true) by now apply by_id_true.
    assert (Hn : forall u, In u l1 -> repository.by_id id u = false)
      by (intros u Hu; apply by_id_false; auto).
    rewrite existsb_find, Hdocs, (find_first _ _ _ _ Hq Hn). cbn [fst snd].
    split; [reflexivity|].
    cbn [mongo.docs mongo.set_docs].
    now rewrite (update_first_split _ _ _ _ _ Hq Hn).
  - intros Habs.
    rewrite existsb_find, find_absent
      by (intros u Hu; apply by_id_false; auto).
    split; reflexivity.
Qed.

Lemma UpdateStatus_sets_status_or_not_found_witness :
  mongo.faults sample.store = [] /\
  fst (repository.UpdateStatus 3%N "completed" sample.store) = Ok tt /\
  mongo.docs (snd (repository.UpdateStatus 3%N "completed" sample.store)) =
    [sample.write_spec; sample.review;
     models.mkTask 3%N 11%N "Deploy" "" "completed" 70 1000000000000].
Proof.
  split; [reflexivity|].
  apply (proj1 (UpdateStatus_sets_status_or_not_found
                  3%N "completed" sample.store eq_refl)
           [sample.write_spec; sample.review] sample.deploy []).
  - reflexivity.
  - reflexivity.
  - intros u [<-|[<-|[]]]; discriminate.
Defined.

(** ** Authorization of point lookups and deletes *)

Lemma denied_true (user : models.User) (task : models.Task) :
  service.denied user task = true <->
  models.User_Role user <> models.UserRoleAdmin /\
  models.UserID task <> models.User_ID user.
Proof.
  unfold service.denied.
  rewrite andb_true_iff, !negb_true_iff, String.eqb_neq, N.eqb_neq.
  reflexivity.
Qed.

Lemma denied_false (user : models.User) (task : models.Task) :
  service.denied user task = false <->
  models.User_Role user = models.UserRoleAdmin \/
  models.UserID task = models.User_ID user.
Proof.
  unfold service.denied.
  rewrite andb_false_iff, !negb_false_iff, String.eqb_eq, N.eqb_eq.
  reflexivity.
Qed.

(** C9. [GetTask] and [DeleteTask], when no driver call is failed by the
    environment.  If no record has the identifier, both return the error
    "task not found".  If the record exists, the caller is not an admin and
    is not its owner, [GetTask] returns the error "unauthorized access to
    task" and [DeleteTask] the error "unauthorized to delete this task",
    neither of which is the not-found error, and the store is unchanged.
    If the caller is an admin or the owner, [GetTask] returns the record
    and [DeleteTask] removes it and returns no error. *)
Theorem GetTask_DeleteTask_authorization
  (taskID : ObjectID) (user : models.User) (w : mongo.World) :
  mongo.faults w = [] ->
  ((forall u, In u (mongo.docs w) -> models.ID u <> taskID) ->
     fst (service.GetTask taskID user w) = Err "task not found" /\
     fst (service.DeleteTask taskID user w) = Err "task not found")
  /\
  (forall l1 t l2,
     mongo.docs w = l1 ++ t :: l2 ->
     models.ID t = taskID ->
     (forall u, In u l1 -> models.ID u <> taskID) ->
     (models.User_Role user <> models.UserRoleAdmin ->
      models.UserID t <> models.User_ID user ->
        fst (service.GetTask taskID user w)
          = Err "unauthorized access to task" /\
        fst (service.DeleteTask taskID user w)
          = Err "unauthorized to delete this task" /\
        "unauthorized access to task" <> "task not found" /\
        "unauthorized to delete this task" <> "task not found" /\
        mongo.docs (snd (service.GetTask taskID user w)) = mongo.docs w /\
        mongo.docs (snd (service.DeleteTask taskID user w)) = mongo.docs w)
     /\
     (models.User_Role user = models.UserRoleAdmin \/
      models.UserID t = models.User_ID user ->
        fst (service.GetTask taskID user w) = Ok t /\
        fst (service.DeleteTask taskID user w) = Ok tt /\
        mongo.docs (snd (service.DeleteTask taskID user w)) = l1 ++ l2)).
Proof.
  intros quiet.
  unfold service.GetTask, service.DeleteTask. world.
  rewrite (FindByID_quiet w quiet). split.
  - intros Habs.
    rewrite find_absent by (intros u Hu; apply by_id_false; auto).
    split; reflexivity.
  - intros l1 t l2 Hdocs Hid Hl1.
    assert (Hq : repository.by_id taskID t = true) by now apply by_id_true.
    assert (Hn : forall u, In u l1 -> repository.by_id taskID u = false)
      by (intros u Hu; apply by_id_false; auto).
    rewrite Hdocs, (find_first _ _ _ _ Hq Hn). split.
    + intros Hrole Howner.
      rewrite (proj2 (denied_true user t)) by (split; assumption).
      cbn [fst snd]. repeat split; try discriminate; exact Hdocs.
    + intros Hallowed.
      rewrite (proj2 (denied_false user t) Hallowed). cbn [fst snd].
      rewrite (Delete_quiet w quiet), existsb_find, Hdocs,
        (find_first _ _ _ _ Hq Hn).
      cbn [fst snd mongo.docs mongo.set_docs].
      rewrite (delete_first_split _ _ _ _ Hq Hn). repeat split.
Qed.

Lemma GetTask_DeleteTask_authorization_witness :
  mongo.faults sample.store = [] /\
  (fst (service.GetTask 3%N sample.alice sample.store)
     = Err "unauthorized access to task" /\
   fst (service.DeleteTask 3%N sample.alice sample.store)
     = Err "unauthorized to delete this task") /\
  (fst (service.GetTask 3%N sample.root sample.store) = Ok sample.deploy /\
   fst (service.DeleteTask 3%N sample.bob sample.store) = Ok tt /\
   mongo.docs (snd (service.DeleteTask 3%N sample.bob sample.store))
     = [sample.write_spec; sample.review]).
Proof.
  split; [reflexivity|]. split.
  - destruct (proj2 (GetTask_DeleteTask_authorization
                       3%N sample.alice sample.store eq_refl)
                [sample.write_spec; sample.review] sample.deploy []
                eq_refl eq_refl) as [Hdeny _].
    + intros u [<-|[<-|[]]]; discriminate.
    + destruct Hdeny as (Hget & Hdel & _); [discriminate|discriminate|].
      split; assumption.
  - assert (Hl1 : forall u, In u [sample.write_spec; sample.review] ->
                            models.ID u <> 3%N)
      by (intros u [<-|[<-|[]]]; discriminate).
    destruct (proj2 (GetTask_DeleteTask_authorization
                       3%N sample.root sample.store eq_refl)
                [sample.write_spec; sample.review] sample.deploy []
                eq_refl eq_refl Hl1) as [_ Hroot].
    destruct (proj2 (GetTask_DeleteTask_authorization
                       3%N sample.bob sample.store eq_refl)
                [sample.write_spec; sample.review] sample.deploy []
                eq_refl eq_refl Hl1) as [_ Hbob].
    destruct (Hroot (or_introl eq_refl)) as (Hget & _).
    destruct (Hbob (or_intror eq_refl)) as (_ & Hdel & Hdocs).
    repeat split; assumption.
Defined.

(** ** Re-validation by the worker *)

Lemma autoCompleteWindow_minutes (tw : worker.TaskWorker) :
  0 <= worker.autoCompleteMinutes tw <= 153722867 ->
  worker.autoCompleteWindow tw = - (worker.autoCompleteMinutes tw * Minute).
Proof.
  intros H. unfold worker.autoCompleteWindow, mul64, neg64, Minute.
  rewrite (wrap64_in_range (- _))
    by (unfold in_int64, int64_min, int64_max; lia).
  rewrite wrap64_in_range
    by (unfold in_int64, int64_min, int64_max; lia).
  lia.
Qed.

Lemma still_open_true (t : models.Task) :
  worker.still_open t = true <->
  models.Status t = models.TaskStatusPending \/
  models.Status t = models.TaskStatusInProgress.
Proof.
  unfold worker.still_open. now rewrite orb_true_iff, !String.eqb_eq.
Qed.

(** A lookup of an identifier no record has fails, whatever the
    environment does to the driver call, and touches neither the store
    nor the log. *)
Lemma FindByID_absent (id : ObjectID) (w : mongo.World) :
  (forall u, In u (mongo.docs w) -> models.ID u <> id) ->
  exists e w',
    repository.FindByID id w = (Err e, w') /\
    mongo.docs w' = mongo.docs w /\ mongo.log w' = mongo.log w /\
    mongo.clock w' = mongo.clock w /\ mongo.reads w' = mongo.reads w.
Proof.
  intros Habs. unfold repository.FindByID, mongo.FindOne. world.
  destruct (mongo.faults w) as [|[msg|] fs] eqn:Hf; cbn [mongo.docs].
  - rewrite find_absent by (intros u Hu; apply by_id_false; auto).
    eauto 10.
  - eexists _, _. split; [reflexivity|]. repeat split.
  - rewrite find_absent by (intros u Hu; apply by_id_false; auto).
    eexists _, _. split; [reflexivity|]. repeat split.
Qed.

(** What the worker does with an identifier, case by case, when the
    environment fails no driver call. *)
Section AutoComplete.

Variable tw : worker.TaskWorker.
Variable id : ObjectID.
Variable w : mongo.World.
Hypothesis quiet : mongo.faults w = [].

Let threshold : Time :=
  Time_Add (mongo.clock w (mongo.reads w)) (worker.autoCompleteWindow tw).

Lemma autoCompleteTask_absent :
  find (repository.by_id id) (mongo.docs w) = None ->
  worker.autoCompleteTask tw id w
  = mongo.Printf (LogNotFoundSkipping id) w.
Proof.
  intros Hfind. unfold worker.autoCompleteTask. world.
  rewrite (FindByID_quiet w quiet), Hfind. reflexivity.
Qed.

Lemma autoCompleteTask_closed (t : models.Task) :
  find (repository.by_id id) (mongo.docs w) = Some t ->
  worker.still_open t = false ->
  worker.autoCompleteTask tw id w = (tt, w).
Proof.
  intros Hfind Hopen. unfold worker.autoCompleteTask. world.
  rewrite (FindByID_quiet w quiet), Hfind, Hopen. reflexivity.
Qed.

Lemma autoCompleteTask_young (t : models.Task) :
  find (repository.by_id id) (mongo.docs w) = Some t ->
  worker.still_open t = true ->
  Time_Before (models.CreatedAt t) threshold = false ->
  worker.autoCompleteTask tw id w
  = (tt, mongo.set_reads (S (mongo.reads w)) w).
Proof.
  intros Hfind Hopen Hyoung.
  unfold worker.autoCompleteTask, worker.threshold. world.
  rewrite (FindByID_quiet w quiet), Hfind, Hopen.
  fold threshold. rewrite Hyoung. reflexivity.
Qed.

Lemma autoCompleteTask_due (t : models.Task) :
  find (repository.by_id id) (mongo.docs w) = Some t ->
  worker.still_open t = true ->
  Time_Before (models.CreatedAt t) threshold = true ->
  worker.autoCompleteTask tw id w
  = mongo.Printf (LogAutoCompleted id)
      (snd (repository.UpdateStatus id models.TaskStatusCompleted
              (snd (mongo.Now w)))).
Proof.
  intros Hfind Hopen Hdue.
  unfold worker.autoCompleteTask, worker.threshold. world.
  rewrite (FindByID_quiet w quiet), Hfind, Hopen.
  fold threshold. rewrite Hdue.
  rewrite (UpdateStatus_quiet (mongo.set_reads (S (mongo.reads w)) w) quiet).
  change (mongo.docs (mongo.set_reads (S (mongo.reads w)) w))
    with (mongo.docs w).
  rewrite existsb_find, Hfind. reflexivity.
Qed.

End AutoComplete.

(** C1. [autoCompleteTask] on a dequeued identifier, when the environment
    fails no driver call.  The threshold is the time the worker reads
    plus [autoCompleteWindow], that is the time read minus the configured
    minutes (for every number of minutes whose nanoseconds fit an
    [int64]).  If the record exists, its status is [pending] or
    [in_progress] and its creation time is strictly before the threshold,
    the worker runs [UpdateStatus id completed]: the record is stored as
    [completed] with [updated_at] the time that call reads.  In every
    other case the store is left as it is (so no [updated_at] changes),
    nothing is returned, and nothing is logged except, when no record has
    the identifier, the line that the task is skipped; in particular a
    [completed] record is left untouched. *)
Theorem autoCompleteTask_revalidates
  (tw : worker.TaskWorker) (id : ObjectID) (w : mongo.World) :
  mongo.faults w = [] ->
  let threshold :=
    Time_Add (mongo.clock w (mongo.reads w)) (worker.autoCompleteWindow tw) in
  let w' := snd (worker.autoCompleteTask tw id w) in
  (0 <= worker.autoCompleteMinutes tw <= 153722867 ->
     threshold
     = mongo.clock w (mongo.reads w) - worker.autoCompleteMinutes tw * Minute)
  /\
  (forall l1 t l2,
     mongo.docs w = l1 ++ t :: l2 ->
     models.ID t = id ->
     (forall u, In u l1 -> models.ID u <> id) ->
     ((models.Status t = models.TaskStatusPending \/
       models.Status t = models.TaskStatusInProgress) ->
      models.CreatedAt t < threshold ->
        w' = snd (mongo.Printf (LogAutoCompleted id)
                    (snd (repository.UpdateStatus id models.TaskStatusCompleted
                            (snd (mongo.Now w))))) /\
        mongo.docs w'
          = l1 ++ models.mkTask (models.ID t) (models.UserID t)
                    (models.Title t) (models.Description t)
                    models.TaskStatusCompleted (models.CreatedAt t)
                    (mongo.clock w (S (mongo.reads w))) :: l2 /\
        mongo.log w' = mongo.log w ++ [LogAutoCompleted id])
     /\
     (~ ((models.Status t = models.TaskStatusPending \/
          models.Status t = models.TaskStatusInProgress) /\
         models.CreatedAt t < threshold) ->
        mongo.docs w' = mongo.docs w /\ mongo.log w' = mongo.log w)
     /\
     (models.Status t = models.TaskStatusCompleted ->
        mongo.docs w' = mongo.docs w /\ mongo.log w' = mongo.log w))
  /\
  ((forall u, In u (mongo.docs w) -> models.ID u <> id) ->
     mongo.docs w' = mongo.docs w /\
     mongo.log w' = mongo.log w ++ [LogNotFoundSkipping id]).
Proof.
  intros quiet threshold w'. split; [|split].
  - intros Hm. unfold threshold, Time_Add.
    rewrite (autoCompleteWindow_minutes tw Hm). lia.
  - intros l1 t l2 Hdocs Hid Hl1.
    assert (Hq : repository.by_id id t = true) by now apply by_id_true.
    assert (Hn : forall u, In u l1 -> repository.by_id id u = false)
      by (intros u Hu; apply by_id_false; auto).
    assert (Hfind : find (repository.by_id id) (mongo.docs w) = Some t)
      by (rewrite Hdocs; now apply find_first).
    assert (Hskip :
      worker.still_open t = false \/
      Time_Before (models.CreatedAt t) threshold = false ->
      mongo.docs w' = mongo.docs w /\ mongo.log w' = mongo.log w).
    { intros [Hclosed|Hyoung]; unfold w'.
      - now rewrite (autoCompleteTask_closed tw id w quiet t Hfind Hclosed).
      - destruct (worker.still_open t) eqn:Hopen.
        + now rewrite (autoCompleteTask_young tw id w quiet t Hfind Hopen Hyoung).
        + now rewrite (autoCompleteTask_closed tw id w quiet t Hfind Hopen). }
    split; [|split].
    + intros Hstatus Hold.
      assert (Hopen : worker.still_open t = true) by now apply still_open_true.
      assert (Hdue : Time_Before (models.CreatedAt t) threshold = true)
        by (apply Z.ltb_lt; exact Hold).
      unfold w'.
      rewrite (autoCompleteTask_due tw id w quiet t Hfind Hopen Hdue).
      split; [reflexivity|].
      rewrite (UpdateStatus_quiet (snd (mongo.Now w)) quiet).
      world.
      change (mongo.docs (mongo.set_reads (S (mongo.reads w)) w))
        with (mongo.docs w).
      rewrite existsb_find, Hfind. world.
      rewrite Hdocs, (update_first_split _ _ _ _ _ Hq Hn).
      split; reflexivity.
    + intros Hnot. apply Hskip.
      destruct (worker.still_open t) eqn:Hopen; [right|now left].
      apply Z.ltb_ge. apply still_open_true in Hopen.
      destruct (Z.lt_ge_cases (models.CreatedAt t) threshold); [|assumption].
      exfalso. apply Hnot. now split.
    + intros Hdone. apply Hskip. left.
      unfold worker.still_open. rewrite Hdone. reflexivity.
  - intros Habs. unfold w'.
    rewrite (autoCompleteTask_absent tw id w quiet)
      by (apply find_absent; intros u Hu; apply by_id_false; auto).
    split; reflexivity.
Qed.

Lemma autoCompleteTask_revalidates_witness :
  mongo.faults sample.store = [] /\
  mongo.docs (snd (worker.autoCompleteTask sample.tenMinutes 3%N sample.store))
  = [sample.write_spec; sample.review;
     models.mkTask 3%N 11%N "Deploy" "" "completed" 70 1000000000001] /\
  mongo.docs (snd (worker.autoCompleteTask sample.tenMinutes 2%N sample.store))
  = mongo.docs sample.store /\
  mongo.log (snd (worker.autoCompleteTask sample.tenMinutes 2%N sample.store))
  = [].
Proof.
  split; [reflexivity|]. split.
  - destruct (autoCompleteTask_revalidates
                sample.tenMinutes 3%N sample.store eq_refl)
      as (_ & Hpresent & _).
    destruct (Hpresent [sample.write_spec; sample.review] sample.deploy []
                eq_refl eq_refl) as (Hdue & _).
    + intros u [<-|[<-|[]]]; discriminate.
    + destruct Hdue as (_ & Hdocs & _).
      * right; reflexivity.
      * reflexivity.
      * exact Hdocs.
  - destruct (autoCompleteTask_revalidates
                sample.tenMinutes 2%N sample.store eq_refl)
      as (_ & Hpresent & _).
    destruct (Hpresent [sample.write_spec] sample.review [sample.deploy]
                eq_refl eq_refl) as (_ & _ & Hdone).
    + intros u [<-|[]]; discriminate.
    + exact (Hdone eq_refl).
Defined.

(** Identifiers are unique in a collection, so deleting a record leaves
    none with its identifier. *)
Lemma delete_first_absent (id : ObjectID) (l : list models.Task) :
  NoDup (map models.ID l) ->
  forall u, In u (mongo.delete_first (repository.by_id id) l) ->
            models.ID u <> id.
Proof.
  induction l as [|a l IH]; simpl; intros Hnd u Hu; [contradiction|].
  inversion Hnd as [|x xs Hnotin Hnd']; subst.
  destruct (repository.by_id id a) eqn:Ha.
  - apply by_id_true in Ha. intros Heq. apply Hnotin.
    rewrite Ha, <- Heq. now apply in_map.
  - destruct Hu as [<-|Hu].
    + now apply by_id_false.
    + now apply IH.
Qed.

Lemma autoCompleteTask_skips (tw : worker.TaskWorker) (id : ObjectID)
      (w : mongo.World) :
  (forall u, In u (mongo.docs w) -> models.ID u <> id) ->
  mongo.docs (snd (worker.autoCompleteTask tw id w)) = mongo.docs w /\
  mongo.log (snd (worker.autoCompleteTask tw id w))
  = mongo.log w ++ [LogNotFoundSkipping id].
Proof.
  intros Habs.
  destruct (FindByID_absent id w Habs) as (e & w1 & Hfind & Hdocs & Hlog & _).
  assert (Hrun : worker.autoCompleteTask tw id w
                 = mongo.Printf (LogNotFoundSkipping id) w1).
  { unfold worker.autoCompleteTask. unfold mongo.bind at 1.
    now rewrite Hfind. }
  rewrite Hrun. unfold mongo.Printf, mongo.set_log.
  cbn [snd mongo.docs mongo.log].
  now rewrite Hdocs, Hlog.
Qed.

(** C2. When no record has the dequeued identifier, [autoCompleteTask]
    leaves the store as it is, whatever the environment does to the driver
    call: it returns nothing and writes the one log line that the task is
    skipped.  This is the case after the record was deleted (identifiers
    being unique in the collection).  The worker that received the
    identifier goes on running, and the process does not panic. *)
Theorem autoCompleteTask_skips_deleted
  (tw : worker.TaskWorker) (id : ObjectID) :
  (forall w,
     (forall u, In u (mongo.docs w) -> models.ID u <> id) ->
     worker.autoCompleteTask tw id w
       = (tt, snd (worker.autoCompleteTask tw id w)) /\
     mongo.docs (snd (worker.autoCompleteTask tw id w)) = mongo.docs w /\
     mongo.log (snd (worker.autoCompleteTask tw id w))
       = mongo.log w ++ [LogNotFoundSkipping id])
  /\
  (forall w,
     mongo.faults w = [] ->
     NoDup (map models.ID (mongo.docs w)) ->
     let deleted := snd (repository.Delete id w) in
     mongo.docs (snd (worker.autoCompleteTask tw id deleted))
       = mongo.docs deleted /\
     mongo.log (snd (worker.autoCompleteTask tw id deleted))
       = mongo.log deleted ++ [LogNotFoundSkipping id])
  /\
  (forall s i c,
     worker.panicked s = false ->
     nth_error (worker.workers s) i = Some worker.Running ->
     channel.recv (worker.taskChannel (worker.tw s)) = channel.Received id c ->
     (forall u, In u (mongo.docs (worker.world s)) -> models.ID u <> id) ->
     exists s',
       worker.step s s' /\
       worker.handled s' = worker.handled s ++ [id] /\
       mongo.docs (worker.world s') = mongo.docs (worker.world s) /\
       worker.workers s' = worker.workers s /\
       worker.panicked s' = false).
Proof.
  split; [|split].
  - intros w Habs. split.
    + now destruct (worker.autoCompleteTask tw id w) as [[] w'].
    + now apply autoCompleteTask_skips.
  - intros w quiet Hnd deleted. apply autoCompleteTask_skips.
    unfold deleted. rewrite (Delete_quiet w quiet).
    destruct (existsb (repository.by_id id) (mongo.docs w)) eqn:Hex;
      cbn [snd mongo.docs mongo.set_docs].
    + now apply delete_first_absent.
    + intros u Hu. apply by_id_false.
      rewrite existsb_find in Hex.
      destruct (find (repository.by_id id) (mongo.docs w)) eqn:Hf;
        [discriminate|].
      now apply (find_none _ _ Hf).
  - intros s i c Halive Hrun Hrecv Habs.
    eexists. split; [now apply (worker.processTasksFromChannel_received s i id c)|].
    cbn [worker.handled worker.world worker.workers worker.panicked].
    repeat split.
    now apply autoCompleteTask_skips.
Qed.

Lemma autoCompleteTask_skips_deleted_witness :
  (forall u, In u (mongo.docs sample.store) -> models.ID u <> 9%N) /\
  mongo.docs (snd (worker.autoCompleteTask sample.tenMinutes 9%N sample.store))
    = mongo.docs sample.store /\
  mongo.log (snd (worker.autoCompleteTask sample.tenMinutes 9%N sample.store))
    = [LogNotFoundSkipping 9%N].
Proof.
  assert (Habs : forall u, In u (mongo.docs sample.store) ->
                           models.ID u <> 9%N)
    by (intros u [<-|[<-|[<-|[]]]]; discriminate).
  split; [exact Habs|].
  exact (proj2 (proj1 (autoCompleteTask_skips_deleted sample.tenMinutes 9%N)
                  sample.store Habs)).
Defined.

(** ** Listing: pages and windows *)

Lemma totalPages_ceiling (totalCount limit : Z) :
  0 <= totalCount <= int64_max -> 0 < limit ->
  exists pages,
    service.totalPages totalCount limit = Returns pages /\
    limit * (pages - 1) < totalCount <= limit * pages /\
    (totalCount = 0 -> pages = 0).
Proof.
  unfold int64_max. intros Hn Hl.
  unfold service.totalPages, go_div, go_rem, run_bind.
  replace (limit =? 0) with false by (symmetry; apply Z.eqb_neq; lia).
  rewrite Z.quot_div_nonneg, Z.rem_mod_nonneg by lia.
  pose proof (Z.div_mod totalCount limit ltac:(lia)) as Hdm.
  pose proof (Z.mod_pos_bound totalCount limit Hl) as Hr.
  assert (Hq : 0 <= totalCount / limit) by (apply Z.div_pos; lia).
  assert (Hq' : totalCount / limit <= totalCount)
    by (apply Z.div_le_upper_bound; nia).
  rewrite (wrap64_in_range (totalCount / limit))
    by (unfold in_int64, int64_min, int64_max; lia).
  destruct (totalCount mod limit >? 0) eqn:Hbump.
  - apply Z.gtb_lt in Hbump. eexists. split; [reflexivity|].
    unfold add64. rewrite wrap64_in_range.
    + split; [nia|]. intros ->. rewrite Z.mod_0_l in Hbump; lia.
    + unfold in_int64, int64_min, int64_max. nia.
  - assert (totalCount mod limit = 0).
    { destruct (Z.gtb_spec (totalCount mod limit) 0); [discriminate|lia]. }
    eexists. split; [reflexivity|]. split; [nia|].
    intros ->. now rewrite Z.div_0_l by lia.
Qed.

Lemma totalPages_returns (totalCount limit : Z) :
  limit <> 0 -> exists pages, service.totalPages totalCount limit = Returns pages.
Proof.
  intros Hl. unfold service.totalPages, go_div, go_rem, run_bind.
  replace (limit =? 0) with false by (symmetry; now apply Z.eqb_neq).
  eauto.
Qed.

Lemma ListTasks_find_page (user : models.User)
      (filter : repository.TaskFilter) :
  (if String.eqb (models.User_Role user) models.UserRoleAdmin
   then repository.FindAll filter
   else repository.FindByUserID (models.User_ID user) filter)
  = repository.find_page (scope user filter) filter.
Proof.
  unfold scope, repository.FindAll, repository.FindByUserID.
  now destruct (String.eqb _ _).
Qed.

(** Whatever the environment does, a page that is returned comes with
    the number of matching documents, and the store is not changed. *)
Lemma find_page_count (q : mongo.Query) (filter : repository.TaskFilter)
      (w : mongo.World) tasks n :
  fst (repository.find_page q filter w) = Ok (tasks, n) ->
  n = Z.of_nat (length (List.filter q (mongo.docs w))).
Proof.
  unfold repository.find_page, mongo.CountDocuments, mongo.Find, mongo.All.
  destruct w as [d c r f l]. world.
  destruct f as [|[m1|] [|[m2|] [|[m3|] f]]]; cbn;
    try discriminate;
    destruct (repository.skip_of (repository.defaults filter) <? 0); cbn;
    try discriminate; intros H; now injection H.
Qed.

Lemma find_page_quiet (q : mongo.Query) (filter : repository.TaskFilter)
      (w : mongo.World) :
  mongo.faults w = [] ->
  0 <= repository.skip_of (repository.defaults filter) ->
  repository.find_page q filter w
  = (Ok (mongo.window
           (mongo.SetSort (mongo.ByCreatedAt (-1))
              (mongo.SetLimit (repository.Limit (repository.defaults filter))
                 (mongo.SetSkip
                    (repository.skip_of (repository.defaults filter))
                    mongo.Find_)))
           (List.filter q (mongo.docs w)),
         Z.of_nat (length (List.filter q (mongo.docs w)))), w).
Proof.
  intros quiet Hskip.
  assert (Hneg : (repository.skip_of (repository.defaults filter) <? 0) = false)
    by (apply Z.ltb_ge; exact Hskip).
  destruct w as [d c r f l]. cbn in quiet. subst f.
  unfold repository.find_page, mongo.CountDocuments, mongo.Find, mongo.All.
  world. cbn [mongo.Skip mongo.SetSort mongo.SetLimit mongo.SetSkip].
  rewrite Hneg. reflexivity.
Qed.

Lemma filter_length_le (q : mongo.Query) (l : list models.Task) :
  (length (List.filter q l) <= length l)%nat.
Proof.
  induction l as [|a l IH]; simpl; [lia|]. destruct (q a); simpl; lia.
Qed.

(** C4. [ListTasks] with a positive limit, on a collection whose size
    fits an [int64]: every response it returns reports as [TotalCount]
    the number of records in the caller's scope and as [TotalPages] the
    ceiling of [TotalCount / Limit], that is the one integer [p] with
    [Limit * (p - 1) < TotalCount <= Limit * p], which is [0] when
    [TotalCount] is [0]; the pages are computed with integer division and
    remainder ([service.totalPages]) and the call does not panic.  It returns
    such a response whenever the environment fails no driver call and the
    skip does not overflow. *)
Theorem ListTasks_totalPages_ceiling
  (user : models.User) (filter : repository.TaskFilter) (w : mongo.World) :
  0 < repository.Limit filter ->
  Z.of_nat (length (mongo.docs w)) <= int64_max ->
  (forall response,
     fst (service.ListTasks user filter w) = Returns (Ok response) ->
     models.TotalCount response
       = Z.of_nat (length (List.filter (scope user filter) (mongo.docs w))) /\
     service.totalPages (models.TotalCount response) (repository.Limit filter)
       = Returns (models.TotalPages response) /\
     repository.Limit filter * (models.TotalPages response - 1)
       < models.TotalCount response
       <= repository.Limit filter * models.TotalPages response /\
     (models.TotalCount response = 0 -> models.TotalPages response = 0))
  /\
  (forall msg, fst (service.ListTasks user filter w) <> Panics msg)
  /\
  (mongo.faults w = [] ->
   0 <= repository.skip_of (repository.defaults filter) ->
   exists response,
     fst (service.ListTasks user filter w) = Returns (Ok response)).
Proof.
  intros Hlimit Hsize.
  unfold service.ListTasks. rewrite ListTasks_find_page.
  unfold mongo.bind at 1 2 3.
  destruct (repository.find_page (scope user filter) filter w)
    as [[[tasks n]|err] w1] eqn:Hpage; cbn [mongo.ret fst].
  - pose proof (find_page_count (scope user filter) filter w tasks n) as Hn.
    rewrite Hpage in Hn. specialize (Hn eq_refl).
    assert (Hrange : 0 <= n <= int64_max).
    { subst n. split; [lia|].
      pose proof (filter_length_le (scope user filter) (mongo.docs w)). lia. }
    destruct (totalPages_ceiling n (repository.Limit filter) Hrange Hlimit)
      as (pages & Hpages & Hceil & Hzero).
    rewrite Hpages. cbn [run_bind]. split; [|split].
    + intros response Hresp. injection Hresp as <-.
      cbn [models.TotalCount models.TotalPages]. subst n. auto.
    + discriminate.
    + eauto.
  - split; [|split].
    + discriminate.
    + discriminate.
    + intros quiet Hskip.
      rewrite (find_page_quiet _ _ _ quiet Hskip) in Hpage. discriminate.
Qed.

Lemma ListTasks_totalPages_ceiling_witness :
  0 < 2 /\
  Z.of_nat (length (mongo.docs sample.store)) <= int64_max /\
  exists response,
    fst (service.ListTasks sample.root (repository.mkTaskFilter None 1 2)
           sample.store) = Returns (Ok response) /\
    models.TotalCount response = 3 /\
    models.TotalPages response = 2.
Proof.
  split; [lia|]. split; [discriminate|].
  destruct (ListTasks_totalPages_ceiling
              sample.root (repository.mkTaskFilter None 1 2) sample.store)
    as (Hresp & _ & Hreturns).
  - reflexivity.
  - discriminate.
  - destruct Hreturns as [response Hrun]; [reflexivity|discriminate|].
    exists response. split; [exact Hrun|].
    destruct (Hresp response Hrun) as (Hcount & _ & Hceil & _).
    cbn [repository.Limit] in Hceil.
    change (models.TotalCount response = 3) in Hcount.
    split; [exact Hcount|]. lia.
Defined.

(** ** The filter the handler builds *)

(** The page and the limit of the filter that reaches the service: the
    parameter when it parses to a positive number (at most 100 for the
    limit), the default otherwise. *)
Lemma listFilter_shape (r : handler.Request) (f : repository.TaskFilter) :
  handler.listFilter r = Ok f ->
  repository.Page f
    = match handler.Atoi (handler.Get (handler.URLQuery r) "page") with
      | Ok page => if page >? 0 then page else 1
      | Err _ => 1
      end /\
  repository.Limit f
    = match handler.Atoi (handler.Get (handler.URLQuery r) "limit") with
      | Ok limit => if (limit >? 0) && (limit <=? 100) then limit else 10
      | Err _ => 10
      end.
Proof.
  unfold handler.listFilter.
  set (ps := handler.Get (handler.URLQuery r) "page").
  set (ls := handler.Get (handler.URLQuery r) "limit").
  set (ss := handler.Get (handler.URLQuery r) "status").
  set (f0 := repository.mkTaskFilter None 1 10).
  set (f1 := if negb (String.eqb ps "") then _ else f0).
  set (f2 := if negb (String.eqb ls "") then _ else f1).
  assert (H1 : repository.Page f1
               = match handler.Atoi ps with
                 | Ok page => if page >? 0 then page else 1
                 | Err _ => 1
                 end /\ repository.Limit f1 = 10).
  { unfold f1. destruct (String.eqb_spec ps "") as [->|_]; cbn [negb].
    - split; reflexivity.
    - destruct (handler.Atoi ps) as [page|]; [|split; reflexivity].
      destruct (page >? 0); split; reflexivity. }
  assert (H2 : repository.Page f2 = repository.Page f1 /\
               repository.Limit f2
               = match handler.Atoi ls with
                 | Ok limit =>
                     if (limit >? 0) && (limit <=? 100) then limit else 10
                 | Err _ => 10
                 end).
  { unfold f2. destruct (String.eqb_spec ls "") as [->|_]; cbn [negb].
    - split; [reflexivity|]. apply H1.
    - destruct (handler.Atoi ls) as [limit|]; [|split; [reflexivity|apply H1]].
      destruct ((limit >? 0) && (limit <=? 100));
        split; try reflexivity; apply H1. }
  destruct H1 as [H1 _]. destruct H2 as [H2p H2l].
  destruct (negb (String.eqb ss "")).
  - destruct (service.IsValidStatus ss); [|discriminate].
    intros H. injection H as <-.
    cbn [repository.Page repository.Limit repository.set_Status].
    split; congruence.
  - intros H. injection H as <-. split; congruence.
Qed.

Lemma listFilter_bounds (r : handler.Request) (f : repository.TaskFilter) :
  handler.listFilter r = Ok f ->
  1 <= repository.Page f <= int64_max /\ 1 <= repository.Limit f <= 100.
Proof.
  intros H. destruct (listFilter_shape r f H) as [-> ->].
  assert (Hint : forall s n, handler.Atoi s = Ok n -> n <= int64_max).
  { intros s n. unfold handler.Atoi.
    destruct (match s with
              | String "-"%char s' => (true, s')
              | String "+"%char s' => (false, s')
              | _ => (false, s)
              end) as [neg body].
    destruct body; [discriminate|].
    destruct (handler.digits _ 0) as [d|]; [|discriminate].
    destruct (int64_min <=? _) eqn:Hlo; [|discriminate].
    destruct (_ <=? int64_max) eqn:Hhi; [|discriminate].
    intros Hn. injection Hn as <-. now apply Z.leb_le. }
  split.
  - destruct (handler.Atoi (handler.Get _ "page")) as [page|] eqn:Hp;
      [|unfold int64_max; lia].
    destruct (Z.gtb_spec page 0); [|unfold int64_max; lia].
    split; [lia|]. exact (Hint _ _ Hp).
  - destruct (handler.Atoi (handler.Get _ "limit")) as [limit|]; [|lia].
    destruct (Z.gtb_spec limit 0); cbn [andb]; [|lia].
    destruct (Z.leb_spec limit 100); lia.
Qed.

Lemma defaults_shape (f : repository.TaskFilter) :
  repository.Page (repository.defaults f)
    = (if repository.Page f <? 1 then 1 else repository.Page f) /\
  repository.Limit (repository.defaults f)
    = (if repository.Limit f <? 1 then 10 else repository.Limit f).
Proof.
  destruct f as [status page limit].
  unfold repository.defaults, repository.set_Page, repository.set_Limit.
  cbn [repository.Page repository.Limit repository.Status].
  destruct (page <? 1); cbn [repository.Page repository.Limit];
    destruct (limit <? 1); split; reflexivity.
Qed.

(** The page the repository fetches, when the environment fails no driver
    call and [(page - 1) * limit] fits an [int]. *)
Lemma find_page_window (q : mongo.Query) (f : repository.TaskFilter)
      (w : mongo.World) :
  let page := if repository.Page f <? 1 then 1 else repository.Page f in
  let limit := if repository.Limit f <? 1 then 10 else repository.Limit f in
  mongo.faults w = [] ->
  (page - 1) * limit <= int64_max ->
  fst (repository.find_page q f w)
  = Ok (firstn (Z.to_nat limit)
          (skipn (Z.to_nat ((page - 1) * limit))
             (mongo.sort_docs (mongo.sort_leb (mongo.ByCreatedAt (-1)))
                (List.filter q (mongo.docs w)))),
        Z.of_nat (length (List.filter q (mongo.docs w)))).
Proof.
  intros page limit quiet Hfit.
  destruct (defaults_shape f) as [Hp Hl]. fold page in Hp. fold limit in Hl.
  assert (Hpage : 1 <= page)
    by (unfold page; destruct (Z.ltb_spec (repository.Page f) 1); lia).
  assert (Hlimit : 1 <= limit)
    by (unfold limit; destruct (Z.ltb_spec (repository.Limit f) 1); lia).
  assert (Hskip : repository.skip_of (repository.defaults f)
                  = (page - 1) * limit).
  { unfold repository.skip_of, mul64. rewrite Hp, Hl.
    unfold int64_max in Hfit.
    rewrite (wrap64_in_range (page - 1))
      by (unfold in_int64, int64_min, int64_max; nia).
    apply wrap64_in_range. unfold in_int64, int64_min, int64_max. nia. }
  rewrite find_page_quiet by (try assumption; rewrite Hskip; nia).
  cbn [fst]. rewrite Hskip, Hl. unfold mongo.window.
  cbn [mongo.Sort mongo.Skip mongo.Limit mongo.SetSort mongo.SetLimit
       mongo.SetSkip].
  replace (limit =? 0) with false by (symmetry; apply Z.eqb_neq; lia).
  rewrite Zabs2Nat.abs_nat_nonneg by lia. reflexivity.
Qed.

(** C5. The repository, on its copy of the filter, replaces a page below
    [1] (the zero value of an absent page included) by [1] and a limit
    below [1] by [10]; with [skip = (page - 1) * limit], when that fits an
    [int] and the environment fails no driver call, [FindByUserID] and
    [FindAll] return the [limit] matching records that follow the first
    [skip] in the order newest first, with the number of all matching
    records.  The handler, which calls them through the service, gives
    them a limit between [1] and [100] and a page of at least [1]: a
    parameter that is absent, does not parse or is out of these bounds is
    replaced by the default, [10] or [1]. *)
Theorem pagination_defaults_and_limit_cap :
  (forall (userID : ObjectID) (f : repository.TaskFilter) (w : mongo.World),
     let page := if repository.Page f <? 1 then 1 else repository.Page f in
     let limit := if repository.Limit f <? 1 then 10 else repository.Limit f in
     let newest_first := mongo.sort_docs (mongo.sort_leb (mongo.ByCreatedAt (-1))) in
     let own := repository.with_status f
                  (fun t => (models.UserID t =? userID)%N) in
     let any := repository.with_status f (fun _ => true) in
     mongo.faults w = [] ->
     (page - 1) * limit <= int64_max ->
     fst (repository.FindByUserID userID f w)
     = Ok (firstn (Z.to_nat limit)
             (skipn (Z.to_nat ((page - 1) * limit))
                (newest_first (List.filter own (mongo.docs w)))),
           Z.of_nat (length (List.filter own (mongo.docs w)))) /\
     fst (repository.FindAll f w)
     = Ok (firstn (Z.to_nat limit)
             (skipn (Z.to_nat ((page - 1) * limit))
                (newest_first (List.filter any (mongo.docs w)))),
           Z.of_nat (length (List.filter any (mongo.docs w)))))
  /\
  (forall (r : handler.Request) (f : repository.TaskFilter),
     handler.listFilter r = Ok f ->
     1 <= repository.Page f /\
     1 <= repository.Limit f <= 100 /\
     repository.Page f
       = match handler.Atoi (handler.Get (handler.URLQuery r) "page") with
         | Ok page => if page >? 0 then page else 1
         | Err _ => 1
         end /\
     repository.Limit f
       = match handler.Atoi (handler.Get (handler.URLQuery r) "limit") with
         | Ok limit => if (limit >? 0) && (limit <=? 100) then limit else 10
         | Err _ => 10
         end).
Proof.
  split.
  - intros userID f w page limit newest_first own any quiet Hfit.
    unfold repository.FindByUserID, repository.FindAll. split.
    + exact (find_page_window own f w quiet Hfit).
    + exact (find_page_window any f w quiet Hfit).
  - intros r f Hf.
    destruct (listFilter_bounds r f Hf) as [[Hp _] Hl].
    destruct (listFilter_shape r f Hf) as [Hps Hls].
    repeat split; try assumption; lia.
Qed.

Lemma pagination_defaults_and_limit_cap_witness :
  fst (repository.FindAll (repository.mkTaskFilter None 0 0) sample.store)
  = Ok ([sample.write_spec; sample.deploy; sample.review], 3) /\
  fst (repository.FindAll (repository.mkTaskFilter None 2 2) sample.store)
  = Ok ([sample.review], 3) /\
  (exists f,
     handler.listFilter
       (handler.mkRequest (Some sample.alice) [("page", "3"); ("limit", "500")])
     = Ok f /\ repository.Page f = 3 /\ repository.Limit f = 10).
Proof.
  split; [|split].
  - apply (proj1 pagination_defaults_and_limit_cap 0%N
             (repository.mkTaskFilter None 0 0) sample.store);
      [reflexivity|discriminate].
  - apply (proj1 pagination_defaults_and_limit_cap 0%N
             (repository.mkTaskFilter None 2 2) sample.store);
      [reflexivity|discriminate].
  - eexists. split; [reflexivity|].
    destruct (proj2 pagination_defaults_and_limit_cap
                (handler.mkRequest (Some sample.alice)
                   [("page", "3"); ("limit", "500")])
                (repository.mkTaskFilter None 3 10) eq_refl)
      as (_ & _ & Hp & Hl).
    split; [exact Hp|exact Hl].
Defined.

(** ** Division by the caller's limit *)

Lemma with_status_defaults (f : repository.TaskFilter) (q : mongo.Query) :
  repository.with_status (repository.defaults f) q = repository.with_status f q.
Proof.
  destruct f as [status page limit].
  unfold repository.defaults, repository.set_Page, repository.set_Limit,
    repository.with_status.
  cbn [repository.Page repository.Limit repository.Status].
  destruct (page <? 1); cbn [repository.Page repository.Limit repository.Status];
    destruct (limit <? 1); reflexivity.
Qed.

Lemma defaults_idempotent (f : repository.TaskFilter) :
  repository.defaults (repository.defaults f) = repository.defaults f.
Proof.
  destruct f as [status page limit].
  unfold repository.defaults, repository.set_Page, repository.set_Limit.
  cbn [repository.Page repository.Limit repository.Status].
  destruct (page <? 1) eqn:Hp;
    cbn [repository.Page repository.Limit repository.Status];
    destruct (limit <? 1) eqn:Hl;
    cbn [repository.Page repository.Limit repository.Status];
    rewrite ?Hp, ?Hl;
    cbn [repository.Page repository.Limit repository.Status Z.ltb Z.compare
         Pos.compare Pos.compare_cont];
    rewrite ?Hl; reflexivity.
Qed.

Lemma ListTasks_panics_at_zero (user : models.User)
      (f : repository.TaskFilter) (w : mongo.World) tasks n :
  repository.Limit f = 0 ->
  fst (repository.find_page (scope user f) f w) = Ok (tasks, n) ->
  fst (service.ListTasks user f w)
  = Panics "runtime error: integer divide by zero".
Proof.
  intros Hzero Hpage. unfold service.ListTasks.
  rewrite ListTasks_find_page. unfold mongo.bind.
  destruct (repository.find_page (scope user f) f w) as [r w1].
  cbn [fst] in Hpage. subst r. rewrite Hzero. reflexivity.
Qed.

Lemma ListTasks_returns (user : models.User)
      (f : repository.TaskFilter) (w : mongo.World) :
  repository.Limit f <> 0 ->
  exists r, fst (service.ListTasks user f w) = Returns r.
Proof.
  intros Hlimit. unfold service.ListTasks.
  rewrite ListTasks_find_page. unfold mongo.bind.
  destruct (repository.find_page (scope user f) f w) as [[[tasks n]|err] w1];
    cbn [mongo.ret fst]; [|eauto].
  destruct (totalPages_returns n (repository.Limit f) Hlimit) as [pages ->].
  cbn [run_bind]. eauto.
Qed.

(** C10. [ListTasks] divides the count by the limit of the filter it was
    called with: the defaults of the repository apply to the repository's
    own copy (a call with a filter and a call with the defaulted filter
    fetch the same), and the response carries the caller's page and limit.
    So with a limit of [0], whenever the repository call returns a page
    the division panics, which it does on every store whose driver calls
    the environment does not fail (the skip fitting an [int]).  With a
    limit of at least [1] the call does not panic.  The handler only calls
    it with a limit between [1] and [100], and so never panics. *)
Theorem ListTasks_divides_by_caller_limit :
  (forall (userID : ObjectID) (f : repository.TaskFilter) (w : mongo.World),
     repository.FindByUserID userID f w
       = repository.FindByUserID userID (repository.defaults f) w /\
     repository.FindAll f w = repository.FindAll (repository.defaults f) w)
  /\
  (forall user f w response,
     fst (service.ListTasks user f w) = Returns (Ok response) ->
     models.Page response = repository.Page f /\
     models.Limit response = repository.Limit f)
  /\
  (forall user f w tasks n,
     repository.Limit f = 0 ->
     fst ((if String.eqb (models.User_Role user) models.UserRoleAdmin
           then repository.FindAll f
           else repository.FindByUserID (models.User_ID user) f) w)
       = Ok (tasks, n) ->
     fst (service.ListTasks user f w)
       = Panics "runtime error: integer divide by zero")
  /\
  (forall user f w,
     repository.Limit f = 0 ->
     mongo.faults w = [] ->
     repository.Page f <= 922337203685477581 ->
     fst (service.ListTasks user f w)
       = Panics "runtime error: integer divide by zero")
  /\
  (forall user f w,
     1 <= repository.Limit f ->
     exists r, fst (service.ListTasks user f w) = Returns r)
  /\
  (forall r f, handler.listFilter r = Ok f -> 1 <= repository.Limit f <= 100)
  /\
  (forall r w, exists response, fst (handler.ListTasks r w) = Returns response).
Proof.
  repeat apply conj.
  - intros userID f w. unfold repository.FindByUserID, repository.FindAll.
    rewrite !with_status_defaults. unfold repository.find_page.
    rewrite defaults_idempotent. split; reflexivity.
  - intros user f w response. unfold service.ListTasks.
    rewrite ListTasks_find_page. unfold mongo.bind.
    destruct (repository.find_page (scope user f) f w)
      as [[[tasks n]|err] w1]; cbn [mongo.ret fst]; [|discriminate].
    destruct (service.totalPages n (repository.Limit f));
      cbn [run_bind]; [|discriminate].
    intros H. injection H as <-. split; reflexivity.
  - intros user f w tasks n Hzero Hpage.
    rewrite ListTasks_find_page in Hpage.
    exact (ListTasks_panics_at_zero user f w tasks n Hzero Hpage).
  - intros user f w Hzero quiet Hpage.
    eapply ListTasks_panics_at_zero; [exact Hzero|].
    apply find_page_window; [exact quiet|].
    rewrite Hzero. cbn [Z.ltb Z.compare]. unfold int64_max.
    destruct (repository.Page f <? 1); lia.
  - intros user f w Hlimit. apply ListTasks_returns. lia.
  - intros r f Hf. apply (listFilter_bounds r f Hf).
  - intros r w. unfold handler.ListTasks.
    destruct (handler.GetUserFromContext r) as [user|]; [|cbn; eauto].
    destruct (handler.listFilter r) as [f|message] eqn:Hf; [|cbn; eauto].
    destruct (listFilter_bounds r f Hf) as [_ Hlimit].
    destruct (ListTasks_returns user f w ltac:(lia)) as [res Hres].
    unfold mongo.bind.
    destruct (service.ListTasks user f w) as [res' w1].
    cbn [fst] in Hres. subst res'.
    destruct res as [response|err]; cbn; eauto.
Qed.

Lemma ListTasks_divides_by_caller_limit_witness :
  repository.Limit (repository.mkTaskFilter None 1 0) = 0 /\
  mongo.faults sample.store = [] /\
  fst (service.ListTasks sample.alice (repository.mkTaskFilter None 1 0)
         sample.store)
  = Panics "runtime error: integer divide by zero".
Proof.
  split; [reflexivity|]. split; [reflexivity|].
  destruct ListTasks_divides_by_caller_limit as (_ & _ & _ & Hpanic & _).
  apply Hpanic; [reflexivity|reflexivity|discriminate].
Defined.

(** ** The server's sort *)

Section Sorting.

Variable leb : models.Task -> models.Task -> bool.
Hypothesis leb_total : forall a b, leb a b = true \/ leb b a = true.
Hypothesis leb_trans :
  forall a b c, leb a b = true -> leb b c = true -> leb a c = true.

Let R (a b : models.Task) : Prop := leb a b = true.

Lemma insert_sorted_perm (t : models.Task) (l : list models.Task) :
  Permutation (mongo.insert_sorted leb t l) (t :: l).
Proof.
  induction l as [|u l IH]; simpl; [reflexivity|].
  destruct (leb t u); [reflexivity|].
  rewrite IH. apply perm_swap.
Qed.

Lemma sort_docs_perm (l : list models.Task) :
  Permutation (mongo.sort_docs leb l) l.
Proof.
  induction l as [|t l IH]; simpl; [reflexivity|].
  rewrite insert_sorted_perm. now apply perm_skip.
Qed.

Lemma insert_sorted_sorted (t : models.Task) (l : list models.Task) :
  StronglySorted R l -> StronglySorted R (mongo.insert_sorted leb t l).
Proof.
  induction l as [|u l IH]; simpl; intros Hs.
  - constructor; constructor.
  - inversion Hs as [|x xs Hs' Hall]; subst.
    destruct (leb t u) eqn:Htu.
    + constructor; [exact Hs|]. constructor; [exact Htu|].
      eapply Forall_impl; [|exact Hall].
      intros x Hux. exact (leb_trans _ _ _ Htu Hux).
    + constructor; [now apply IH|].
      apply Forall_forall. intros x Hx.
      apply (Permutation_in _ (insert_sorted_perm t l)) in Hx.
      destruct Hx as [<-|Hx].
      * destruct (leb_total t u) as [H|H]; [congruence|exact H].
      * rewrite Forall_forall in Hall. now apply Hall.
Qed.

Lemma sort_docs_sorted (l : list models.Task) :
  StronglySorted R (mongo.sort_docs leb l).
Proof.
  induction l as [|t l IH]; simpl; [constructor|].
  now apply insert_sorted_sorted.
Qed.

End Sorting.

Lemma StronglySorted_weaken (R S : models.Task -> models.Task -> Prop)
      (l : list models.Task) :
  (forall a b, R a b -> S a b) -> StronglySorted R l -> StronglySorted S l.
Proof.
  intros HRS. induction 1 as [|a l Hs IH Hall]; constructor; [exact IH|].
  eapply Forall_impl; [|exact Hall]. intros b. apply HRS.
Qed.

Lemma pending_before_true (olderThan : Time) (t : models.Task) :
  repository.pending_before olderThan t = true <->
  (models.Status t = models.TaskStatusPending \/
   models.Status t = models.TaskStatusInProgress) /\
  models.CreatedAt t < olderThan.
Proof.
  unfold repository.pending_before. cbn [existsb].
  rewrite andb_true_iff, !orb_true_iff, !String.eqb_eq, Z.ltb_lt.
  intuition congruence.
Qed.

Lemma FindPendingTasks_quiet (olderThan : Time) (w : mongo.World) :
  mongo.faults w = [] ->
  repository.FindPendingTasks olderThan w
  = (Ok (mongo.sort_docs (mongo.sort_leb (mongo.ByCreatedAt 1))
           (List.filter (repository.pending_before olderThan) (mongo.docs w))),
     w).
Proof.
  intros quiet. destruct w as [d c r f l]. cbn in quiet. subst f.
  reflexivity.
Qed.

(** Membership in the result of the eligibility scan. *)
Lemma FindPendingTasks_member (olderThan : Time) (w : mongo.World)
      (t : models.Task) :
  In t (mongo.sort_docs (mongo.sort_leb (mongo.ByCreatedAt 1))
          (List.filter (repository.pending_before olderThan) (mongo.docs w)))
  <-> In t (mongo.docs w) /\
      (models.Status t = models.TaskStatusPending \/
       models.Status t = models.TaskStatusInProgress) /\
      models.CreatedAt t < olderThan.
Proof.
  rewrite <- pending_before_true, <- filter_In. split.
  - apply Permutation_in, sort_docs_perm.
  - apply Permutation_in, Permutation_sym, sort_docs_perm.
Qed.



(** ** The bounded queue *)

Lemma queueTasks_keeps (tasks : list models.Task) :
  forall c w c' w',
    worker.queueTasks tasks c w = (Returns c', w') ->
    channel.cap c' = channel.cap c /\
    channel.closed c' = channel.closed c /\
    ((length (channel.buf c) <= channel.cap c)%nat ->
     (length (channel.buf c') <= channel.cap c')%nat) /\
    mongo.docs w' = mongo.docs w.
Proof.
  induction tasks as [|task rest IH]; intros c w c' w'; cbn [worker.queueTasks].
  - intros H. injection H as <- <-. auto.
  - unfold channel.try_send.
    destruct (channel.closed c) eqn:Hclosed; [discriminate|].
    destruct (Nat.ltb_spec (length (channel.buf c)) (channel.cap c)) as [Hlt|Hge].
    + unfold mongo.bind, mongo.Printf. intros H.
      apply IH in H. cbn [channel.cap channel.closed channel.buf] in H.
      destruct H as (Hcap & Hcl & Hlen & Hdocs).
      split; [exact Hcap|]. split; [congruence|]. split; [|exact Hdocs].
      intros _. apply Hlen. rewrite length_app. cbn [length]. lia.
    + unfold mongo.bind, mongo.Printf. intros H.
      apply IH in H. destruct H as (Hcap & Hcl & Hlen & Hdocs).
      split; [exact Hcap|]. split; [congruence|]. split; [exact Hlen|].
      exact Hdocs.
Qed.

Lemma queueTasks_full (tasks : list models.Task) :
  forall c w,
    channel.closed c = false ->
    (channel.cap c <= length (channel.buf c))%nat ->
    worker.queueTasks tasks c w
    = (Returns c,
       mongo.set_log
         (mongo.log w ++ map (fun t => LogChannelFull (models.ID t)) tasks) w).
Proof.
  induction tasks as [|task rest IH]; intros c w Hopen Hfull;
    cbn [worker.queueTasks map].
  - rewrite app_nil_r. now destruct w.
  - unfold channel.try_send. rewrite Hopen.
    destruct (Nat.ltb_spec (length (channel.buf c)) (channel.cap c));
      [lia|].
    unfold mongo.bind, mongo.Printf. rewrite (IH c _ Hopen Hfull).
    destruct w as [d k r f l]. unfold mongo.set_log.
    cbn [mongo.docs mongo.clock mongo.reads mongo.faults mongo.log].
    now rewrite <- app_assoc.
Qed.

(** Reading the store does not change it, whatever the environment does. *)
Lemma FindPendingTasks_reads (olderThan : Time) (w : mongo.World) :
  mongo.docs (snd (repository.FindPendingTasks olderThan w)) = mongo.docs w /\
  mongo.log (snd (repository.FindPendingTasks olderThan w)) = mongo.log w.
Proof.
  destruct w as [d k r f l].
  unfold repository.FindPendingTasks, mongo.Find, mongo.All. world.
  destruct f as [|[m1|] [|[m2|] f]]; cbn; split; reflexivity.
Qed.

Lemma checkAndQueueTasks_keeps (tw tw' : worker.TaskWorker)
      (w w' : mongo.World) :
  worker.checkAndQueueTasks tw w = (Returns tw', w') ->
  worker.autoCompleteMinutes tw' = worker.autoCompleteMinutes tw /\
  channel.cap (worker.taskChannel tw') = channel.cap (worker.taskChannel tw) /\
  channel.closed (worker.taskChannel tw')
    = channel.closed (worker.taskChannel tw) /\
  ((length (channel.buf (worker.taskChannel tw))
    <= channel.cap (worker.taskChannel tw))%nat ->
   (length (channel.buf (worker.taskChannel tw'))
    <= channel.cap (worker.taskChannel tw'))%nat) /\
  mongo.docs w' = mongo.docs w.
Proof.
  unfold worker.checkAndQueueTasks, worker.threshold.
  unfold mongo.bind at 1 2 3. unfold mongo.Now, mongo.ret.
  pose proof (FindPendingTasks_reads
                (Time_Add (mongo.clock w (mongo.reads w))
                   (worker.autoCompleteWindow tw))
                (mongo.set_reads (S (mongo.reads w)) w)) as [Hdocs _].
  destruct (repository.FindPendingTasks _ _) as [[tasks|err] w1].
  - unfold mongo.bind.
    destruct (worker.queueTasks tasks (worker.taskChannel tw) w1)
      as [[c|msg] w2] eqn:Hq; [|discriminate].
    intros H. injection H as <- <-.
    destruct (queueTasks_keeps _ _ _ _ _ Hq) as (Hcap & Hcl & Hlen & Hd).
    cbn [worker.set_taskChannel worker.autoCompleteMinutes worker.taskChannel].
    repeat split; try assumption.
    rewrite Hd. exact Hdocs.
  - unfold mongo.bind, mongo.Printf. intros H. injection H as <- <-.
    repeat split; auto.
Qed.

Lemma recv_received (c c' : channel.chan) (v : ObjectID) :
  channel.recv c = channel.Received v c' ->
  channel.buf c = v :: channel.buf c' /\
  channel.cap c' = channel.cap c /\
  channel.closed c' = channel.closed c.
Proof.
  unfold channel.recv. destruct (channel.buf c) as [|x rest] eqn:Hbuf.
  - destruct (channel.closed c); discriminate.
  - intros H. injection H as <- <-. auto.
Qed.

Lemma close_returns (c c' : channel.chan) :
  channel.close c = Returns c' ->
  channel.closed c = false /\ channel.closed c' = true /\
  channel.buf c' = channel.buf c /\ channel.cap c' = channel.cap c.
Proof.
  unfold channel.close. destruct (channel.closed c); [discriminate|].
  intros H. injection H as <-. auto.
Qed.

(** One transition keeps the capacity of the channel and its bound. *)
Lemma step_bounded (s s' : worker.System) :
  worker.step s s' ->
  channel.cap (worker.taskChannel (worker.tw s)) = 100%nat /\
  (length (worker.queue s) <= 100)%nat ->
  channel.cap (worker.taskChannel (worker.tw s')) = 100%nat /\
  (length (worker.queue s') <= 100)%nat.
Proof.
  unfold worker.queue.
  intros Hstep [Hcap Hlen]; destruct Hstep; cbn [worker.tw]; auto.
  - match goal with H : channel.close _ = _ |- _ =>
      apply close_returns in H; destruct H as (_ & _ & Hbuf & Hc) end.
    cbn [worker.set_taskChannel worker.taskChannel].
    rewrite Hbuf, Hc. auto.
  - match goal with H : worker.checkAndQueueTasks _ _ = _ |- _ =>
      apply checkAndQueueTasks_keeps in H;
      destruct H as (_ & Hc & _ & Hl & _) end.
    rewrite Hc. split; [exact Hcap|].
    rewrite <- Hcap, <- Hc. apply Hl. lia.
  - match goal with H : channel.recv _ = _ |- _ =>
      apply recv_received in H; destruct H as (Hbuf & Hc & _) end.
    cbn [worker.set_taskChannel worker.taskChannel].
    rewrite Hc. split; [exact Hcap|].
    rewrite Hbuf in Hlen. cbn [length] in Hlen. lia.
Qed.

Lemma steps_bounded (s s' : worker.System) :
  worker.steps s s' ->
  channel.cap (worker.taskChannel (worker.tw s)) = 100%nat /\
  (length (worker.queue s) <= 100)%nat ->
  channel.cap (worker.taskChannel (worker.tw s')) = 100%nat /\
  (length (worker.queue s') <= 100)%nat.
Proof.
  induction 1 as [s|s1 s2 s3 Hstep _ IH]; [auto|].
  intros H. apply IH. exact (step_bounded _ _ Hstep H).
Qed.

Lemma threshold_reads (tw : worker.TaskWorker) (w : mongo.World) :
  worker.threshold tw w
  = (mongo.clock w (mongo.reads w) + worker.autoCompleteWindow tw,
     mongo.set_reads (S (mongo.reads w)) w).
Proof. reflexivity. Qed.

(** A scan that finds the channel open and full leaves it as it is. *)
Lemma checkAndQueueTasks_full (tw : worker.TaskWorker) (w : mongo.World) :
  channel.closed (worker.taskChannel tw) = false ->
  (channel.cap (worker.taskChannel tw)
   <= length (channel.buf (worker.taskChannel tw)))%nat ->
  worker.checkAndQueueTasks tw w
  = match fst (repository.FindPendingTasks (fst (worker.threshold tw w))
                 (snd (worker.threshold tw w))) with
    | Ok tasks =>
        (Returns tw,
         mongo.set_log
           (mongo.log (snd (repository.FindPendingTasks
                              (fst (worker.threshold tw w))
                              (snd (worker.threshold tw w))))
            ++ map (fun t => LogChannelFull (models.ID t)) tasks)
           (snd (repository.FindPendingTasks (fst (worker.threshold tw w))
                   (snd (worker.threshold tw w)))))
    | Err err =>
        (Returns tw,
         snd (mongo.Printf (LogErrorFindingPending err)
                (snd (repository.FindPendingTasks
                        (fst (worker.threshold tw w))
                        (snd (worker.threshold tw w))))))
    end.
Proof.
  intros Hopen Hfull. unfold worker.checkAndQueueTasks.
  unfold mongo.bind at 1 2. rewrite threshold_reads. cbn [fst snd].
  destruct (repository.FindPendingTasks _ _) as [[tasks|err] w1]; cbn [fst snd].
  - unfold mongo.bind. rewrite (queueTasks_full tasks _ w1 Hopen Hfull).
    unfold mongo.ret. now destruct tw.
  - reflexivity.
Qed.

(** C7. In every state the goroutines of [Start] reach from a worker made
    by [NewTaskWorker], the channel holds at most 100 identifiers.  A scan
    that finds the channel full (and open) returns with the channel and
    the store as they were, and, when the environment fails no driver
    call, has logged for each eligible record that the channel is full: it
    neither blocks nor panics nor reports an error.  A record some scan
    found that is still stored as it was is found again by the eligibility
    query of any later scan of the same worker, when the environment fails
    no driver call and the clock has not gone backwards. *)
Theorem queue_bounded_and_sheds_load :
  (forall (minutes : Z) (wd : mongo.World) (s : worker.System),
     worker.steps (worker.Start (worker.NewTaskWorker minutes) wd) s ->
     channel.cap (worker.taskChannel (worker.tw s)) = 100%nat /\
     (length (worker.queue s) <= 100)%nat)
  /\
  (forall (tw : worker.TaskWorker) (w : mongo.World),
     channel.closed (worker.taskChannel tw) = false ->
     length (channel.buf (worker.taskChannel tw))
       = channel.cap (worker.taskChannel tw) ->
     fst (worker.checkAndQueueTasks tw w) = Returns tw /\
     mongo.docs (snd (worker.checkAndQueueTasks tw w)) = mongo.docs w /\
     (mongo.faults w = [] ->
      exists tasks,
        fst (repository.FindPendingTasks (fst (worker.threshold tw w))
               (snd (worker.threshold tw w))) = Ok tasks /\
        mongo.log (snd (worker.checkAndQueueTasks tw w))
          = mongo.log w ++ map (fun t => LogChannelFull (models.ID t)) tasks))
  /\
  (forall (tw : worker.TaskWorker) (w1 w2 : mongo.World)
          (t : models.Task) (tasks1 : list models.Task),
     mongo.faults w2 = [] ->
     fst (repository.FindPendingTasks (fst (worker.threshold tw w1))
            (snd (worker.threshold tw w1))) = Ok tasks1 ->
     In t tasks1 ->
     In t (mongo.docs w2) ->
     mongo.clock w1 (mongo.reads w1) <= mongo.clock w2 (mongo.reads w2) ->
     exists tasks2,
       fst (repository.FindPendingTasks (fst (worker.threshold tw w2))
              (snd (worker.threshold tw w2))) = Ok tasks2 /\
       In t tasks2).
Proof.
  split; [|split].
  - intros minutes wd s Hsteps.
    apply (steps_bounded _ _ Hsteps). cbn. split; [reflexivity|lia].
  - intros tw w Hopen Hfull.
    rewrite (checkAndQueueTasks_full tw w Hopen) by lia.
    rewrite threshold_reads. cbn [fst snd].
    pose proof (FindPendingTasks_reads
                  (mongo.clock w (mongo.reads w) + worker.autoCompleteWindow tw)
                  (mongo.set_reads (S (mongo.reads w)) w)) as [Hdocs Hlog].
    split; [|split].
    + now destruct (fst (repository.FindPendingTasks _ _)).
    + destruct (fst (repository.FindPendingTasks _ _)); cbn [snd];
        unfold mongo.Printf, mongo.set_log; cbn [snd mongo.docs];
        exact Hdocs.
    + intros quiet.
      rewrite FindPendingTasks_quiet in * by exact quiet.
      cbn [fst snd] in *. eexists. split; [reflexivity|].
      cbn [mongo.set_log mongo.log mongo.set_reads]. reflexivity.
  - intros tw w1 w2 t tasks1 quiet2 Hfound Hin Hstill Hclock.
    rewrite threshold_reads in *. cbn [fst snd] in *.
    rewrite FindPendingTasks_quiet by exact quiet2.
    eexists. split; [reflexivity|].
    apply FindPendingTasks_member. cbn [mongo.docs mongo.set_reads].
    split; [exact Hstill|].
    assert (Hmatch : repository.pending_before
                       (mongo.clock w1 (mongo.reads w1)
                        + worker.autoCompleteWindow tw) t = true).
    { revert Hfound Hin. clear.
      unfold repository.FindPendingTasks, mongo.Find, mongo.All.
      destruct w1 as [d k r f l]. world.
      destruct f as [|[m1|] [|[m2|] f]]; cbn; try discriminate;
        intros H; injection H as <-; intros Hin;
        apply (Permutation_in _ (sort_docs_perm _ _)) in Hin;
        apply filter_In in Hin; apply Hin. }
    apply pending_before_true in Hmatch.
    destruct Hmatch as [Hstatus Hold]. split; [exact Hstatus|lia].
Qed.

Lemma queue_bounded_and_sheds_load_witness :
  (exists s,
     worker.steps (worker.Start sample.tenMinutes sample.store) s /\
     worker.queue s = [3%N; 1%N] /\
     (length (worker.queue s) <= 100)%nat) /\
  (channel.closed (worker.taskChannel sample.saturated) = false /\
   length (channel.buf (worker.taskChannel sample.saturated))
     = channel.cap (worker.taskChannel sample.saturated) /\
   fst (worker.checkAndQueueTasks sample.saturated sample.store)
     = Returns sample.saturated).
Proof.
  split.
  - eexists. split; [|split].
    + eapply worker.steps_step; [apply worker.env_tick; reflexivity|].
      eapply worker.steps_step;
        [eapply worker.Start_ticker; reflexivity|].
      apply worker.steps_refl.
    + reflexivity.
    + eapply (proj1 queue_bounded_and_sheds_load 10 sample.store).
      eapply worker.steps_step; [apply worker.env_tick; reflexivity|].
      eapply worker.steps_step;
        [eapply worker.Start_ticker; reflexivity|].
      apply worker.steps_refl.
  - split; [reflexivity|]. split; [reflexivity|].
    apply (proj1 (proj2 queue_bounded_and_sheds_load)
             sample.saturated sample.store); reflexivity.
Defined.

(** ** Cancellation *)











(** * Further properties of the code *)

(** ** Creating tasks *)

(** The status [CreateTask] stores for a request. *)
Lemma IsValidStatus_true (status : models.TaskStatus) :
  service.IsValidStatus status = true <->
  status = models.TaskStatusPending \/
  status = models.TaskStatusInProgress \/
  status = models.TaskStatusCompleted.
Proof.
  unfold service.IsValidStatus.
  rewrite !orb_true_iff, !String.eqb_eq. tauto.
Qed.

(** Every outcome of [CreateTask], whatever the environment does to the
    insertion. *)
Lemma CreateTask_outcome (generated userID : ObjectID)
      (req : tasks.CreateTaskRequest) (w : mongo.World) :
  let status := if String.eqb (tasks.Status req) ""
                then models.TaskStatusPending else tasks.Status req in
  let task := models.mkTask generated userID (tasks.Title req)
                (tasks.Description req) status
                (mongo.clock w (mongo.reads w))
                (mongo.clock w (mongo.reads w)) in
  (exists e,
     fst (tasks.CreateTask generated userID req w) = Err e /\
     mongo.docs (snd (tasks.CreateTask generated userID req w))
       = mongo.docs w)
  \/
  (fst (tasks.CreateTask generated userID req w) = Ok task /\
   tasks.Title req <> "" /\
   service.IsValidStatus status = true /\
   (forall u, In u (mongo.docs w) -> models.ID u <> generated) /\
   mongo.faults (snd (tasks.CreateTask generated userID req w))
     = tl (mongo.faults w) /\
   mongo.docs (snd (tasks.CreateTask generated userID req w))
     = mongo.docs w ++ [task]).
Proof.
  intros status task. unfold tasks.CreateTask.
  destruct (String.eqb_spec (tasks.Title req) "") as [Htitle|Htitle];
    [left; eexists; split; reflexivity|].
  fold status.
  destruct (service.IsValidStatus status) eqn:Hvalid; cbn [negb];
    [|left; eexists; split; reflexivity].
  unfold tasks.NewTask, tasks.Create, tasks.InsertOne. world.
  cbn [models.ID N.eqb].
  destruct w as [d k r f l]. world.
  destruct f as [|[msg|] fs]; world;
    try (left; eexists; split; reflexivity);
    (destruct (existsb (repository.by_id generated) d) eqn:Hex;
     [left; eexists; split; reflexivity|]);
    right; cbn;
    (repeat split; try assumption; try reflexivity);
    intros u Hu; apply by_id_false;
    rewrite existsb_find in Hex;
    (destruct (find (repository.by_id generated) d) eqn:Hf; [discriminate|]);
    exact (find_none _ _ Hf u Hu).
Qed.





(** ** What the mutations keep *)

(** A lookup, whatever the environment does: it changes nothing but the
    script of faults, and what it returns is the first record with the
    identifier. *)
Lemma FindByID_any (id : ObjectID) (w : mongo.World) :
  mongo.docs (snd (repository.FindByID id w)) = mongo.docs w /\
  mongo.clock (snd (repository.FindByID id w)) = mongo.clock w /\
  mongo.reads (snd (repository.FindByID id w)) = mongo.reads w /\
  mongo.log (snd (repository.FindByID id w)) = mongo.log w /\
  (forall t, fst (repository.FindByID id w) = Ok t ->
             find (repository.by_id id) (mongo.docs w) = Some t).
Proof.
  destruct w as [d k r f l].
  unfold repository.FindByID, mongo.FindOne. world.
  destruct f as [|[msg|] fs]; world;
    destruct (find (repository.by_id id) d) eqn:Hf; cbn;
    repeat split; try discriminate; intros t' H; now injection H as <-.
Qed.

Lemma UpdateStatus_any (id : ObjectID) (status : models.TaskStatus)
      (w : mongo.World) :
  mongo.docs (snd (repository.UpdateStatus id status w)) = mongo.docs w \/
  mongo.docs (snd (repository.UpdateStatus id status w))
  = mongo.update_first (repository.by_id id)
      (repository.set_status status (mongo.clock w (mongo.reads w)))
      (mongo.docs w).
Proof.
  destruct w as [d k r f l].
  unfold repository.UpdateStatus, mongo.UpdateOne. world.
  destruct f as [|[msg|] fs]; world;
    try (left; reflexivity);
    destruct (existsb (repository.by_id id) d); cbn; auto.
Qed.

Lemma Delete_any (id : ObjectID) (w : mongo.World) :
  mongo.docs (snd (repository.Delete id w)) = mongo.docs w \/
  mongo.docs (snd (repository.Delete id w))
  = mongo.delete_first (repository.by_id id) (mongo.docs w).
Proof.
  destruct w as [d k r f l].
  unfold repository.Delete, mongo.DeleteOne. world.
  destruct f as [|[msg|] fs]; world;
    try (left; reflexivity);
    destruct (existsb (repository.by_id id) d); cbn; auto.
Qed.

(** One run of the worker leaves the store as it is or completes the
    first record with the identifier, which was still open. *)
Lemma autoCompleteTask_any (tw : worker.TaskWorker) (id : ObjectID)
      (w : mongo.World) :
  mongo.docs (snd (worker.autoCompleteTask tw id w)) = mongo.docs w \/
  exists t,
    find (repository.by_id id) (mongo.docs w) = Some t /\
    worker.still_open t = true /\
    mongo.docs (snd (worker.autoCompleteTask tw id w))
    = mongo.update_first (repository.by_id id)
        (repository.set_status models.TaskStatusCompleted
           (mongo.clock w (S (mongo.reads w))))
        (mongo.docs w).
Proof.
  set (D := mongo.docs (snd (worker.autoCompleteTask tw id w))).
  assert (HD : D = mongo.docs (snd (worker.autoCompleteTask tw id w)))
    by reflexivity.
  clearbody D. revert HD.
  unfold worker.autoCompleteTask. unfold mongo.bind at 1.
  destruct (FindByID_any id w) as (Hd & Hk & Hr & _ & Hfound).
  destruct (repository.FindByID id w) as [[t|e] w1]; cbn [fst snd] in *.
  - specialize (Hfound t eq_refl).
    destruct (worker.still_open t) eqn:Hopen;
      [|intros ->; left; exact Hd].
    unfold worker.threshold. world.
    destruct (Time_Before _ _); [|intros ->; left; exact Hd].
    pose proof (UpdateStatus_any id models.TaskStatusCompleted
                  (mongo.set_reads (S (mongo.reads w1)) w1)) as Hupd.
    destruct (repository.UpdateStatus id models.TaskStatusCompleted
                (mongo.set_reads (S (mongo.reads w1)) w1)) as [r w2].
    cbn [snd mongo.docs mongo.clock mongo.reads mongo.set_reads] in Hupd.
    rewrite Hd, Hk, Hr in Hupd.
    destruct r as [[]|err]; unfold mongo.set_log; cbn [snd mongo.docs];
      intros ->;
      (destruct Hupd as [Hupd|Hupd]; [left; exact Hupd|]);
      right; exists t; auto.
  - intros ->. left. exact Hd.
Qed.

Lemma update_first_kept_or_completed (id : ObjectID) (now : Time)
      (l : list models.Task) (t : models.Task) :
  find (repository.by_id id) l = Some t ->
  worker.still_open t = true ->
  Forall2 (kept_or_completed now) l
    (mongo.update_first (repository.by_id id)
       (repository.set_status models.TaskStatusCompleted now) l).
Proof.
  assert (Hrefl : forall l', Forall2 (kept_or_completed now) l' l').
  { induction l' as [|a l' IH]; constructor; [|exact IH].
    unfold kept_or_completed. auto 10. }
  induction l as [|a l IH]; cbn [find mongo.update_first]; [discriminate|].
  destruct (repository.by_id id a).
  - intros H Hopen. injection H as ->. constructor; [|apply Hrefl].
    unfold kept_or_completed. cbn. auto 10.
  - intros H Hopen. constructor; [|now apply IH].
    unfold kept_or_completed. auto 10.
Qed.



Lemma kept_or_completed_well_formed (now : Time)
      (l l' : list models.Task) :
  Forall2 (kept_or_completed now) l l' -> well_formed l -> well_formed l'.
Proof.
  intros Hrel [Hnd Hvalid].
  assert (Hids : map models.ID l' = map models.ID l).
  { induction Hrel as [|a b l l' Hab _ IH]; [reflexivity|].
    cbn [map]. destruct Hab as (-> & _). f_equal.
    apply IH; [now inversion Hnd|now inversion Hvalid]. }
  split; [now rewrite Hids|]. clear Hnd Hids.
  induction Hrel as [|a b l l' Hab _ IH]; constructor.
  - destruct Hab as (_ & _ & _ & _ & _ & [->|(_ & -> & _)]);
      [now inversion Hvalid|reflexivity].
  - apply IH. now inversion Hvalid.
Qed.

Lemma delete_first_well_formed (q : mongo.Query) (l : list models.Task) :
  well_formed l -> well_formed (mongo.delete_first q l).
Proof.
  intros [Hnd Hvalid]. induction l as [|a l IH]; cbn [mongo.delete_first].
  - split; assumption.
  - inversion Hnd as [|x xs Hnotin Hnd']; subst.
    inversion Hvalid as [|y ys Ha Hvalid']; subst.
    destruct (q a); [split; assumption|].
    destruct (IH Hnd' Hvalid') as [IHnd IHvalid].
    split; [|now constructor].
    cbn [map]. constructor; [|exact IHnd].
    intros Hin. apply Hnotin.
    clear -Hin. induction l as [|b l IH]; cbn [mongo.delete_first map] in *;
      [contradiction|].
    destruct (q b); [now right|].
    destruct Hin as [->|Hin]; [now left|right; now apply IH].
Qed.

Lemma DeleteTask_any (taskID : ObjectID) (user : models.User)
      (w : mongo.World) :
  mongo.docs (snd (service.DeleteTask taskID user w)) = mongo.docs w \/
  mongo.docs (snd (service.DeleteTask taskID user w))
  = mongo.delete_first (repository.by_id taskID) (mongo.docs w).
Proof.
  unfold service.DeleteTask, mongo.bind.
  destruct (FindByID_any taskID w) as (Hd & _).
  destruct (repository.FindByID taskID w) as [[t|e] w1]; cbn [fst snd] in *;
    [|left; exact Hd].
  destruct (service.denied user t); [left; exact Hd|].
  rewrite <- Hd. apply Delete_any.
Qed.

(** X4. The three operations that change the collection keep it well
    formed, whatever the environment does to the driver calls: after
    [CreateTask], after a run of [autoCompleteTask] and after
    [DeleteTask], identifiers are still unique and every stored status is
    still one of [pending], [in_progress], [completed]. *)
Theorem mutations_keep_store_well_formed (w : mongo.World) :
  well_formed (mongo.docs w) ->
  (forall generated userID req,
     well_formed
       (mongo.docs (snd (tasks.CreateTask generated userID req w)))) /\
  (forall tw id,
     well_formed (mongo.docs (snd (worker.autoCompleteTask tw id w)))) /\
  (forall taskID user,
     well_formed (mongo.docs (snd (service.DeleteTask taskID user w)))).
Proof.
  intros Hwf. split; [|split].
  - intros generated userID req.
    destruct (CreateTask_outcome generated userID req w)
      as [(e & _ & ->)|(_ & _ & Hvalid & Hfresh & _ & ->)]; [exact Hwf|].
    destruct Hwf as [Hnd Hall]. split.
    + rewrite map_app. cbn [map models.ID].
      apply NoDup_app; [exact Hnd|repeat constructor; intros []|].
      intros x Hx [<-|[]]. apply in_map_iff in Hx.
      destruct Hx as (u & Hu & Hin). exact (Hfresh u Hin Hu).
    + apply Forall_app. split; [exact Hall|]. constructor; [|constructor].
      exact Hvalid.
  - intros tw id.
    destruct (autoCompleteTask_any tw id w) as [->|(t & Hfind & Hopen & ->)];
      [exact Hwf|].
    eapply kept_or_completed_well_formed; [|exact Hwf].
    now apply (update_first_kept_or_completed id _ _ t).
  - intros taskID user.
    destruct (DeleteTask_any taskID user w) as [->| ->]; [exact Hwf|].
    now apply delete_first_well_formed.
Qed.

Lemma mutations_keep_store_well_formed_witness :
  well_formed (mongo.docs sample.store) /\
  well_formed
    (mongo.docs (snd (worker.autoCompleteTask sample.tenMinutes 3%N
                        sample.store))).
Proof.
  assert (Hwf : well_formed (mongo.docs sample.store)).
  { split.
    - cbn. repeat constructor; cbn; intuition discriminate.
    - repeat constructor. }
  split; [exact Hwf|].
  apply (proj1 (proj2 (mutations_keep_store_well_formed sample.store Hwf))).
Defined.

(** ** Listings *)

Lemma firstn_In (n : nat) (l : list models.Task) (t : models.Task) :
  In t (firstn n l) -> In t l.
Proof.
  intros H. rewrite <- (firstn_skipn n l). apply in_or_app. now left.
Qed.

Lemma skipn_In (n : nat) (l : list models.Task) (t : models.Task) :
  In t (skipn n l) -> In t l.
Proof.
  intros H. rewrite <- (firstn_skipn n l). apply in_or_app. now right.
Qed.

(** The server returns matching documents only. *)
Lemma window_In (o : mongo.FindOptions) (l : list models.Task)
      (t : models.Task) :
  In t (mongo.window o l) -> In t l.
Proof.
  unfold mongo.window. intros H.
  assert (Hlimit : In t match mongo.Skip o with
                        | Some n => skipn (Z.to_nat n)
                                      match mongo.Sort o with
                                      | Some s => mongo.sort_docs (mongo.sort_leb s) l
                                      | None => l
                                      end
                        | None => match mongo.Sort o with
                                  | Some s => mongo.sort_docs (mongo.sort_leb s) l
                                  | None => l
                                  end
                        end).
  { destruct (mongo.Limit o) as [n|]; [|exact H].
    destruct (n =? 0); [exact H|]. exact (firstn_In _ _ _ H). }
  assert (Hskip : In t match mongo.Sort o with
                       | Some s => mongo.sort_docs (mongo.sort_leb s) l
                       | None => l
                       end).
  { destruct (mongo.Skip o) as [n|]; [|exact Hlimit].
    exact (skipn_In _ _ _ Hlimit). }
  destruct (mongo.Sort o) as [s|]; [|exact Hskip].
  exact (Permutation_in _ (sort_docs_perm _ _) Hskip).
Qed.

(** Whatever the environment does, a page that is returned is the window
    of the matching documents. *)
Lemma find_page_tasks (q : mongo.Query) (f : repository.TaskFilter)
      (w : mongo.World) tasks n :
  fst (repository.find_page q f w) = Ok (tasks, n) ->
  tasks
  = mongo.window
      (mongo.SetSort (mongo.ByCreatedAt (-1))
         (mongo.SetLimit (repository.Limit (repository.defaults f))
            (mongo.SetSkip (repository.skip_of (repository.defaults f))
               mongo.Find_)))
      (List.filter q (mongo.docs w)).
Proof.
  unfold repository.find_page, mongo.CountDocuments, mongo.Find, mongo.All.
  destruct w as [d c r fl l]. world.
  destruct fl as [|[m1|] [|[m2|] [|[m3|] fl]]]; cbn;
    try discriminate;
    destruct (repository.skip_of (repository.defaults f) <? 0); cbn;
    try discriminate; intros H; now injection H.
Qed.

Lemma with_status_true (f : repository.TaskFilter) (q : mongo.Query)
      (t : models.Task) :
  repository.with_status f q t = true ->
  q t = true /\
  (forall s, repository.Status f = Some s -> models.Status t = s).
Proof.
  unfold repository.with_status.
  destruct (repository.Status f) as [s|].
  - intros H. apply andb_true_iff in H. destruct H as [Hq Hs].
    split; [exact Hq|]. intros s' Hs'. injection Hs' as <-.
    now apply String.eqb_eq.
  - intros H. split; [exact H|discriminate].
Qed.

Lemma firstn_length_le (n : nat) (l : list models.Task) :
  (length (firstn n l) <= n)%nat.
Proof. rewrite length_firstn. lia. Qed.

(** X5. Whatever the environment does to the driver calls, a page
    [FindByUserID] returns holds only stored records of that owner, with
    the status of the filter when it has one, and at most as many as the
    limit in force (the filter's, or [10] when that is below [1]); and
    [ListTasks] called by a user who is no admin returns only records the
    user owns. *)
Theorem listings_are_scoped_to_the_owner :
  (forall userID f w tasks n,
     fst (repository.FindByUserID userID f w) = Ok (tasks, n) ->
     (forall t, In t tasks ->
                In t (mongo.docs w) /\
                models.UserID t = userID /\
                (forall s, repository.Status f = Some s ->
                           models.Status t = s)) /\
     Z.of_nat (length tasks)
       <= (if repository.Limit f <? 1 then 10 else repository.Limit f))
  /\
  (forall user f w response,
     models.User_Role user <> models.UserRoleAdmin ->
     fst (service.ListTasks user f w) = Returns (Ok response) ->
     forall t, In t (models.Tasks response) ->
               In t (mongo.docs w) /\
               models.UserID t = models.User_ID user).
Proof.
  assert (Hscoped : forall userID f w tasks n,
             fst (repository.FindByUserID userID f w) = Ok (tasks, n) ->
             forall t, In t tasks ->
                       In t (mongo.docs w) /\
                       models.UserID t = userID /\
                       (forall s, repository.Status f = Some s ->
                                  models.Status t = s)).
  { intros userID f w tasks n Hpage t Hin.
    unfold repository.FindByUserID in Hpage.
    apply find_page_tasks in Hpage. subst tasks.
    apply window_In, filter_In in Hin. destruct Hin as [Hin Hq].
    apply with_status_true in Hq. destruct Hq as [Hown Hstatus].
    split; [exact Hin|]. split; [now apply N.eqb_eq|exact Hstatus]. }
  split.
  - intros userID f w tasks n Hpage. split; [now apply (Hscoped _ _ _ _ n)|].
    unfold repository.FindByUserID in Hpage.
    apply find_page_tasks in Hpage. subst tasks.
    destruct (defaults_shape f) as [_ Hl]. rewrite <- Hl.
    assert (Hpos : 1 <= repository.Limit (repository.defaults f))
      by (rewrite Hl; destruct (Z.ltb_spec (repository.Limit f) 1); lia).
    unfold mongo.window.
    cbn [mongo.Sort mongo.Skip mongo.Limit mongo.SetSort mongo.SetLimit
         mongo.SetSkip].
    replace (repository.Limit (repository.defaults f) =? 0) with false
      by (symmetry; apply Z.eqb_neq; lia).
    pose proof (firstn_length_le
                  (Z.abs_nat (repository.Limit (repository.defaults f)))
                  (skipn (Z.to_nat (repository.skip_of (repository.defaults f)))
                     (mongo.sort_docs (mongo.sort_leb (mongo.ByCreatedAt (-1)))
                        (List.filter
                           (repository.with_status f
                              (fun t => (models.UserID t =? userID)%N))
                           (mongo.docs w))))) as Hlen.
    rewrite Zabs2Nat.abs_nat_nonneg in * by lia. lia.
  - intros user f w response Hrole. unfold service.ListTasks.
    replace (String.eqb (models.User_Role user) models.UserRoleAdmin)
      with false by (symmetry; now apply String.eqb_neq).
    unfold mongo.bind.
    destruct (repository.FindByUserID (models.User_ID user) f w)
      as [[[tasks n]|err] w1] eqn:Hpage; cbn [mongo.ret fst];
      [|discriminate].
    destruct (service.totalPages n (repository.Limit f));
      cbn [run_bind]; [|discriminate].
    intros H. injection H as <-. cbn [models.Tasks]. intros t Hin.
    destruct (Hscoped (models.User_ID user) f w tasks n) with (t := t)
      as (H1 & H2 & _); [now rewrite Hpage|exact Hin|]. auto.
Qed.

Lemma listings_are_scoped_to_the_owner_witness :
  models.User_Role sample.alice <> models.UserRoleAdmin /\
  exists response,
    fst (service.ListTasks sample.alice (repository.mkTaskFilter None 1 10)
           sample.store) = Returns (Ok response) /\
    forall t, In t (models.Tasks response) -> models.UserID t = 10%N.
Proof.
  split; [discriminate|].
  eexists. split; [reflexivity|]. intros t Hin.
  apply (proj2 listings_are_scoped_to_the_owner sample.alice
           (repository.mkTaskFilter None 1 10) sample.store _
           ltac:(discriminate) eq_refl t Hin).
Defined.

Lemma firstn_plus (a b : nat) (l : list models.Task) :
  firstn (a + b) l = firstn a l ++ firstn b (skipn a l).
Proof.
  revert l. induction a as [|a IH]; intros l; [reflexivity|].
  destruct l as [|x l]; cbn [Nat.add firstn skipn app].
  - now rewrite firstn_nil.
  - now rewrite IH.
Qed.

(** Consecutive windows of [size] records make up a prefix. *)
Lemma windows_concat (size : nat) (l : list models.Task) (pages : nat) :
  concat (map (fun k => firstn size (skipn ((k - 1) * size) l))
            (seq 1 pages))
  = firstn (pages * size) l.
Proof.
  induction pages as [|p IH]; [reflexivity|].
  rewrite seq_S, map_app, concat_app, IH. cbn [map concat Nat.add].
  rewrite app_nil_r.
  replace (S p - 1)%nat with p by lia.
  replace (S p * size)%nat with (p * size + size)%nat by lia.
  now rewrite firstn_plus.
Qed.

Lemma scope_set_Page (user : models.User) (f : repository.TaskFilter)
      (page : Z) :
  scope user (repository.set_Page page f) = scope user f.
Proof. reflexivity. Qed.

(** The listing of page [page] on a store whose driver calls the
    environment does not fail. *)
Lemma listed_window (user : models.User) (f : repository.TaskFilter)
      (w : mongo.World) (page : Z) :
  mongo.faults w = [] ->
  1 <= repository.Limit f ->
  1 <= page ->
  (page - 1) * repository.Limit f <= int64_max ->
  listed user (repository.set_Page page f) w
  = firstn (Z.to_nat (repository.Limit f))
      (skipn (Z.to_nat ((page - 1) * repository.Limit f))
         (mongo.sort_docs (mongo.sort_leb (mongo.ByCreatedAt (-1)))
            (List.filter (scope user f) (mongo.docs w)))).
Proof.
  intros quiet Hlimit Hpage Hfit. unfold listed, service.ListTasks.
  rewrite ListTasks_find_page, scope_set_Page. unfold mongo.bind.
  pose proof (find_page_window (scope user f) (repository.set_Page page f) w)
    as Hwin.
  cbn [repository.Page repository.Limit repository.set_Page] in Hwin.
  replace (page <? 1) with false in Hwin by (symmetry; apply Z.ltb_ge; lia).
  replace (repository.Limit f <? 1) with false in Hwin
    by (symmetry; apply Z.ltb_ge; lia).
  specialize (Hwin quiet Hfit).
  destruct (repository.find_page (scope user f)
              (repository.set_Page page f) w) as [r w1].
  cbn [fst] in Hwin. subst r. cbn [mongo.ret fst].
  cbn [repository.Limit repository.set_Page].
  destruct (totalPages_returns
              (Z.of_nat (length (List.filter (scope user f) (mongo.docs w))))
              (repository.Limit f) ltac:(lia)) as [pages ->].
  reflexivity.
Qed.

(** X6. Paging through a listing loses and repeats nothing.  On a store
    that does not change and whose driver calls the environment does not
    fail, with a limit of at least [1] and a collection whose size fits an
    [int], the pages [1] to [totalPages] that [ListTasks] returns, one
    after the other, are all the records in the caller's scope, each once,
    newest first. *)
Theorem pages_cover_the_listing
  (user : models.User) (f : repository.TaskFilter) (w : mongo.World) :
  mongo.faults w = [] ->
  1 <= repository.Limit f ->
  Z.of_nat (length (mongo.docs w)) <= int64_max ->
  exists pages : nat,
    service.totalPages
      (Z.of_nat (length (List.filter (scope user f) (mongo.docs w))))
      (repository.Limit f) = Returns (Z.of_nat pages) /\
    concat (map (fun k => listed user (repository.set_Page (Z.of_nat k) f) w)
              (seq 1 pages))
    = mongo.sort_docs (mongo.sort_leb (mongo.ByCreatedAt (-1)))
        (List.filter (scope user f) (mongo.docs w)) /\
    Permutation
      (concat (map (fun k => listed user
                               (repository.set_Page (Z.of_nat k) f) w)
                 (seq 1 pages)))
      (List.filter (scope user f) (mongo.docs w)) /\
    StronglySorted (fun a b => models.CreatedAt b <= models.CreatedAt a)
      (concat (map (fun k => listed user
                               (repository.set_Page (Z.of_nat k) f) w)
                 (seq 1 pages))).
Proof.
  intros quiet Hlimit Hsize.
  set (matching := List.filter (scope user f) (mongo.docs w)).
  set (sorted := mongo.sort_docs (mongo.sort_leb (mongo.ByCreatedAt (-1)))
                   matching).
  assert (Hcount : 0 <= Z.of_nat (length matching) <= int64_max).
  { split; [lia|].
    pose proof (filter_length_le (scope user f) (mongo.docs w)).
    fold matching in H. lia. }
  destruct (totalPages_ceiling (Z.of_nat (length matching))
              (repository.Limit f) Hcount ltac:(lia))
    as (tp & Htp & Hceil & Hzero).
  assert (Htp0 : 0 <= tp) by nia.
  exists (Z.to_nat tp). rewrite Z2Nat.id by exact Htp0.
  split; [exact Htp|].
  assert (Hcat :
    concat (map (fun k => listed user (repository.set_Page (Z.of_nat k) f) w)
              (seq 1 (Z.to_nat tp))) = sorted).
  { rewrite (map_ext_in _
               (fun k => firstn (Z.to_nat (repository.Limit f))
                           (skipn ((k - 1) * Z.to_nat (repository.Limit f))
                              sorted))).
    - rewrite windows_concat. apply firstn_all2.
      unfold sorted.
      rewrite (Permutation_length (sort_docs_perm _ matching)).
      apply Nat2Z.inj_le. rewrite Nat2Z.inj_mul, !Z2Nat.id by lia. nia.
    - intros k Hk. apply in_seq in Hk.
      unfold int64_max in *.
      rewrite listed_window; try assumption; try lia;
        [|unfold int64_max; nia].
      fold matching. fold sorted. do 2 f_equal.
      rewrite Z2Nat.inj_mul by lia.
      rewrite Z2Nat.inj_sub, Nat2Z.id by lia. reflexivity. }
  rewrite Hcat. split; [reflexivity|]. split.
  - apply sort_docs_perm.
  - eapply StronglySorted_weaken; [|apply sort_docs_sorted].
    + intros a b H. cbn in H. now apply Z.leb_le.
    + intros a b. cbn.
      destruct (Z.leb_spec (models.CreatedAt b) (models.CreatedAt a));
        [now left|right]. apply Z.leb_le. lia.
    + intros a b c. cbn. rewrite !Z.leb_le. lia.
Qed.

Lemma pages_cover_the_listing_witness :
  mongo.faults sample.store = [] /\
  concat (map (fun k => listed sample.root
                          (repository.mkTaskFilter None (Z.of_nat k) 2)
                          sample.store) (seq 1 2))
  = [sample.write_spec; sample.deploy; sample.review].
Proof.
  split; [reflexivity|].
  destruct (pages_cover_the_listing sample.root
              (repository.mkTaskFilter None 0 2) sample.store
              eq_refl ltac:(discriminate) ltac:(discriminate))
    as (pages & Hpages & Hcat & _).
  assert (pages = 2%nat) as ->.
  { cbn in Hpages. injection Hpages as Hp. lia. }
  exact Hcat.
Defined.

(** ** The scanner's queue *)










(** ** The scanner and the worker together *)

Lemma find_split_first (q : mongo.Query) (l : list models.Task)
      (t : models.Task) :
  find q l = Some t ->
  exists l1 l2,
    l = l1 ++ t :: l2 /\ q t = true /\ (forall u, In u l1 -> q u = false).
Proof.
  induction l as [|a l IH]; cbn [find]; [discriminate|].
  destruct (q a) eqn:Ha; intros H.
  - injection H as ->. exists [], l. repeat split; auto. intros u [].
  - destruct (IH H) as (l1 & l2 & -> & Ht & Hl1).
    exists (a :: l1), l2. repeat split; auto.
    intros u [<-|Hu]; auto.
Qed.

Lemma find_by_id_unique (l : list models.Task) (t : models.Task) :
  NoDup (map models.ID l) -> In t l ->
  find (repository.by_id (models.ID t)) l = Some t.
Proof.
  induction l as [|a l IH]; cbn [map find]; intros Hnd Hin; [contradiction|].
  inversion Hnd as [|x xs Hnotin Hnd']; subst.
  destruct Hin as [->|Hin].
  - unfold repository.by_id. now rewrite N.eqb_refl.
  - destruct (repository.by_id (models.ID t) a) eqn:Ha; [|now apply IH].
    apply by_id_true in Ha. exfalso. apply Hnotin. rewrite Ha.
    now apply in_map.
Qed.



(** ** Creating and listing *)

Lemma filter_snoc (q : mongo.Query) (l : list models.Task) (t : models.Task) :
  List.filter q (l ++ [t])
  = List.filter q l ++ (if q t then [t] else []).
Proof. rewrite filter_app. reflexivity. Qed.

(** X10. A created task shows in its owner's listing and in no other
    user's.  When the environment fails no driver call, the identifier is
    fresh and the limit is at least [1], a successful [CreateTask] raises
    by one the [TotalCount] the owner's unfiltered [ListTasks] reports,
    and leaves the answer [ListTasks] gives any other user who is no admin
    exactly as it was. *)
Theorem CreateTask_shows_in_owners_listing_only
  (generated : ObjectID) (owner other : models.User)
  (req : tasks.CreateTaskRequest) (f : repository.TaskFilter)
  (w : mongo.World) (t : models.Task) :
  mongo.faults w = [] ->
  models.User_Role owner <> models.UserRoleAdmin ->
  models.User_Role other <> models.UserRoleAdmin ->
  models.User_ID other <> models.User_ID owner ->
  1 <= repository.Limit f ->
  fst (tasks.CreateTask generated (models.User_ID owner) req w) = Ok t ->
  let w' := snd (tasks.CreateTask generated (models.User_ID owner) req w) in
  fst (service.ListTasks other f w') = fst (service.ListTasks other f w) /\
  (repository.Status f = None ->
   forall response,
     fst (service.ListTasks owner f w) = Returns (Ok response) ->
     exists response',
       fst (service.ListTasks owner f w') = Returns (Ok response') /\
       models.TotalCount response' = models.TotalCount response + 1).
Proof.
  intros quiet Howner Hother Hdiff Hlimit Hok w'.
  destruct (CreateTask_outcome generated (models.User_ID owner) req w)
    as [(e & He & _)|(Hrun & _ & _ & _ & Hfaults & Hdocs)]; [congruence|].
  rewrite Hok in Hrun. injection Hrun as Ht.
  fold w' in Hfaults, Hdocs. rewrite quiet in Hfaults. cbn [tl] in Hfaults.
  rewrite <- Ht in Hdocs.
  assert (Hlist : forall user w0,
             mongo.faults w0 = [] ->
             fst (service.ListTasks user f w0)
             = match fst (repository.find_page (scope user f) f w0) with
               | Ok (tasks, n) =>
                   run_bind (service.totalPages n (repository.Limit f))
                     (fun p => Returns (Ok (models.mkTaskListResponse tasks
                                              (repository.Page f)
                                              (repository.Limit f) n p)))
               | Err err => Returns (Err err)
               end).
  { intros user w0 _. unfold service.ListTasks.
    rewrite ListTasks_find_page. unfold mongo.bind.
    destruct (repository.find_page (scope user f) f w0)
      as [[[tasks n]|err] w1]; reflexivity. }
  assert (Hpage : forall user w0,
             mongo.faults w0 = [] ->
             fst (repository.find_page (scope user f) f w0)
             = if repository.skip_of (repository.defaults f) <? 0
               then Err "failed to find tasks: skip value must be non-negative"
               else Ok (mongo.window
                          (mongo.SetSort (mongo.ByCreatedAt (-1))
                             (mongo.SetLimit
                                (repository.Limit (repository.defaults f))
                                (mongo.SetSkip
                                   (repository.skip_of (repository.defaults f))
                                   mongo.Find_)))
                          (List.filter (scope user f) (mongo.docs w0)),
                        Z.of_nat (length (List.filter (scope user f)
                                            (mongo.docs w0))))).
  { intros user w0 Hq. destruct w0 as [d c r fl l]. cbn in Hq. subst fl.
    unfold repository.find_page, mongo.CountDocuments, mongo.Find, mongo.All.
    world. cbn [mongo.Skip mongo.SetSort mongo.SetLimit mongo.SetSkip].
    destruct (repository.skip_of (repository.defaults f) <? 0); reflexivity. }
  assert (Hscope_other : scope other f t = false).
  { unfold scope.
    replace (String.eqb (models.User_Role other) models.UserRoleAdmin)
      with false by (symmetry; now apply String.eqb_neq).
    unfold repository.with_status.
    assert (Hno : (models.UserID t =? models.User_ID other)%N = false).
    { apply N.eqb_neq. rewrite Ht. cbn [models.UserID]. congruence. }
    destruct (repository.Status f); rewrite Hno; reflexivity. }
  split.
  - rewrite !Hlist, !Hpage by assumption.
    rewrite Hdocs, filter_snoc, Hscope_other, app_nil_r. reflexivity.
  - intros Hnone response.
    assert (Hscope_owner : scope owner f t = true).
    { unfold scope.
      replace (String.eqb (models.User_Role owner) models.UserRoleAdmin)
        with false by (symmetry; now apply String.eqb_neq).
      unfold repository.with_status. rewrite Hnone.
      apply N.eqb_eq. rewrite Ht. reflexivity. }
    rewrite !Hlist, !Hpage by assumption.
    rewrite Hdocs, filter_snoc, Hscope_owner.
    destruct (repository.skip_of (repository.defaults f) <? 0);
      [discriminate|].
    rewrite length_app. cbn [length].
    destruct (totalPages_returns
                (Z.of_nat (length (List.filter (scope owner f) (mongo.docs w))))
                (repository.Limit f) ltac:(lia)) as [p ->].
    destruct (totalPages_returns
                (Z.of_nat (length (List.filter (scope owner f) (mongo.docs w))
                           + 1))
                (repository.Limit f) ltac:(lia)) as [p' ->].
    cbn [run_bind]. intros H. injection H as <-.
    eexists. split; [reflexivity|]. cbn [models.TotalCount]. lia.
Qed.

Lemma CreateTask_shows_in_owners_listing_only_witness :
  mongo.faults sample.store = [] /\
  fst (service.ListTasks sample.bob (repository.mkTaskFilter None 1 10)
         (snd (tasks.CreateTask 4%N 10%N
                 (tasks.mkCreateTaskRequest "Plan" "" "") sample.store)))
  = fst (service.ListTasks sample.bob (repository.mkTaskFilter None 1 10)
           sample.store).
Proof.
  split; [reflexivity|].
  apply (CreateTask_shows_in_owners_listing_only 4%N sample.alice sample.bob
           (tasks.mkCreateTaskRequest "Plan" "" "")
           (repository.mkTaskFilter None 1 10) sample.store
           (models.mkTask 4%N 10%N "Plan" "" "pending"
              1000000000000 1000000000000));
    try discriminate; reflexivity.
Defined.

(** ** Identifiers in hexadecimal *)

Lemma fromHexChar_hexChar (d : N) :
  (d < 16)%N -> primitive.fromHexChar (primitive.hexChar d) = Some d.
Proof.
  intros Hd. rewrite <- (N2Nat.id d).
  assert (Hn : (N.to_nat d < 16)%nat) by lia.
  generalize dependent (N.to_nat d). clear. intros n Hn.
  do 16 (destruct n as [|n]; [reflexivity|]). lia.
Qed.

Lemma fromHexChar_bound (c : ascii) (d : N) :
  primitive.fromHexChar c = Some d -> (d < 16)%N.
Proof.
  unfold primitive.fromHexChar.
  destruct ((48 <=? N_of_ascii c) && (N_of_ascii c <=? 57))%N eqn:H1.
  - apply andb_true_iff in H1. destruct H1 as [Ha Hb].
    apply N.leb_le in Ha, Hb. intros H. injection H as <-. lia.
  - destruct ((97 <=? N_of_ascii c) && (N_of_ascii c <=? 102))%N eqn:H2.
    + apply andb_true_iff in H2. destruct H2 as [Ha Hb].
      apply N.leb_le in Ha, Hb. intros H. injection H as <-. lia.
    + destruct ((65 <=? N_of_ascii c) && (N_of_ascii c <=? 70))%N eqn:H3;
        [|discriminate].
      apply andb_true_iff in H3. destruct H3 as [Ha Hb].
      apply N.leb_le in Ha, Hb. intros H. injection H as <-. lia.
Qed.

Lemma Encode_length (k : nat) :
  forall n acc,
    String.length (primitive.Encode k n acc) = (k + String.length acc)%nat.
Proof.
  induction k as [|k IH]; intros n acc; cbn [primitive.Encode];
    [reflexivity|].
  rewrite IH. cbn [String.length]. lia.
Qed.

(** Reading back the digits [Encode] wrote. *)
Lemma Decode_Encode (k : nat) :
  forall n acc a,
    primitive.Decode (primitive.Encode k n acc) a
    = primitive.Decode acc (a * 16 ^ N.of_nat k + n mod 16 ^ N.of_nat k)%N.
Proof.
  induction k as [|k IH]; intros n acc a.
  - cbn [primitive.Encode]. change (16 ^ N.of_nat 0)%N with 1%N.
    rewrite N.mod_1_r. f_equal. lia.
  - cbn [primitive.Encode]. rewrite IH. cbn [primitive.Decode].
    rewrite fromHexChar_hexChar by (apply N.mod_lt; discriminate).
    f_equal. rewrite Nat2N.inj_succ, N.pow_succ_r'.
    rewrite (N.Div0.mod_mul_r n 16 (16 ^ N.of_nat k)). lia.
Qed.

Lemma Decode_bound (s : string) :
  forall a r,
    primitive.Decode s a = Some r ->
    (r < (a + 1) * 16 ^ N.of_nat (String.length s))%N.
Proof.
  induction s as [|c s IH]; intros a r; cbn [primitive.Decode String.length].
  - intros H. injection H as <-. change (16 ^ N.of_nat 0)%N with 1%N. lia.
  - destruct (primitive.fromHexChar c) as [d|] eqn:Hc; [|discriminate].
    apply fromHexChar_bound in Hc. intros H. apply IH in H.
    rewrite Nat2N.inj_succ, N.pow_succ_r'.
    assert (0 < 16 ^ N.of_nat (String.length s))%N
      by (apply N.neq_0_lt_0, N.pow_nonzero; discriminate).
    nia.
Qed.

Lemma ObjectIDFromHex_Hex (id : ObjectID) :
  (id < 2 ^ 96)%N -> primitive.ObjectIDFromHex (primitive.Hex id) = Ok id.
Proof.
  intros Hid. unfold primitive.ObjectIDFromHex, primitive.Hex.
  rewrite Encode_length. cbn [String.length Nat.add Nat.eqb negb].
  rewrite Decode_Encode. cbn [primitive.Decode].
  change (16 ^ N.of_nat 24)%N with (2 ^ 96)%N.
  rewrite N.mod_small by exact Hid. reflexivity.
Qed.

Lemma ObjectIDFromHex_bound (s : string) (id : ObjectID) :
  primitive.ObjectIDFromHex s = Ok id ->
  String.length s = 24%nat /\ (id < 2 ^ 96)%N.
Proof.
  unfold primitive.ObjectIDFromHex.
  destruct (Nat.eqb_spec (String.length s) 24) as [Hlen|]; [|discriminate].
  cbn [negb]. destruct (primitive.Decode s 0) as [r|] eqn:Hd; [|discriminate].
  intros H. injection H as <-. split; [exact Hlen|].
  apply Decode_bound in Hd. rewrite Hlen in Hd.
  change (16 ^ N.of_nat 24)%N with (2 ^ 96)%N in Hd. lia.
Qed.

(** ** The handlers of single tasks *)

(** X11. The answers of the [GetTask] and [DeleteTask] handlers, when the
    environment fails no driver call.  Without a user in the context both
    answer 401 and with a route variable that is no identifier 400,
    touching nothing.  Otherwise: 404 when no task has the identifier; 403
    when the task exists and the caller is neither an admin nor its owner;
    and for an admin or the owner, [GetTask] answers 200 with the task and
    [DeleteTask] answers 200 and has removed it.  In all cases but the
    last the store is unchanged. *)
Theorem GetTask_DeleteTask_answers
  (r : task_handler.Request) (w : mongo.World) :
  mongo.faults w = [] ->
  (handler.ctxUser (task_handler.base r) = None ->
   task_handler.GetTask r w
     = (task_handler.RespondError 401 "unauthorized", w) /\
   task_handler.DeleteTask r w
     = (task_handler.RespondError 401 "unauthorized", w))
  /\
  (forall user e,
     handler.ctxUser (task_handler.base r) = Some user ->
     primitive.ObjectIDFromHex (handler.Get (task_handler.Vars r) "id")
       = Err e ->
     task_handler.GetTask r w
       = (task_handler.RespondError 400 "invalid task ID", w) /\
     task_handler.DeleteTask r w
       = (task_handler.RespondError 400 "invalid task ID", w))
  /\
  (forall user taskID,
     handler.ctxUser (task_handler.base r) = Some user ->
     primitive.ObjectIDFromHex (handler.Get (task_handler.Vars r) "id")
       = Ok taskID ->
     ((forall u, In u (mongo.docs w) -> models.ID u <> taskID) ->
      task_handler.GetTask r w
        = (task_handler.RespondError 404 "task not found", w) /\
      task_handler.DeleteTask r w
        = (task_handler.RespondError 404 "task not found", w))
     /\
     (forall l1 t l2,
        mongo.docs w = l1 ++ t :: l2 ->
        models.ID t = taskID ->
        (forall u, In u l1 -> models.ID u <> taskID) ->
        (models.User_Role user <> models.UserRoleAdmin ->
         models.UserID t <> models.User_ID user ->
         task_handler.GetTask r w
           = (task_handler.RespondError 403
                "you don't have permission to access this task", w) /\
         task_handler.DeleteTask r w
           = (task_handler.RespondError 403
                "you don't have permission to delete this task", w))
        /\
        (models.User_Role user = models.UserRoleAdmin \/
         models.UserID t = models.User_ID user ->
         task_handler.GetTask r w
           = (task_handler.mkResponse 200 (task_handler.Task t), w) /\
         fst (task_handler.DeleteTask r w)
           = task_handler.mkResponse 200
               (task_handler.Message "task deleted successfully") /\
         mongo.docs (snd (task_handler.DeleteTask r w)) = l1 ++ l2))).
Proof.
  intros quiet.
  unfold task_handler.GetTask, task_handler.DeleteTask,
    handler.GetUserFromContext.
  split; [|split].
  - intros ->. split; reflexivity.
  - intros user e -> ->. split; reflexivity.
  - intros user taskID -> ->.
    unfold service.GetTask, service.DeleteTask. world.
    rewrite (FindByID_quiet w quiet). split.
    + intros Habs.
      rewrite find_absent by (intros u Hu; apply by_id_false; auto).
      split; reflexivity.
    + intros l1 t l2 Hdocs Hid Hl1.
      assert (Hq : repository.by_id taskID t = true) by now apply by_id_true.
      assert (Hn : forall u, In u l1 -> repository.by_id taskID u = false)
        by (intros u Hu; apply by_id_false; auto).
      rewrite Hdocs, (find_first _ _ _ _ Hq Hn). split.
      * intros Hrole Howner.
        rewrite (proj2 (denied_true user t)) by (split; assumption).
        split; reflexivity.
      * intros Hallowed.
        rewrite (proj2 (denied_false user t) Hallowed).
        split; [reflexivity|].
        rewrite (Delete_quiet w quiet), existsb_find, Hdocs,
          (find_first _ _ _ _ Hq Hn).
        cbn [fst snd mongo.docs mongo.set_docs].
        rewrite (delete_first_split _ _ _ _ Hq Hn). split; reflexivity.
Qed.

Lemma GetTask_DeleteTask_answers_witness :
  mongo.faults sample.store = [] /\
  task_handler.GetTask (requests.deploy_by sample.alice) sample.store
    = (task_handler.RespondError 403
         "you don't have permission to access this task", sample.store) /\
  task_handler.GetTask (requests.deploy_by sample.bob) sample.store
    = (task_handler.mkResponse 200 (task_handler.Task sample.deploy),
       sample.store).
Proof.
  split; [reflexivity|].
  assert (Hl1 : forall u, In u [sample.write_spec; sample.review] ->
                          models.ID u <> 3%N)
    by (intros u [<-|[<-|[]]]; discriminate).
  split.
  - destruct (GetTask_DeleteTask_answers (requests.deploy_by sample.alice)
                sample.store eq_refl) as (_ & _ & Hfound).
    destruct (Hfound sample.alice 3%N eq_refl eq_refl) as (_ & Hstored).
    destruct (Hstored [sample.write_spec; sample.review] sample.deploy []
                eq_refl eq_refl Hl1) as (Hdenied & _).
    apply Hdenied; discriminate.
  - destruct (GetTask_DeleteTask_answers (requests.deploy_by sample.bob)
                sample.store eq_refl) as (_ & _ & Hfound).
    destruct (Hfound sample.bob 3%N eq_refl eq_refl) as (_ & Hstored).
    destruct (Hstored [sample.write_spec; sample.review] sample.deploy []
                eq_refl eq_refl Hl1) as (_ & Hallowed).
    apply Hallowed. right; reflexivity.
Defined.

(** X12. A failure of the driver never reaches the client of [GetTask]
    and [DeleteTask].  When the environment fails the lookup, with
    whatever message, the handlers answer 500 with the fixed texts "failed
    to get task" and "failed to delete task"; so does [DeleteTask] when
    the lookup succeeds, the caller may delete, and the deletion is what
    fails.  The store is unchanged in each case. *)
Theorem driver_failures_answered_500
  (r : task_handler.Request) (w : mongo.World)
  (user : models.User) (taskID : ObjectID) (msg : string) :
  handler.ctxUser (task_handler.base r) = Some user ->
  primitive.ObjectIDFromHex (handler.Get (task_handler.Vars r) "id")
    = Ok taskID ->
  (forall fs,
     mongo.faults w = Some msg :: fs ->
     fst (task_handler.GetTask r w)
       = task_handler.RespondError 500 "failed to get task" /\
     fst (task_handler.DeleteTask r w)
       = task_handler.RespondError 500 "failed to delete task" /\
     mongo.docs (snd (task_handler.GetTask r w)) = mongo.docs w /\
     mongo.docs (snd (task_handler.DeleteTask r w)) = mongo.docs w)
  /\
  (forall fs t,
     mongo.faults w = None :: Some msg :: fs ->
     find (repository.by_id taskID) (mongo.docs w) = Some t ->
     service.denied user t = false ->
     fst (task_handler.DeleteTask r w)
       = task_handler.RespondError 500 "failed to delete task" /\
     mongo.docs (snd (task_handler.DeleteTask r w)) = mongo.docs w).
Proof.
  intros Huser Hid.
  unfold task_handler.GetTask, task_handler.DeleteTask,
    handler.GetUserFromContext. rewrite Huser, Hid.
  unfold service.GetTask, service.DeleteTask, repository.FindByID,
    repository.Delete, mongo.FindOne, mongo.DeleteOne.
  destruct w as [d c rd f l]. split.
  - intros fs Hf. cbn in Hf. subst f. world. cbn. repeat split.
  - intros fs t Hf Hfind Hallowed. cbn in Hf, Hfind. subst f. world.
    rewrite Hfind. world. rewrite Hallowed. world. cbn. split; reflexivity.
Qed.

Lemma driver_failures_answered_500_witness :
  handler.ctxUser (task_handler.base (requests.deploy_by sample.bob))
    = Some sample.bob /\
  mongo.faults requests.failing = [Some "connection reset"] /\
  fst (task_handler.GetTask (requests.deploy_by sample.bob) requests.failing)
    = task_handler.RespondError 500 "failed to get task".
Proof.
  split; [reflexivity|]. split; [reflexivity|].
  apply (proj1 (driver_failures_answered_500
                  (requests.deploy_by sample.bob) requests.failing
                  sample.bob 3%N "connection reset" eq_refl eq_refl) []).
  reflexivity.
Defined.



(** ** Registration and login *)

Section Auth.

Variable GenerateFromPassword : string -> go_result string.
Variable CompareHashAndPassword : string -> string -> bool.
Variable SignedString : users.Claims -> go_result string.
Variable Parse :
  string -> (bool -> string -> go_result unit) -> go_result users.ParsedToken.



(** Every outcome of [Login] on a request with an email and a password,
    whatever the environment does to the lookup. *)
Lemma Login_outcome (us : list models.User) (req : users.LoginRequest)
      (w : mongo.World) :
  users.Login_Email req <> "" -> users.Login_Password req <> "" ->
  fst (users.Login CompareHashAndPassword SignedString us req w)
    = Err "invalid credentials"
  \/
  (exists user,
     find (users.by_email (users.Login_Email req)) us = Some user /\
     CompareHashAndPassword (models.User_Password user)
       (users.Login_Password req) = true /\
     fst (users.Login CompareHashAndPassword SignedString us req w)
     = match SignedString
               (users.mkClaims (primitive.Hex (models.User_ID user))
                  (models.User_Email user) (models.User_Role user)
                  (users.Unix (Time_Add (mongo.clock w (mongo.reads w))
                                 (24 * users.Hour)))) with
       | Ok token => Ok (users.mkLoginResponse token user)
       | Err err => Err ("failed to generate token: " ++ err)%string
       end).
Proof.
  intros Hemail Hpw. unfold users.Login.
  destruct (String.eqb_spec (users.Login_Email req) ""); [contradiction|].
  destruct (String.eqb_spec (users.Login_Password req) ""); [contradiction|].
  cbn [orb].
  unfold users.FindByEmail, users.FindOne, users.generateToken.
  destruct w as [d c r f l]. world.
  destruct f as [|[m1|] fs]; world; try (left; reflexivity);
    (destruct (find (users.by_email (users.Login_Email req)) us) as [user|];
     [|left; reflexivity]);
    world;
    (destruct (CompareHashAndPassword (models.User_Password user)
                 (users.Login_Password req)) eqn:Hcmp;
     [|left; reflexivity]);
    right; exists user; cbn [negb]; world;
    (split; [reflexivity|]); (split; [exact Hcmp|]);
    destruct (SignedString _); reflexivity.
Qed.

(** X15. [Login] gives nothing away and lets in only who knows the
    password.  On a request with an email and a password, whatever the
    environment does to the lookup: the only error besides a failure to
    sign the token is "invalid credentials", the same for an unknown
    email, a wrong password and a lookup that fails; and a login that
    succeeds returns a stored user with the requested email whose stored
    hash matches the requested password. *)
Theorem Login_only_with_matching_password
  (us : list models.User) (req : users.LoginRequest) (w : mongo.World) :
  users.Login_Email req <> "" -> users.Login_Password req <> "" ->
  (forall e,
     fst (users.Login CompareHashAndPassword SignedString us req w) = Err e ->
     e = "invalid credentials" \/
     exists err, e = ("failed to generate token: " ++ err)%string)
  /\
  (forall response,
     fst (users.Login CompareHashAndPassword SignedString us req w)
       = Ok response ->
     In (users.User response) us /\
     models.User_Email (users.User response) = users.Login_Email req /\
     CompareHashAndPassword (models.User_Password (users.User response))
       (users.Login_Password req) = true)
  /\
  (mongo.faults w = [] ->
   (forall u, In u us -> models.User_Email u <> users.Login_Email req) ->
   fst (users.Login CompareHashAndPassword SignedString us req w)
     = Err "invalid credentials")
  /\
  (mongo.faults w = [] ->
   forall user,
     find (users.by_email (users.Login_Email req)) us = Some user ->
     CompareHashAndPassword (models.User_Password user)
       (users.Login_Password req) = false ->
     fst (users.Login CompareHashAndPassword SignedString us req w)
       = Err "invalid credentials").
Proof.
  intros Hemail Hpw. repeat apply conj.
  - intros e He.
    destruct (Login_outcome us req w Hemail Hpw)
      as [Hbad|(user & _ & _ & Hrun)].
    + left. congruence.
    + rewrite Hrun in He. destruct (SignedString _); [discriminate|].
      injection He as <-. right. eexists. reflexivity.
  - intros response Hresp.
    destruct (Login_outcome us req w Hemail Hpw)
      as [Hbad|(user & Hfind & Hcmp & Hrun)]; [congruence|].
    rewrite Hrun in Hresp. destruct (SignedString _); [|discriminate].
    injection Hresp as <-. cbn [users.User].
    apply find_some in Hfind. destruct Hfind as [Hin Hq].
    split; [exact Hin|]. split; [|exact Hcmp].
    now apply String.eqb_eq.
  - intros quiet Hnone.
    destruct (Login_outcome us req w Hemail Hpw)
      as [Hbad|(user & Hfind & _)]; [exact Hbad|].
    apply find_some in Hfind. destruct Hfind as [Hin Hq].
    apply String.eqb_eq in Hq. exfalso. exact (Hnone user Hin Hq).
  - intros quiet user Hfind Hcmp.
    destruct (Login_outcome us req w Hemail Hpw)
      as [Hbad|(user' & Hfind' & Hcmp' & _)]; [exact Hbad|].
    congruence.
Qed.




Lemma find_user_by_id_unique (us : list models.User) (u : models.User) :
  NoDup (map models.User_ID us) -> In u us ->
  find (users.by_id (models.User_ID u)) us = Some u.
Proof.
  induction us as [|a us IH]; cbn [map find]; intros Hnd Hin; [contradiction|].
  inversion Hnd as [|x xs Hnotin Hnd']; subst.
  destruct Hin as [->|Hin].
  - unfold users.by_id. now rewrite N.eqb_refl.
  - destruct (users.by_id (models.User_ID u) a) eqn:Ha; [|now apply IH].
    apply N.eqb_eq in Ha. exfalso. apply Hnotin. rewrite Ha.
    now apply in_map.
Qed.

(** X17. A token [Login] issued validates to the user who logged in.  Let
    [jwt.Parse], given the key function of [ValidateToken], read back from
    a signed token a valid token with the [user_id] that was signed; let
    the identifiers of the users be unique and twelve bytes long.  Then
    for every login that succeeded, [ValidateToken] on its token, on a
    store whose lookup the environment does not fail, returns the user of
    that login. *)
Theorem Login_token_validates
  (us : list models.User) (req : users.LoginRequest)
  (response : users.LoginResponse) (w w2 : mongo.World) :
  (forall claims token,
     SignedString claims = Ok token ->
     Parse token users.keyFunc
     = Ok (users.mkParsedToken true true
             (Some (users.claim_user_id claims)))) ->
  NoDup (map models.User_ID us) ->
  (forall u, In u us -> (models.User_ID u < 2 ^ 96)%N) ->
  users.Login_Email req <> "" -> users.Login_Password req <> "" ->
  fst (users.Login CompareHashAndPassword SignedString us req w)
    = Ok response ->
  mongo.faults w2 = [] ->
  fst (users.ValidateToken Parse us (users.Token response) w2)
    = Ok (users.User response).
Proof.
  intros Hjwt Hnd Hbytes Hemail Hpw Hlogin quiet.
  destruct (Login_outcome us req w Hemail Hpw)
    as [Hbad|(user & Hfind & _ & Hrun)]; [congruence|].
  rewrite Hrun in Hlogin.
  destruct (SignedString _) as [token|] eqn:Hsign; [|discriminate].
  injection Hlogin as <-. cbn [users.Token users.User].
  apply find_some in Hfind. destruct Hfind as [Hin _].
  unfold users.ValidateToken. rewrite (Hjwt _ _ Hsign).
  cbn [users.Valid users.isMapClaims users.user_id users.claim_user_id negb].
  rewrite ObjectIDFromHex_Hex by auto.
  unfold users.FindByID, users.FindOne.
  destruct w2 as [d c r f l]. cbn in quiet. subst f. world.
  rewrite (find_user_by_id_unique us user Hnd Hin). reflexivity.
Qed.

Lemma Split_nonempty (s : string) (sep : ascii) : users.Split s sep <> [].
Proof.
  destruct s as [|c s]; cbn [users.Split]; [discriminate|].
  destruct (Ascii.eqb c sep); [discriminate|].
  destruct (users.Split s sep); discriminate.
Qed.

Lemma Split_one (sep : ascii) (s : string) :
  forall b, users.Split s sep = [b] ->
            s = b /\ ~ In sep (list_ascii_of_string b).
Proof.
  induction s as [|c s IH]; intros b; cbn [users.Split].
  - intros H. injection H as <-. split; [reflexivity|intros []].
  - destruct (Ascii.eqb_spec c sep) as [->|Hc].
    + intros H. injection H as _ H. now apply Split_nonempty in H.
    + destruct (users.Split s sep) as [|p ps] eqn:Hs;
        [now apply Split_nonempty in Hs|].
      intros H. injection H as <- ->.
      destruct (IH p eq_refl) as [-> Hp]. split; [reflexivity|].
      cbn [list_ascii_of_string]. intros [Heq|Hin]; [congruence|auto].
Qed.

Lemma Split_two (sep : ascii) (s : string) :
  forall a b,
    users.Split s sep = [a; b] ->
    s = (a ++ String sep b)%string /\
    ~ In sep (list_ascii_of_string b).
Proof.
  induction s as [|c s IH]; intros a b; cbn [users.Split].
  - discriminate.
  - destruct (Ascii.eqb_spec c sep) as [->|Hc].
    + intros H. injection H as <- H.
      destruct (Split_one sep s b H) as [-> Hb]. split; [reflexivity|exact Hb].
    + destruct (users.Split s sep) as [|p ps] eqn:Hs;
        [now apply Split_nonempty in Hs|].
      intros H. injection H as <- ->.
      destruct (IH p b eq_refl) as [-> Hb]. split; [reflexivity|exact Hb].
Qed.

Lemma Split_whole (sep : ascii) (s : string) :
  ~ In sep (list_ascii_of_string s) -> users.Split s sep = [s].
Proof.
  induction s as [|c s IH]; cbn [users.Split list_ascii_of_string];
    [reflexivity|].
  intros Hno. destruct (Ascii.eqb_spec c sep) as [->|Hc].
  - exfalso. apply Hno. now left.
  - rewrite IH; [reflexivity|]. intros Hin. apply Hno. now right.
Qed.

Lemma Split_at (sep : ascii) (a b : string) :
  ~ In sep (list_ascii_of_string a) ->
  users.Split (a ++ String sep b) sep = a :: users.Split b sep.
Proof.
  induction a as [|c a IH]; cbn [append users.Split list_ascii_of_string].
  - intros _. now rewrite Ascii.eqb_refl.
  - intros Hno. destruct (Ascii.eqb_spec c sep) as [->|Hc].
    + exfalso. apply Hno. now left.
    + rewrite IH; [reflexivity|]. intros Hin. apply Hno. now right.
Qed.

(** Whatever the environment does, a validated token names a stored
    user. *)
Lemma ValidateToken_stored (us : list models.User) (tokenString : string)
      (w : mongo.World) (user : models.User) :
  fst (users.ValidateToken Parse us tokenString w) = Ok user -> In user us.
Proof.
  unfold users.ValidateToken.
  destruct (Parse tokenString users.keyFunc) as [token|]; [|discriminate].
  destruct (users.Valid token); [|discriminate].
  destruct (users.isMapClaims token); [|discriminate]. cbn [negb].
  destruct (users.user_id token) as [userIDStr|]; [|discriminate].
  destruct (primitive.ObjectIDFromHex userIDStr) as [userID|]; [|discriminate].
  unfold users.FindByID, users.FindOne.
  destruct w as [d c r f l]. world.
  destruct f as [|[m|] fs]; world; try discriminate;
    (destruct (find (users.by_id userID) us) as [u|] eqn:Hfind;
     [|discriminate]);
    intros H; injection H as <-; exact (proj1 (find_some _ _ Hfind)).
Qed.

(** X18. [AuthMiddleware] lets a request through to the next handler only
    with a header of the form "Bearer " followed by a token without a
    space that [ValidateToken] accepts, and then with the validated user,
    a stored one, in the context.  A request without the header, with a
    header of another form, or with a token that does not validate is
    answered 401 by the middleware itself. *)
Theorem AuthMiddleware_admits_validated_users_only
  (us : list models.User)
  (next : task_handler.Request -> mongo.M task_handler.Response)
  (authHeader : string) (r : task_handler.Request) (w : mongo.World) :
  (authHeader = "" ->
   users.AuthMiddleware Parse us next authHeader r w
   = (task_handler.RespondError 401 "missing authorization header", w))
  /\
  (authHeader <> "" ->
   (forall token,
      ~ In " "%char (list_ascii_of_string token) ->
      authHeader <> ("Bearer " ++ token)%string) ->
   users.AuthMiddleware Parse us next authHeader r w
   = (task_handler.RespondError 401 "invalid authorization header format",
      w))
  /\
  (forall token,
     ~ In " "%char (list_ascii_of_string token) ->
     authHeader = ("Bearer " ++ token)%string ->
     users.AuthMiddleware Parse us next authHeader r w
     = match users.ValidateToken Parse us token w with
       | (Err _, w') =>
           (task_handler.RespondError 401 "invalid or expired token", w')
       | (Ok user, w') =>
           next (task_handler.mkRequest
                   (handler.mkRequest (Some user)
                      (handler.URLQuery (task_handler.base r)))
                   (task_handler.Vars r) (task_handler.Body r)) w'
       end /\
     (forall user,
        fst (users.ValidateToken Parse us token w) = Ok user ->
        In user us)).
Proof.
  repeat apply conj.
  - intros ->. reflexivity.
  - intros Hne Hform. unfold users.AuthMiddleware.
    destruct (String.eqb_spec authHeader ""); [contradiction|].
    destruct (users.Split authHeader " ") as [|p0 [|p1 [|p2 ps]]] eqn:Hsplit;
      try reflexivity.
    cbn [length Nat.eqb negb orb nth].
    destruct (String.eqb_spec p0 "Bearer") as [->|]; [|reflexivity].
    apply Split_two in Hsplit. destruct Hsplit as [Hh Hp1].
    exfalso. exact (Hform p1 Hp1 Hh).
  - intros token Htoken ->. split; [|intros user; apply ValidateToken_stored].
    unfold users.AuthMiddleware.
    destruct (String.eqb_spec ("Bearer " ++ token) "") as [Heq|_];
      [cbn in Heq; discriminate Heq|].
    change ("Bearer " ++ token)%string
      with ("Bearer" ++ String " " token)%string.
    rewrite Split_at
      by (cbn; intros [H|[H|[H|[H|[H|[H|[]]]]]]]; discriminate H).
    rewrite (Split_whole _ _ Htoken).
    cbn [length Nat.eqb negb orb nth]. rewrite String.eqb_refl.
    cbn [negb]. unfold mongo.bind.
    destruct (users.ValidateToken Parse us token w) as [[user|e] w'];
      reflexivity.
Qed.

End Auth.


Lemma Login_only_with_matching_password_witness :
  users.Login_Email (users.mkLoginRequest "carol@example.org" "guess") <> "" /\
  users.Login_Password (users.mkLoginRequest "carol@example.org" "guess")
    <> "" /\
  fst (users.Login requests.compare requests.sign [requests.carol]
         (users.mkLoginRequest "carol@example.org" "guess") sample.store)
  = Err "invalid credentials".
Proof.
  split; [discriminate|]. split; [discriminate|].
  destruct (Login_only_with_matching_password requests.compare requests.sign
              [requests.carol]
              (users.mkLoginRequest "carol@example.org" "guess") sample.store)
    as (_ & _ & _ & Hwrong); try discriminate.
  exact (Hwrong eq_refl requests.carol eq_refl eq_refl).
Defined.


Lemma Login_token_validates_witness :
  NoDup (map models.User_ID [requests.carol]) /\
  mongo.faults sample.store = [] /\
  exists response,
    fst (users.Login requests.compare requests.sign [requests.carol]
           (users.mkLoginRequest "carol@example.org" "secret1") sample.store)
      = Ok response /\
    fst (users.ValidateToken requests.parse [requests.carol]
           (users.Token response) sample.store) = Ok requests.carol.
Proof.
  assert (Hnd : NoDup (map models.User_ID [requests.carol]))
    by (repeat constructor; intros []).
  split; [exact Hnd|]. split; [reflexivity|].
  exists (users.mkLoginResponse "000000000000000000000014" requests.carol).
  split; [reflexivity|].
  apply (Login_token_validates requests.compare requests.sign requests.parse
           [requests.carol]
           (users.mkLoginRequest "carol@example.org" "secret1")
           (users.mkLoginResponse "000000000000000000000014" requests.carol)
           sample.store sample.store).
  - intros claims token H. injection H as <-. reflexivity.
  - exact Hnd.
  - intros u [<-|[]]. reflexivity.
  - discriminate.
  - discriminate.
  - reflexivity.
  - reflexivity.
Defined.

Lemma AuthMiddleware_admits_validated_users_only_witness :
  users.AuthMiddleware requests.parse [requests.carol] task_handler.GetTask
    "Basic 000000000000000000000014" (requests.deploy_by sample.alice)
    sample.store
  = (task_handler.RespondError 401 "invalid authorization header format",
     sample.store) /\
  users.AuthMiddleware requests.parse [requests.carol] task_handler.GetTask
    "Bearer 000000000000000000000014" (requests.deploy_by sample.alice)
    sample.store
  = task_handler.GetTask (requests.deploy_by requests.carol) sample.store.
Proof.
  destruct (AuthMiddleware_admits_validated_users_only requests.parse
              [requests.carol] task_handler.GetTask
              "Basic 000000000000000000000014"
              (requests.deploy_by sample.alice) sample.store)
    as (_ & Hform & _).
  destruct (AuthMiddleware_admits_validated_users_only requests.parse
              [requests.carol] task_handler.GetTask
              "Bearer 000000000000000000000014"
              (requests.deploy_by sample.alice) sample.store)
    as (_ & _ & Hbearer).
  split.
  - apply Hform; [discriminate|].
    intros token _ H. discriminate H.
  - destruct (Hbearer "000000000000000000000014") as [Hrun _].
    + cbn. intuition discriminate.
    + reflexivity.
    + rewrite Hrun. reflexivity.
Defined.

(** ** Configuration *)





(** ** Deleting, completing and looking again *)

Lemma delete_first_other (id id' : ObjectID) (l : list models.Task) :
  id' <> id ->
  find (repository.by_id id') (mongo.delete_first (repository.by_id id) l)
  = find (repository.by_id id') l.
Proof.
  intros Hne. induction l as [|a l IH]; cbn [mongo.delete_first find];
    [reflexivity|].
  destruct (repository.by_id id a) eqn:Ha.
  - apply by_id_true in Ha.
    replace (repository.by_id id' a) with false; [reflexivity|].
    symmetry. apply by_id_false. congruence.
  - cbn [find]. destruct (repository.by_id id' a); [reflexivity|exact IH].
Qed.

(** X20. Delete, then look up.  When the environment fails no driver
    call and identifiers are unique, after a [DeleteTask] that returned no
    error the identifier is gone: [FindByID] and [GetTask] answer "task
    not found" for it, a second [DeleteTask] does too, and every other
    identifier is looked up as before. *)
Theorem DeleteTask_then_not_found
  (taskID : ObjectID) (user : models.User) (w : mongo.World) :
  mongo.faults w = [] ->
  NoDup (map models.ID (mongo.docs w)) ->
  fst (service.DeleteTask taskID user w) = Ok tt ->
  let w' := snd (service.DeleteTask taskID user w) in
  fst (repository.FindByID taskID w') = Err "task not found" /\
  (forall anyone, fst (service.GetTask taskID anyone w')
                  = Err "task not found") /\
  (forall anyone, fst (service.DeleteTask taskID anyone w')
                  = Err "task not found") /\
  (forall id, id <> taskID ->
              fst (repository.FindByID id w')
              = fst (repository.FindByID id w)).
Proof.
  intros quiet Hnd Hok w'.
  assert (Hrun : w' = mongo.set_docs
                        (mongo.delete_first (repository.by_id taskID)
                           (mongo.docs w)) w).
  { unfold w'. revert Hok. unfold service.DeleteTask. world.
    rewrite (FindByID_quiet w quiet).
    destruct (find (repository.by_id taskID) (mongo.docs w)) as [t|] eqn:Hf;
      [|discriminate].
    destruct (service.denied user t); [discriminate|].
    rewrite (Delete_quiet w quiet), existsb_find, Hf. reflexivity. }
  assert (quiet' : mongo.faults w' = []) by (rewrite Hrun; exact quiet).
  assert (Hgone : find (repository.by_id taskID) (mongo.docs w') = None).
  { rewrite Hrun. cbn [mongo.docs mongo.set_docs].
    apply find_absent. intros u Hu. apply by_id_false.
    exact (delete_first_absent taskID _ Hnd u Hu). }
  repeat apply conj.
  - rewrite (FindByID_quiet w' quiet'), Hgone. reflexivity.
  - intros anyone. unfold service.GetTask. world.
    rewrite (FindByID_quiet w' quiet'), Hgone. reflexivity.
  - intros anyone. unfold service.DeleteTask. world.
    rewrite (FindByID_quiet w' quiet'), Hgone. reflexivity.
  - intros id Hne.
    rewrite (FindByID_quiet w' quiet'), (FindByID_quiet w quiet).
    cbn [fst]. rewrite Hrun. cbn [mongo.docs mongo.set_docs].
    now rewrite delete_first_other.
Qed.

Lemma DeleteTask_then_not_found_witness :
  mongo.faults sample.store = [] /\
  fst (service.DeleteTask 3%N sample.bob sample.store) = Ok tt /\
  fst (repository.FindByID 3%N
         (snd (service.DeleteTask 3%N sample.bob sample.store)))
  = Err "task not found".
Proof.
  split; [reflexivity|]. split; [reflexivity|].
  apply (DeleteTask_then_not_found 3%N sample.bob sample.store eq_refl).
  - cbn. repeat constructor; cbn; intuition discriminate.
  - reflexivity.
Defined.

(** X21. What the worker completed the scanner does not find again.  When
    the environment fails no driver call and identifiers are unique, after
    [autoCompleteTask] ran on a stored record that was [pending] or
    [in_progress] and older than the threshold, no eligibility query on
    the resulting collection, with any threshold, returns a record with
    that identifier. *)
Theorem completed_is_not_scanned_again
  (tw : worker.TaskWorker) (w : mongo.World) (t : models.Task) :
  mongo.faults w = [] ->
  NoDup (map models.ID (mongo.docs w)) ->
  In t (mongo.docs w) ->
  models.Status t = models.TaskStatusPending \/
  models.Status t = models.TaskStatusInProgress ->
  models.CreatedAt t
    < mongo.clock w (mongo.reads w) + worker.autoCompleteWindow tw ->
  let w' := snd (worker.autoCompleteTask tw (models.ID t) w) in
  forall olderThan w2 tasks,
    mongo.docs w2 = mongo.docs w' ->
    fst (repository.FindPendingTasks olderThan w2) = Ok tasks ->
    forall u, In u tasks -> models.ID u <> models.ID t.
Proof.
  intros quiet Hnd Hin Hstatus Hold w' olderThan w2 tasks Hsame Hscan u Hu.
  assert (Hfind : find (repository.by_id (models.ID t)) (mongo.docs w)
                  = Some t) by now apply find_by_id_unique.
  assert (Hopen : worker.still_open t = true) by now apply still_open_true.
  assert (Hdue : Time_Before (models.CreatedAt t)
                   (Time_Add (mongo.clock w (mongo.reads w))
                      (worker.autoCompleteWindow tw)) = true)
    by (apply Z.ltb_lt; exact Hold).
  destruct (find_split_first _ _ _ Hfind) as (l1 & l2 & Hdocs & Hq & Hn).
  assert (Hdocs' : mongo.docs w'
                   = l1 ++ repository.set_status models.TaskStatusCompleted
                             (mongo.clock w (S (mongo.reads w))) t :: l2).
  { unfold w'.
    rewrite (autoCompleteTask_due tw (models.ID t) w quiet t Hfind Hopen Hdue).
    rewrite (UpdateStatus_quiet (snd (mongo.Now w)) quiet).
    change (mongo.docs (snd (mongo.Now w))) with (mongo.docs w).
    rewrite existsb_find, Hfind.
    unfold mongo.Printf, mongo.set_log.
    cbn [snd mongo.docs mongo.set_docs].
    now rewrite Hdocs, (update_first_split _ _ _ _ _ Hq Hn). }
  assert (Hmember : In u (mongo.docs w2) /\ worker.still_open u = true).
  { revert Hscan Hu. clear.
    unfold repository.FindPendingTasks, mongo.Find, mongo.All.
    destruct w2 as [d k r f l]. world.
    destruct f as [|[m1|] [|[m2|] f]]; cbn; try discriminate;
      intros H; injection H as <-; intros Hin;
      apply (Permutation_in _ (sort_docs_perm _ _)) in Hin;
      apply filter_In in Hin; destruct Hin as [Hin Hq];
      (split; [exact Hin|]);
      apply pending_before_true in Hq; apply still_open_true; apply Hq. }
  destruct Hmember as [Hu2 Hopen_u]. rewrite Hsame, Hdocs' in Hu2.
  intros Heq.
  assert (Hids : NoDup (map models.ID (l1 ++ t :: l2)))
    by (rewrite <- Hdocs; exact Hnd).
  rewrite map_app in Hids. cbn [map] in Hids.
  apply in_app_or in Hu2. destruct Hu2 as [Hu2|[Hu2|Hu2]].
  - apply (Hn u) in Hu2. apply by_id_false in Hu2. contradiction.
  - subst u. discriminate Hopen_u.
  - apply NoDup_remove_2 in Hids. apply Hids. apply in_or_app. right.
    rewrite <- Heq. now apply in_map.
Qed.

Lemma completed_is_not_scanned_again_witness :
  mongo.faults sample.store = [] /\
  In sample.deploy (mongo.docs sample.store) /\
  fst (repository.FindPendingTasks 1000
         (snd (worker.autoCompleteTask sample.tenMinutes 3%N sample.store)))
    = Ok [sample.write_spec] /\
  models.ID sample.write_spec <> 3%N.
Proof.
  split; [reflexivity|].
  assert (Hin : In sample.deploy (mongo.docs sample.store))
    by (right; right; left; reflexivity).
  split; [exact Hin|]. split; [reflexivity|].
  apply (completed_is_not_scanned_again sample.tenMinutes sample.store
           sample.deploy eq_refl) with
    (olderThan := 1000)
    (w2 := snd (worker.autoCompleteTask sample.tenMinutes 3%N sample.store))
    (tasks := [sample.write_spec]).
  - cbn. repeat constructor; cbn; intuition discriminate.
  - exact Hin.
  - right; reflexivity.
  - reflexivity.
  - reflexivity.
  - reflexivity.
  - left; reflexivity.
Defined.
